(** * pulp_rpm: viewsets, modulemd serializers and the checkpoint read path

    A shallow embedding of

    - [pulp_rpm/app/viewsets/repository.py]: the sync, publish and copy
      triggers ([RpmRepositoryViewSet.sync], [RpmPublicationViewSet.create],
      [CopyViewSet.create] and [CopyViewSet._process_config]), and the
      access policies and locked roles the viewsets declare;
    - [pulp_rpm/app/serializers/modulemd.py]: [ModulemdSerializer.create] and
      [ModulemdDefaultsSerializer.create], and the fields the three
      serializers declare;
    - [pulp_rpm/tests/functional/api/test_checkpoint.py]: the timestamp
      format and the checkpoint URL of the tests;
    - the collaborators those functions call (the task dispatcher, the lock
      manager, the content store, the checkpoint resolver), which live in
      pulpcore and are modelled from the specification.

    Python dictionaries are finite maps from strings to dynamically typed
    values, exceptions are an error monad over the state of the database and
    of the task queue. *)

From Stdlib Require Import ZArith String Ascii List Lia Bool DecimalString.
From stdpp Require Import base option gmap strings list.
From Equations Require Import Equations.

Set Warnings "-register-all".

Local Open Scope Z_scope.

(** ** Model instances *)

(** Primary keys are UUIDs; [str] is Python's [str(uuid)]. *)
Abbreviation UUID := string (only parsing).

Definition str (u : UUID) : string := u.

Module RpmRemote.
Record t := mk { pk : UUID; name : string }.
End RpmRemote.

(** pulpcore's [Repository]: the master model a [RepositoryVersion] points to
    and the task dispatcher locks. *)
Module Repository.
Record t := mk { pk : UUID; name : string }.
End Repository.

Module RepositoryVersion.
Record t := mk { pk : UUID; repository : Repository.t; number : Z }.
End RepositoryVersion.

(** ** Python values *)

Inductive val :=
| VNone
| VBool (b : bool)
| VInt (z : Z)
| VStr (s : string)
| VUuid (u : UUID)
| VList (l : list val)
| VDict (d : gmap string val)
| VRemote (r : RpmRemote.t)
| VVersion (v : RepositoryVersion.t).

(** Python's truth value testing ([if x:], [not x]). *)
Definition truthy (v : val) : bool :=
  match v with
  | VNone => false
  | VBool b => b
  | VInt z => negb (z =? 0)
  | VStr s => negb (String.eqb s "")
  | VUuid _ => true
  | VList l => match l with [] => false | _ => true end
  | VDict d => negb (Nat.eqb (size d) 0)
  | VRemote _ => true
  | VVersion _ => true
  end.

(** [d.get(k)] and [d.get(k, default)] on a [dict]. *)
Definition dict_get (d : gmap string val) (k : string) : val :=
  default VNone (d !! k).

Definition dict_get_default (d : gmap string val) (k : string) (dflt : val) : val :=
  default dflt (d !! k).

(** [v == s] for a string constant [s]. *)
Definition eq_str (v : val) (s : string) : bool :=
  match v with
  | VStr s' => String.eqb s' s
  | _ => false
  end.

(** [str(n)] for an [int]. *)
Definition str_int (n : Z) : string := NilZero.string_of_int (Z.to_int n).

Module RpmSigningService.
Record t := mk { pk : UUID }.
End RpmSigningService.

Module RpmRepository.
Record t := mk {
  base : Repository.t;
  remote : option RpmRemote.t;
  retain_package_versions : Z;
  autopublish : bool;
  metadata_signing_service : option RpmSigningService.t;
  checksum_type : val;
  repo_config : val;
  compression_type : val
}.
Definition pk (r : t) : UUID := Repository.pk (base r).
Definition name (r : t) : string := Repository.name (base r).
End RpmRepository.

(** The content types of [pulp_rpm.app.models.modulemd] the serializers of
    this development create, and a stored unit: its columns and its
    many-to-many [packages]. *)
Inductive content_type := Modulemd | ModulemdDefaults.

Module Content.
Record t := mk { model : content_type; fields : gmap string val; packages : val }.
End Content.

(** ** Tasks, reservations and the request monad *)

(** What a task may reserve: a remote or a repository. *)
Inductive Model :=
| MRemote (r : RpmRemote.t)
| MRepository (r : Repository.t).

Inductive resource_kind := KRemote | KRepository.

(** The name under which the lock manager knows a resource. *)
Definition resource_id (m : Model) : resource_kind * UUID :=
  match m with
  | MRemote r => (KRemote, RpmRemote.pk r)
  | MRepository r => (KRepository, Repository.pk r)
  end.

(** The task bodies of [pulp_rpm.app.tasks]. *)
Inductive task_func := synchronize | publish | copy_content.

Module Task.
Record t := mk {
  func : task_func;
  shared_resources : list Model;
  exclusive_resources : list Model;
  args : list val;
  kwargs : gmap string val
}.
End Task.

Inductive exn :=
| DRFValidationError (detail : string)
| NotFoundError (reference : string)
| DoesNotExist
| AttributeError (attr : string)
| KeyError (key : string)
| TypeError
| IntegrityError (message : string).

Inductive result (A : Type) :=
| Ok (a : A)
| Raise (e : exn).
Arguments Ok {A} a.
Arguments Raise {A} e.

(** The state a request handler runs against: the rows it queries and the
    queue of tasks dispatched so far (oldest first). *)
Record World := mkWorld {
  repository_versions : list RepositoryVersion.t;
  rpm_repositories : gmap string RpmRepository.t;
  contents : list Content.t;
  tasks : list Task.t
}.

Definition M (A : Type) : Type := World -> result A * World.

#[global] Instance M_ret : MRet M := fun A a w => (Ok a, w).

#[global] Instance M_bind : MBind M := fun A B f m w =>
  match m w with
  | (Ok a, w') => f a w'
  | (Raise e, w') => (Raise e, w')
  end.

Definition raise {A} (e : exn) : M A := fun w => (Raise e, w).

Definition lift {A} (r : result A) : M A := fun w => (r, w).

Definition when (b : bool) (m : M unit) : M unit :=
  if b then m else mret tt.

(** [try: m except DoesNotExist: handler] *)
Definition try_except_DoesNotExist {A} (m handler : M A) : M A := fun w =>
  match m w with
  | (Raise DoesNotExist, w') => handler w'
  | r => r
  end.

(** [d[k]] on a [dict]. *)
Definition dict_item (d : gmap string val) (k : string) : M val :=
  match d !! k with
  | Some v => mret v
  | None => raise (KeyError k)
  end.

(** Modelled from the spec: the Task Dispatcher's
    [dispatch(task, shared_resources, exclusive_resources, args) -> TaskHandle]
    of pulpcore, which is not part of this repository. It records the task
    description together with its declared reservations and returns the
    handle; it runs nothing. *)
Definition dispatch (f : task_func) (shared exclusive : list Model)
    (args : list val) (kwargs : gmap string val) : M Task.t :=
  fun w =>
    let t := Task.mk f shared exclusive args kwargs in
    (Ok t, mkWorld (repository_versions w) (rpm_repositories w) (contents w)
                   (tasks w ++ [t])).

(** HTTP 202 with a reference to the task. *)
Inductive Response :=
| OperationPostponedResponse (t : Task.t).

(** Modelled from the spec: the constants [SYNC_POLICIES] of
    [pulp_rpm.app.constants], a module outside the files verified here; the two mirror
    names are the ones the error messages of [sync] quote. *)
Module SYNC_POLICIES.
Definition ADDITIVE : string := "additive".
Definition MIRROR_COMPLETE : string := "mirror_complete".
Definition MIRROR_CONTENT_ONLY : string := "mirror_content_only".
End SYNC_POLICIES.

(** ** Access policies and locked roles

    The [DEFAULT_ACCESS_POLICY] and [LOCKED_ROLES] declarations of the
    viewsets are data: statements that allow actions under conditions, and
    roles that hold permissions. pulpcore evaluates them. *)

Module AccessPolicy.

(** What the source writes as one string or as a list of strings. *)
Inductive one_or_many :=
| One (s : string)
| Many (l : list string).

Record statement := Statement {
  action : list string;
  principal : one_or_many;
  effect : string;
  condition : option one_or_many
}.

(** A creation hook and its [roles] parameter. *)
Record hook := Hook { function : string; roles : string }.

Record t := mk {
  statements : list statement;
  queryset_scoping : option string;
  creation_hooks : list hook
}.

Definition as_list (x : one_or_many) : list string :=
  match x with
  | One s => [s]
  | Many l => l
  end.

(** The conditions of a statement; all of them must hold. *)
Definition conditions (st : statement) : list string :=
  from_option as_list [] (condition st).

(** A condition names a check, and after a colon the permission it is
    asked about. *)
Fixpoint split_condition (c : string) : string * option string :=
  match c with
  | EmptyString => (EmptyString, None)
  | String a c' =>
      if Ascii.eqb a ":" then (EmptyString, Some c')
      else let '(name, permission) := split_condition c' in (String a name, permission)
  end.

Definition check_name (c : string) : string := fst (split_condition c).

Definition permission (c : string) : option string := snd (split_condition c).

(** The permissions the conditions of a policy ask about. *)
Definition required_permissions (p : t) : list string :=
  st ← statements p; c ← conditions st; option_list (permission c).

End AccessPolicy.

(** ** viewsets/repository.py *)

Module RpmRepositoryViewSet.

Definition queryset_filtering_required_permission : string :=
  "rpm.view_rpmrepository".

Definition DEFAULT_ACCESS_POLICY : AccessPolicy.t :=
  AccessPolicy.mk
    [ AccessPolicy.Statement
        ["list"; "my_permissions"]
        (AccessPolicy.Many ["authenticated"]) "allow"
        None;
      AccessPolicy.Statement
        ["retrieve"]
        (AccessPolicy.One "authenticated") "allow"
        (Some (AccessPolicy.One
           "has_model_or_domain_or_obj_perms:rpm.view_rpmrepository"));
      AccessPolicy.Statement
        ["create"]
        (AccessPolicy.One "authenticated") "allow"
        (Some (AccessPolicy.Many
           [ "has_remote_param_model_or_domain_or_obj_perms:rpm.view_rpmremote";
             "has_model_or_domain_perms:rpm.add_rpmrepository" ]));
      AccessPolicy.Statement
        ["update"; "partial_update"; "set_label"; "unset_label"]
        (AccessPolicy.One "authenticated") "allow"
        (Some (AccessPolicy.Many
           [ "has_model_or_domain_or_obj_perms:rpm.change_rpmrepository";
             "has_model_or_domain_or_obj_perms:rpm.view_rpmrepository";
             "has_remote_param_model_or_domain_or_obj_perms:rpm.view_rpmremote" ]));
      AccessPolicy.Statement
        ["modify"]
        (AccessPolicy.One "authenticated") "allow"
        (Some (AccessPolicy.Many
           [ "has_model_or_domain_or_obj_perms:rpm.modify_content_rpmrepository";
             "has_model_or_domain_or_obj_perms:rpm.view_rpmrepository" ]));
      AccessPolicy.Statement
        ["destroy"]
        (AccessPolicy.One "authenticated") "allow"
        (Some (AccessPolicy.Many
           [ "has_model_or_domain_or_obj_perms:rpm.delete_rpmrepository";
             "has_model_or_domain_or_obj_perms:rpm.view_rpmrepository" ]));
      AccessPolicy.Statement
        ["sync"]
        (AccessPolicy.One "authenticated") "allow"
        (Some (AccessPolicy.Many
           [ "has_model_or_domain_or_obj_perms:rpm.sync_rpmrepository";
             "has_model_or_domain_or_obj_perms:rpm.view_rpmrepository";
             "has_remote_param_model_or_domain_or_obj_perms:rpm.view_rpmremote" ]));
      AccessPolicy.Statement
        ["list_roles"; "add_role"; "remove_role"]
        (AccessPolicy.One "authenticated") "allow"
        (Some (AccessPolicy.One
           "has_model_or_domain_or_obj_perms:rpm.manage_roles_rpmrepository")) ]
    (Some "scope_queryset")
    [AccessPolicy.Hook "add_roles_for_object_creator" "rpm.rpmrepository_owner"].

Definition LOCKED_ROLES : gmap string (list string) :=
  list_to_map
    [ ("rpm.rpmrepository_owner",
       [ "rpm.change_rpmrepository";
         "rpm.delete_rpmrepository";
         "rpm.delete_rpmrepository_version";
         "rpm.manage_roles_rpmrepository";
         "rpm.modify_content_rpmrepository";
         "rpm.repair_rpmrepository";
         "rpm.sync_rpmrepository";
         "rpm.view_rpmrepository" ]);
      ("rpm.rpmrepository_creator",
       ["rpm.add_rpmrepository"]);
      ("rpm.rpmrepository_viewer",
       ["rpm.view_rpmrepository"]);
      ("rpm.admin",
       [ "rpm.add_rpmalternatecontentsource";
         "rpm.add_rpmdistribution";
         "rpm.add_rpmpublication";
         "rpm.add_rpmremote";
         "rpm.add_rpmrepository";
         "rpm.add_ulnremote";
         "rpm.change_rpmalternatecontentsource";
         "rpm.change_rpmdistribution";
         "rpm.change_rpmremote";
         "rpm.change_rpmrepository";
         "rpm.change_ulnremote";
         "rpm.delete_rpmalternatecontentsource";
         "rpm.delete_rpmdistribution";
         "rpm.delete_rpmpublication";
         "rpm.delete_rpmremote";
         "rpm.delete_rpmrepository";
         "rpm.delete_rpmrepository_version";
         "rpm.delete_ulnremote";
         "rpm.manage_roles_rpmalternatecontentsource";
         "rpm.manage_roles_rpmdistribution";
         "rpm.manage_roles_rpmpublication";
         "rpm.manage_roles_rpmremote";
         "rpm.manage_roles_rpmrepository";
         "rpm.manage_roles_ulnremote";
         "rpm.modify_content_rpmrepository";
         "rpm.refresh_rpmalternatecontentsource";
         "rpm.repair_rpmrepository";
         "rpm.sync_rpmrepository";
         "rpm.view_rpmalternatecontentsource";
         "rpm.view_rpmdistribution";
         "rpm.view_rpmpublication";
         "rpm.view_rpmremote";
         "rpm.view_rpmrepository";
         "rpm.view_ulnremote" ]);
      ("rpm.viewer",
       [ "rpm.view_rpmalternatecontentsource";
         "rpm.view_rpmdistribution";
         "rpm.view_rpmpublication";
         "rpm.view_rpmremote";
         "rpm.view_rpmrepository";
         "rpm.view_ulnremote" ]) ].

(** [if not sync_policy: sync_policy = ADDITIVE if not mirror else MIRROR_COMPLETE] *)
Definition effective_sync_policy (sync_policy mirror : val) : val :=
  if negb (truthy sync_policy) then
    if negb (truthy mirror) then VStr SYNC_POLICIES.ADDITIVE
    else VStr SYNC_POLICIES.MIRROR_COMPLETE
  else sync_policy.

Definition err_mirror (what : string) : string :=
  "Cannot use '" +:+ what +:+
  "' in combination with a 'mirror_complete' or 'mirror_content_only' sync policy.".

Definition err_mirror_complete (what : string) : string :=
  "Cannot use '" +:+ what +:+
  "' in combination with a 'mirror_complete' sync policy.".

(** [remote.pk] on what [validated_data.get("remote", repository.remote)] gave. *)
Definition remote_of (v : val) : M RpmRemote.t :=
  match v with
  | VRemote r => mret r
  | _ => raise (AttributeError "pk")
  end.

(** [RpmRepositoryViewSet.sync], from the point where [self.get_object()] has
    returned [repository] and the serializer has validated the request into
    [validated_data]. *)
Definition sync (repository : RpmRepository.t) (validated_data : gmap string val)
    : M Response :=
  let remote :=
    dict_get_default validated_data "remote"
      (from_option VRemote VNone (RpmRepository.remote repository)) in
  let mirror := dict_get validated_data "mirror" in
  let sync_policy := dict_get validated_data "sync_policy" in
  let skip_types := dict_get validated_data "skip_types" in
  let optimize := dict_get validated_data "optimize" in
  let sync_policy := effective_sync_policy sync_policy mirror in
  _ ← when (eq_str sync_policy SYNC_POLICIES.MIRROR_COMPLETE
            || eq_str sync_policy SYNC_POLICIES.MIRROR_CONTENT_ONLY)
         (when (0 <? RpmRepository.retain_package_versions repository)
            (raise (DRFValidationError (err_mirror "retain_package_versions"))));
  _ ← when (eq_str sync_policy SYNC_POLICIES.MIRROR_COMPLETE)
         (_ ← when (RpmRepository.autopublish repository)
                (raise (DRFValidationError (err_mirror_complete "autopublish")));
          when (truthy skip_types)
            (raise (DRFValidationError (err_mirror_complete "skip_types"))));
  remote_obj ← remote_of remote;
  result ← dispatch synchronize
             [MRemote remote_obj]
             [MRepository (RpmRepository.base repository)]
             []
             (<["sync_policy" := sync_policy]>
              (<["remote_pk" := VStr (str (RpmRemote.pk remote_obj))]>
               (<["repository_pk" := VStr (str (RpmRepository.pk repository))]>
                (<["skip_types" := skip_types]>
                 (<["optimize" := optimize]> ∅)))));
  mret (OperationPostponedResponse result).

End RpmRepositoryViewSet.

Module RpmRepositoryVersionViewSet.

Definition DEFAULT_ACCESS_POLICY : AccessPolicy.t :=
  AccessPolicy.mk
    [ AccessPolicy.Statement
        ["list"; "retrieve"]
        (AccessPolicy.One "authenticated") "allow"
        (Some (AccessPolicy.One
           "has_repository_model_or_domain_or_obj_perms:rpm.view_rpmrepository"));
      AccessPolicy.Statement
        ["destroy"]
        (AccessPolicy.One "authenticated") "allow"
        (Some (AccessPolicy.Many
           [ "has_repository_model_or_domain_or_obj_perms:rpm.delete_rpmrepository";
             "has_repository_model_or_domain_or_obj_perms:rpm.view_rpmrepository" ]));
      AccessPolicy.Statement
        ["destroy"]
        (AccessPolicy.One "authenticated") "allow"
        (Some (AccessPolicy.Many
           [ "has_repository_model_or_domain_or_obj_perms:rpm.delete_rpmrepository_version";
             "has_repository_model_or_domain_or_obj_perms:rpm.view_rpmrepository" ]));
      AccessPolicy.Statement
        ["repair"]
        (AccessPolicy.One "authenticated") "allow"
        (Some (AccessPolicy.Many
           [ "has_repository_model_or_domain_or_obj_perms:rpm.repair_rpmrepository";
             "has_repository_model_or_domain_or_obj_perms:rpm.view_rpmrepository" ])) ]
    None
    [].

End RpmRepositoryVersionViewSet.

Module RpmRemoteViewSet.

Definition queryset_filtering_required_permission : string :=
  "rpm.view_rpmremote".

Definition DEFAULT_ACCESS_POLICY : AccessPolicy.t :=
  AccessPolicy.mk
    [ AccessPolicy.Statement
        ["list"; "my_permissions"]
        (AccessPolicy.Many ["authenticated"]) "allow"
        None;
      AccessPolicy.Statement
        ["retrieve"]
        (AccessPolicy.One "authenticated") "allow"
        (Some (AccessPolicy.One
           "has_model_or_domain_or_obj_perms:rpm.view_rpmremote"));
      AccessPolicy.Statement
        ["create"]
        (AccessPolicy.One "authenticated") "allow"
        (Some (AccessPolicy.One
           "has_model_or_domain_perms:rpm.add_rpmremote"));
      AccessPolicy.Statement
        ["update"; "partial_update"; "set_label"; "unset_label"]
        (AccessPolicy.One "authenticated") "allow"
        (Some (AccessPolicy.Many
           [ "has_model_or_domain_or_obj_perms:rpm.change_rpmremote";
             "has_model_or_domain_or_obj_perms:rpm.view_rpmremote" ]));
      AccessPolicy.Statement
        ["destroy"]
        (AccessPolicy.One "authenticated") "allow"
        (Some (AccessPolicy.Many
           [ "has_model_or_domain_or_obj_perms:rpm.delete_rpmremote";
             "has_model_or_domain_or_obj_perms:rpm.view_rpmremote" ]));
      AccessPolicy.Statement
        ["list_roles"; "add_role"; "remove_role"]
        (AccessPolicy.One "authenticated") "allow"
        (Some (AccessPolicy.One
           "has_model_or_domain_or_obj_perms:rpm.manage_roles_rpmremote")) ]
    (Some "scope_queryset")
    [AccessPolicy.Hook "add_roles_for_object_creator" "rpm.rpmremote_owner"].

Definition LOCKED_ROLES : gmap string (list string) :=
  list_to_map
    [ ("rpm.rpmremote_owner",
       [ "rpm.change_rpmremote";
         "rpm.delete_rpmremote";
         "rpm.manage_roles_rpmremote";
         "rpm.view_rpmremote" ]);
      ("rpm.rpmremote_creator",
       ["rpm.add_rpmremote"]);
      ("rpm.rpmremote_viewer",
       ["rpm.view_rpmremote"]) ].

End RpmRemoteViewSet.

Module UlnRemoteViewSet.

Definition queryset_filtering_required_permission : string :=
  "rpm.view_ulnremote".

Definition DEFAULT_ACCESS_POLICY : AccessPolicy.t :=
  AccessPolicy.mk
    [ AccessPolicy.Statement
        ["list"; "my_permissions"]
        (AccessPolicy.Many ["authenticated"]) "allow"
        None;
      AccessPolicy.Statement
        ["retrieve"]
        (AccessPolicy.One "authenticated") "allow"
        (Some (AccessPolicy.One
           "has_model_or_domain_or_obj_perms:rpm.view_ulnremote"));
      AccessPolicy.Statement
        ["create"]
        (AccessPolicy.One "authenticated") "allow"
        (Some (AccessPolicy.One
           "has_model_or_domain_perms:rpm.add_ulnremote"));
      AccessPolicy.Statement
        ["update"; "partial_update"; "set_label"; "unset_label"]
        (AccessPolicy.One "authenticated") "allow"
        (Some (AccessPolicy.Many
           [ "has_model_or_domain_or_obj_perms:rpm.change_ulnremote";
             "has_model_or_domain_or_obj_perms:rpm.view_ulnremote" ]));
      AccessPolicy.Statement
        ["destroy"]
        (AccessPolicy.One "authenticated") "allow"
        (Some (AccessPolicy.Many
           [ "has_model_or_domain_or_obj_perms:rpm.delete_ulnremote";
             "has_model_or_domain_or_obj_perms:rpm.view_ulnremote" ]));
      AccessPolicy.Statement
        ["list_roles"; "add_role"; "remove_role"]
        (AccessPolicy.One "authenticated") "allow"
        (Some (AccessPolicy.One
           "has_model_or_domain_or_obj_perms:rpm.manage_roles_ulnremote")) ]
    (Some "scope_queryset")
    [AccessPolicy.Hook "add_roles_for_object_creator" "rpm.ulnremote_owner"].

Definition LOCKED_ROLES : gmap string (list string) :=
  list_to_map
    [ ("rpm.ulnremote_owner",
       [ "rpm.change_ulnremote";
         "rpm.delete_ulnremote";
         "rpm.manage_roles_ulnremote";
         "rpm.view_ulnremote" ]);
      ("rpm.ulnremote_creator",
       ["rpm.add_ulnremote"]);
      ("rpm.ulnremote_viewer",
       ["rpm.view_ulnremote"]) ].

End UlnRemoteViewSet.

Module RpmPublicationViewSet.

Definition queryset_filtering_required_permission : string :=
  "rpm.view_rpmpublication".

Definition DEFAULT_ACCESS_POLICY : AccessPolicy.t :=
  AccessPolicy.mk
    [ AccessPolicy.Statement
        ["list"; "my_permissions"]
        (AccessPolicy.Many ["authenticated"]) "allow"
        None;
      AccessPolicy.Statement
        ["retrieve"]
        (AccessPolicy.One "authenticated") "allow"
        (Some (AccessPolicy.One
           "has_model_or_domain_or_obj_perms:rpm.view_rpmpublication"));
      AccessPolicy.Statement
        ["create"]
        (AccessPolicy.One "authenticated") "allow"
        (Some (AccessPolicy.Many
           [ "has_model_or_domain_perms:rpm.add_rpmpublication";
             "has_repo_or_repo_ver_param_model_or_domain_or_obj_perms:rpm.view_rpmrepository" ]));
      AccessPolicy.Statement
        ["destroy"]
        (AccessPolicy.One "authenticated") "allow"
        (Some (AccessPolicy.Many
           [ "has_model_or_domain_or_obj_perms:rpm.delete_rpmpublication";
             "has_model_or_domain_or_obj_perms:rpm.view_rpmpublication" ]));
      AccessPolicy.Statement
        ["list_roles"; "add_role"; "remove_role"]
        (AccessPolicy.One "authenticated") "allow"
        (Some (AccessPolicy.One
           "has_model_or_domain_or_obj_perms:rpm.manage_roles_rpmpublication")) ]
    (Some "scope_queryset")
    [AccessPolicy.Hook "add_roles_for_object_creator" "rpm.rpmpublication_owner"].

Definition LOCKED_ROLES : gmap string (list string) :=
  list_to_map
    [ ("rpm.rpmpublication_owner",
       [ "rpm.delete_rpmpublication";
         "rpm.manage_roles_rpmpublication";
         "rpm.view_rpmpublication" ]);
      ("rpm.rpmpublication_creator",
       ["rpm.add_rpmpublication"]);
      ("rpm.rpmpublication_viewer",
       ["rpm.view_rpmpublication"]) ].

(** [repository_version.repository], [repository_version.pk] on what
    [validated_data.get("repository_version")] gave. *)
Definition version_of (v : val) : M RepositoryVersion.t :=
  match v with
  | VVersion rv => mret rv
  | _ => raise (AttributeError "repository")
  end.

(** [RpmRepository.objects.get(pk=...)] *)
Definition objects_get (pk : UUID) : M RpmRepository.t :=
  fun w =>
    match rpm_repositories w !! pk with
    | Some r => (Ok r, w)
    | None => (Raise DoesNotExist, w)
    end.

(** [RpmPublicationViewSet.create], from the point where the serializer has
    validated the request into [validated_data]. *)
Definition create (validated_data : gmap string val) : M Response :=
  repository_version ← version_of (dict_get validated_data "repository_version");
  repository ←
    objects_get (Repository.pk (RepositoryVersion.repository repository_version));
  let checkpoint := dict_get validated_data "checkpoint" in
  let checksum_type :=
    dict_get_default validated_data "checksum_type"
      (RpmRepository.checksum_type repository) in
  let repo_config :=
    dict_get_default validated_data "repo_config"
      (RpmRepository.repo_config repository) in
  let compression_type :=
    dict_get_default validated_data "compression_type"
      (RpmRepository.compression_type repository) in
  let signing_service_pk :=
    match RpmRepository.metadata_signing_service repository with
    | Some s => VUuid (RpmSigningService.pk s)
    | None => VNone
    end in
  let kwargs : gmap string val :=
    <["repository_version_pk" := VUuid (RepositoryVersion.pk repository_version)]>
    (<["metadata_signing_service" := signing_service_pk]>
     (<["checksum_type" := checksum_type]>
      (<["repo_config" := repo_config]>
       (<["compression_type" := compression_type]> ∅)))) in
  let kwargs :=
    if truthy checkpoint then <["checkpoint" := VBool true]> kwargs else kwargs in
  result ← dispatch publish
             [MRepository (RepositoryVersion.repository repository_version)]
             []
             []
             kwargs;
  mret (OperationPostponedResponse result).

End RpmPublicationViewSet.

Module RpmDistributionViewSet.

Definition queryset_filtering_required_permission : string :=
  "rpm.view_rpmdistribution".

Definition DEFAULT_ACCESS_POLICY : AccessPolicy.t :=
  AccessPolicy.mk
    [ AccessPolicy.Statement
        ["list"; "my_permissions"]
        (AccessPolicy.Many ["authenticated"]) "allow"
        None;
      AccessPolicy.Statement
        ["retrieve"]
        (AccessPolicy.One "authenticated") "allow"
        (Some (AccessPolicy.One
           "has_model_or_domain_or_obj_perms:rpm.view_rpmdistribution"));
      AccessPolicy.Statement
        ["create"]
        (AccessPolicy.One "authenticated") "allow"
        (Some (AccessPolicy.Many
           [ "has_model_or_domain_perms:rpm.add_rpmdistribution";
             "has_publication_param_model_or_domain_or_obj_perms:rpm.view_rpmpublication";
             "has_repo_or_repo_ver_param_model_or_domain_or_obj_perms:rpm.view_rpmrepository" ]));
      AccessPolicy.Statement
        ["update"; "partial_update"; "set_label"; "unset_label"]
        (AccessPolicy.One "authenticated") "allow"
        (Some (AccessPolicy.Many
           [ "has_model_or_domain_or_obj_perms:rpm.change_rpmdistribution";
             "has_model_or_domain_or_obj_perms:rpm.view_rpmdistribution";
             "has_publication_param_model_or_domain_or_obj_perms:rpm.view_rpmpublication";
             "has_repo_or_repo_ver_param_model_or_domain_or_obj_perms:rpm.view_rpmrepository" ]));
      AccessPolicy.Statement
        ["destroy"]
        (AccessPolicy.One "authenticated") "allow"
        (Some (AccessPolicy.Many
           [ "has_model_or_domain_or_obj_perms:rpm.delete_rpmdistribution";
             "has_model_or_domain_or_obj_perms:rpm.view_rpmdistribution" ]));
      AccessPolicy.Statement
        ["list_roles"; "add_role"; "remove_role"]
        (AccessPolicy.One "authenticated") "allow"
        (Some (AccessPolicy.One
           "has_model_or_domain_or_obj_perms:rpm.manage_roles_rpmdistribution")) ]
    (Some "scope_queryset")
    [AccessPolicy.Hook "add_roles_for_object_creator" "rpm.rpmdistribution_owner"].

Definition LOCKED_ROLES : gmap string (list string) :=
  list_to_map
    [ ("rpm.rpmdistribution_owner",
       [ "rpm.change_rpmdistribution";
         "rpm.delete_rpmdistribution";
         "rpm.manage_roles_rpmdistribution";
         "rpm.view_rpmdistribution" ]);
      ("rpm.rpmdistribution_creator",
       ["rpm.add_rpmdistribution"]);
      ("rpm.rpmdistribution_viewer",
       ["rpm.view_rpmdistribution"]) ].

End RpmDistributionViewSet.

(** The model classes [get_resource] is asked for, and their instances. *)
Inductive model_class := cRepositoryVersion | cRpmRepository.

Definition instance_of (c : model_class) : Type :=
  match c with
  | cRepositoryVersion => RepositoryVersion.t
  | cRpmRepository => RpmRepository.t
  end.

Module CopyViewSet.

Definition DEFAULT_ACCESS_POLICY : AccessPolicy.t :=
  AccessPolicy.mk
    [ AccessPolicy.Statement
        ["create"]
        (AccessPolicy.Many ["authenticated"]) "allow"
        (Some (AccessPolicy.Many
           ["has_perms_to_copy"])) ]
    None
    [].

Section collaborators.

(** pulpcore's [NamedModelViewSet().get_resource(uri, model)] and
    [extract_pk(uri)]: the HTTP routing layer, an injected collaborator. Each
    returns what the reference resolves to or raises. *)
Variable get_resource : val -> forall c : model_class, result (instance_of c).
Variable extract_pk : val -> result UUID.

(** [dest_repo.versions.get(number=n)] *)
Definition versions_get (dest_repo : RpmRepository.t) (n : Z) : M RepositoryVersion.t :=
  fun w =>
    match
      find (fun v =>
              String.eqb (Repository.pk (RepositoryVersion.repository v))
                         (RpmRepository.pk dest_repo)
              && (RepositoryVersion.number v =? n))
           (repository_versions w)
    with
    | Some v => (Ok v, w)
    | None => (Raise DoesNotExist, w)
    end.

Definition version_message (version : Z) (repo : string) : string :=
  "Version " +:+ str_int version +:+ " does not exist for repository '" +:+ repo +:+ "'.".

(** The [if "dest_base_version" in entry:] block. *)
Definition dest_base_version (entry r : gmap string val) (dest_repo : RpmRepository.t)
    : M (gmap string val) :=
  if decide (is_Some (entry !! "dest_base_version")) then
    number ← dict_item entry "dest_base_version";
    match number with
    | VInt n =>
        try_except_DoesNotExist
          (v ← versions_get dest_repo n;
           mret (<["dest_base_version" := VUuid (RepositoryVersion.pk v)]> r))
          (raise (DRFValidationError (version_message n (RpmRepository.name dest_repo))))
    | _ => raise TypeError
    end
  else mret r.

(** [for c in entry["content"]: r["content"].append(extract_pk(c))] *)
Fixpoint content_pks (cs : list val) (acc : list val) : M (list val) :=
  match cs with
  | [] => mret acc
  | c :: cs' =>
      pk ← lift (extract_pk c);
      content_pks cs' (acc ++ [VUuid pk])
  end.

(** The [if entry.get("content") is not None:] block. *)
Definition content (entry r : gmap string val) : M (gmap string val) :=
  match dict_get entry "content" with
  | VNone => mret r
  | VList cs =>
      pks ← content_pks cs [];
      mret (<["content" := VList pks]> r)
  | _ => raise TypeError
  end.

(** One turn of the loop of [_process_config]: the dictionary [r] of the
    entry, the repository to share and the repository to lock. *)
Definition process_entry (entry : val)
    : M (gmap string val * Repository.t * RpmRepository.t) :=
  match entry with
  | VDict entry =>
      source_ref ← dict_item entry "source_repo_version";
      source_version ← lift (get_resource source_ref cRepositoryVersion);
      dest_ref ← dict_item entry "dest_repo";
      dest_repo ← lift (get_resource dest_ref cRpmRepository);
      let r : gmap string val :=
        <["dest_repo" := VUuid (RpmRepository.pk dest_repo)]>
        (<["source_repo_version" := VUuid (RepositoryVersion.pk source_version)]> ∅) in
      r ← dest_base_version entry r dest_repo;
      r ← content entry r;
      mret (r, RepositoryVersion.repository source_version, dest_repo)
  | _ => raise TypeError
  end.

(** The loop of [_process_config] over the entries still to do, with the
    three lists built so far. *)
Fixpoint process_entries (config : list val)
    (result : list val) (shared_repos exclusive_repos : list Model)
    : M (list val * list Model * list Model) :=
  match config with
  | [] => mret (result, shared_repos, exclusive_repos)
  | entry :: config' =>
      '(r, source_repo, dest_repo) ← process_entry entry;
      process_entries config'
        (result ++ [VDict r])
        (shared_repos ++ [MRepository source_repo])
        (exclusive_repos ++ [MRepository (RpmRepository.base dest_repo)])
  end.

(** [CopyViewSet._process_config] *)
Definition _process_config (config : val) : M (list val * list Model * list Model) :=
  match config with
  | VList config => process_entries config [] [] []
  | _ => raise TypeError
  end.

(** [CopyViewSet.create], from the point where the serializer has validated
    the request into [validated_data]. *)
Definition create (validated_data : gmap string val) : M Response :=
  dependency_solving ← dict_item validated_data "dependency_solving";
  config ← dict_item validated_data "config";
  '(config, shared_repos, exclusive_repos) ← _process_config config;
  async_result ← dispatch copy_content shared_repos exclusive_repos
                   [VList config; dependency_solving] ∅;
  mret (OperationPostponedResponse async_result).

End collaborators.

End CopyViewSet.

(** ** hashlib.sha256

    Python's [hashlib.sha256(data).hexdigest()] (FIPS 180-4). Words are 32-bit
    integers in [Z], with the wrap-around written out. *)

Module hashlib.

Definition mask32 (x : Z) : Z := Z.land x 0xffffffff.

Definition add32 (a b : Z) : Z := (a + b) mod 2 ^ 32.

Definition rotr (n x : Z) : Z :=
  Z.lor (Z.shiftr x n) (mask32 (Z.shiftl x (32 - n))).

Definition Ch (x y z : Z) : Z :=
  Z.lxor (Z.land x y) (Z.land (mask32 (Z.lnot x)) z).

Definition Maj (x y z : Z) : Z :=
  Z.lxor (Z.lxor (Z.land x y) (Z.land x z)) (Z.land y z).

Definition Sigma0 (x : Z) : Z := Z.lxor (Z.lxor (rotr 2 x) (rotr 13 x)) (rotr 22 x).
Definition Sigma1 (x : Z) : Z := Z.lxor (Z.lxor (rotr 6 x) (rotr 11 x)) (rotr 25 x).
Definition sigma0 (x : Z) : Z := Z.lxor (Z.lxor (rotr 7 x) (rotr 18 x)) (Z.shiftr x 3).
Definition sigma1 (x : Z) : Z := Z.lxor (Z.lxor (rotr 17 x) (rotr 19 x)) (Z.shiftr x 10).

(** The round constants: the first 32 bits of the fractional parts of the
    cube roots of the first 64 primes. *)
Definition K : list Z :=
  [ 1116352408; 1899447441; 3049323471; 3921009573;
    961987163; 1508970993; 2453635748; 2870763221;
    3624381080; 310598401; 607225278; 1426881987;
    1925078388; 2162078206; 2614888103; 3248222580;
    3835390401; 4022224774; 264347078; 604807628;
    770255983; 1249150122; 1555081692; 1996064986;
    2554220882; 2821834349; 2952996808; 3210313671;
    3336571891; 3584528711; 113926993; 338241895;
    666307205; 773529912; 1294757372; 1396182291;
    1695183700; 1986661051; 2177026350; 2456956037;
    2730485921; 2820302411; 3259730800; 3345764771;
    3516065817; 3600352804; 4094571909; 275423344;
    430227734; 506948616; 659060556; 883997877;
    958139571; 1322822218; 1537002063; 1747873779;
    1955562222; 2024104815; 2227730452; 2361852424;
    2428436474; 2756734187; 3204031479; 3329325298 ].

(** The initial hash value: the first 32 bits of the fractional parts of the
    square roots of the first 8 primes. *)
Definition H0 : list Z :=
  [ 1779033703; 3144134277; 1013904242; 2773480762;
    1359893119; 2600822924; 528734635; 1541459225 ].

(** [data.encode()]: the bytes of a string. *)
Definition encode (s : string) : list Z :=
  (fun c => Z.of_N (N_of_ascii c)) <$> list_ascii_of_string s.

(** The big-endian bytes of [x], [n] of them. *)
Fixpoint be_bytes (n : nat) (x : Z) : list Z :=
  match n with
  | O => []
  | S n' => be_bytes n' (Z.shiftr x 8) ++ [Z.land x 0xff]
  end.

(** The message, a 1 bit, zeros up to 56 modulo 64, then the bit length. *)
Definition pad (msg : list Z) : list Z :=
  let len := Z.of_nat (length msg) in
  msg ++ [0x80] ++ replicate (Z.to_nat ((55 - len) mod 64)) 0 ++ be_bytes 8 (8 * len).

(** Big-endian 32-bit words of a list of bytes. *)
Fixpoint words (n : nat) (bytes : list Z) : list Z :=
  match n, bytes with
  | S n', b0 :: b1 :: b2 :: b3 :: rest =>
      (Z.shiftl b0 24 + Z.shiftl b1 16 + Z.shiftl b2 8 + b3) :: words n' rest
  | _, _ => []
  end.

(** The message schedule, newest word first. *)
Fixpoint schedule (n : nat) (w : list Z) : list Z :=
  match n with
  | O => w
  | S n' =>
      let wt :=
        add32 (add32 (sigma1 (nth 1 w 0)) (nth 6 w 0))
              (add32 (sigma0 (nth 14 w 0)) (nth 15 w 0)) in
      schedule n' (wt :: w)
  end.

Definition round (s : list Z) (kw : Z * Z) : list Z :=
  match s with
  | [a; b; c; d; e; f; g; h] =>
      let t1 := add32 (add32 (add32 h (Sigma1 e)) (add32 (Ch e f g) (fst kw))) (snd kw) in
      let t2 := add32 (Sigma0 a) (Maj a b c) in
      [add32 t1 t2; a; b; c; add32 d t1; e; f; g]
  | _ => s
  end.

Definition compress (h : list Z) (block : list Z) : list Z :=
  let w := rev (schedule 48 (rev (words 16 block))) in
  zip_with add32 h (fold_left round (zip K w) h).

Fixpoint blocks (n : nat) (h : list Z) (bytes : list Z) : list Z :=
  match n with
  | O => h
  | S n' => blocks n' (compress h (take 64 bytes)) (drop 64 bytes)
  end.

Definition sha256 (msg : list Z) : list Z :=
  let p := pad msg in
  blocks (length p / 64) H0 p.

Definition hex_digit (x : Z) : ascii :=
  if x <? 10 then ascii_of_N (Z.to_N (48 + x)) else ascii_of_N (Z.to_N (87 + x)).

Fixpoint hex (n : nat) (x : Z) : list ascii :=
  match n with
  | O => []
  | S n' => hex n' (Z.shiftr x 4) ++ [hex_digit (Z.land x 0xf)]
  end.

Definition hexdigest (h : list Z) : string :=
  string_of_list_ascii (mbind (hex 8) h).

End hashlib.

(** ** serializers/modulemd.py *)

Definition quote : string := String (ascii_of_nat 34) "".

Definition content_type_eqb (a b : content_type) : bool :=
  match a, b with
  | Modulemd, Modulemd | ModulemdDefaults, ModulemdDefaults => true
  | _, _ => false
  end.

(** A text column of a row; anything else (SQL NULL included) is no text. *)
Definition text (v : option val) : option string :=
  match v with
  | Some (VStr s) => Some s
  | _ => None
  end.

(** Two rows agree on every column of a uniqueness constraint. *)
Definition same_identity (columns : list string) (a b : gmap string val) : bool :=
  forallb (fun c =>
             match text (a !! c), text (b !! c) with
             | Some x, Some y => String.eqb x y
             | _, _ => false
             end) columns.

(** [hashlib.sha256(snippet.encode()).hexdigest()] *)
Definition snippet_digest (snippet : val) : result string :=
  match snippet with
  | VStr s => Ok (hashlib.hexdigest (hashlib.sha256 (hashlib.encode s)))
  | _ => Raise (AttributeError "encode")
  end.

Section store.

(** [Meta.unique_together] of the models of [pulp_rpm.app.models.modulemd]
    and the name the database gives the constraint: declarations that are
    outside the files verified here. *)
Variable unique_together : content_type -> list string.
Variable constraint_name : content_type -> string.

Definition duplicate_key_message (ct : content_type) : string :=
  "duplicate key value violates unique constraint " +:+ quote +:+ constraint_name ct +:+ quote.

Definition duplicates (ct : content_type) (row : gmap string val) (u : Content.t) : bool :=
  content_type_eqb (Content.model u) ct
  && same_identity (unique_together ct) (Content.fields u) row.

(** Modelled from the spec: [NoArtifactContentSerializer.create] of pulpcore,
    reached through [super().create(validated_data)]. It inserts the row; a
    row whose unique identity duplicates a stored one is a conflict the
    store reports. *)
Definition super_create (ct : content_type) (validated_data : gmap string val)
    : M Content.t := fun w =>
  if existsb (duplicates ct validated_data) (contents w) then
    (Raise (IntegrityError (duplicate_key_message ct)), w)
  else
    let u := Content.mk ct validated_data VNone in
    (Ok u, mkWorld (repository_versions w) (rpm_repositories w)
                   (contents w ++ [u]) (tasks w)).

(** [modulemd.packages.set(packages)] on the unit just created, the last
    row. The manager iterates over [packages]: for [None], which the field
    allows, and for any other value that is no list, it raises [TypeError],
    after the row was inserted. *)
Definition packages_set (u : Content.t) (packages : val) : M Content.t := fun w =>
  match packages with
  | VList _ =>
      let u' := Content.mk (Content.model u) (Content.fields u) packages in
      (Ok u', mkWorld (repository_versions w) (rpm_repositories w)
                      (<[pred (length (contents w)) := u']> (contents w)) (tasks w))
  | _ => (Raise TypeError, w)
  end.

End store.

(** A declared serializer field: its class and the keyword arguments of
    the declaration. An argument the declaration leaves out has the default
    of the REST framework: [required] is true, the others are false. *)
Module Field.
Inductive field_class := CharField | BooleanField | CustomJSONField | DetailRelatedField.
Record t := mk {
  name : string;
  class_of : field_class;
  required : bool;
  allow_null : bool;
  write_only : bool;
  many : bool
}.
End Field.

Module ModulemdSerializer.

(** The fields the class declares, in the order of the source. *)
Definition declared_fields : list Field.t :=
  [ Field.mk "name" Field.CharField true false false false;
    Field.mk "stream" Field.CharField true false false false;
    Field.mk "version" Field.CharField true false false false;
    Field.mk "static_context" Field.BooleanField false false false false;
    Field.mk "context" Field.CharField true false false false;
    Field.mk "arch" Field.CharField true false false false;
    Field.mk "artifacts" Field.CustomJSONField true true false false;
    Field.mk "dependencies" Field.CustomJSONField true true false false;
    Field.mk "description" Field.CharField true false false false;
    Field.mk "packages" Field.DetailRelatedField false true false true;
    Field.mk "profiles" Field.CustomJSONField true true false false;
    Field.mk "snippet" Field.CharField true false true false ].

(** [Meta.fields], after the fields of [NoArtifactContentSerializer]. *)
Definition Meta_fields (base : list string) : list string :=
  base ++ [ "name"; "stream"; "version"; "static_context"; "context"; "arch";
           "artifacts"; "dependencies"; "packages"; "snippet"; "profiles";
           "description" ].

Section declarations.

Variable unique_together : content_type -> list string.
Variable constraint_name : content_type -> string.

(** [ModulemdSerializer.create] *)
Definition create (validated_data : gmap string val) : M Content.t :=
  snippet ← dict_item validated_data "snippet";
  digest ← lift (snippet_digest snippet);
  let validated_data := <["digest" := VStr digest]> validated_data in
  packages ← dict_item validated_data "packages";
  let validated_data := delete "packages" validated_data in
  modulemd ← super_create unique_together constraint_name Modulemd validated_data;
  packages_set modulemd packages.

End declarations.

End ModulemdSerializer.

Module ModulemdDefaultsSerializer.

(** The fields the class declares, in the order of the source. *)
Definition declared_fields : list Field.t :=
  [ Field.mk "module" Field.CharField true false false false;
    Field.mk "stream" Field.CharField true false false false;
    Field.mk "profiles" Field.CustomJSONField true false false false;
    Field.mk "snippet" Field.CharField true false true false ].

(** [Meta.fields], after the fields of [NoArtifactContentSerializer]. *)
Definition Meta_fields (base : list string) : list string :=
  base ++ [ "module"; "stream"; "profiles"; "snippet" ].

Section declarations.

Variable unique_together : content_type -> list string.
Variable constraint_name : content_type -> string.

(** [ModulemdDefaultsSerializer.create] *)
Definition create (validated_data : gmap string val) : M Content.t :=
  snippet ← dict_item validated_data "snippet";
  digest ← lift (snippet_digest snippet);
  let validated_data := <["digest" := VStr digest]> validated_data in
  super_create unique_together constraint_name ModulemdDefaults validated_data.

End declarations.

End ModulemdDefaultsSerializer.

(** [ModulemdObsoleteSerializer] has no [create] of its own. *)
Module ModulemdObsoleteSerializer.

(** The fields the class declares, in the order of the source. *)
Definition declared_fields : list Field.t :=
  [ Field.mk "modified" Field.CharField true false false false;
    Field.mk "module_name" Field.CharField true false false false;
    Field.mk "module_stream" Field.CharField true false false false;
    Field.mk "message" Field.CharField true false false false;
    Field.mk "override_previous" Field.CharField true true false false;
    Field.mk "module_context" Field.CharField true true false false;
    Field.mk "eol_date" Field.CharField true true false false;
    Field.mk "obsoleted_by_module_name" Field.CharField true true false false;
    Field.mk "obsoleted_by_module_stream" Field.CharField true true false false;
    Field.mk "snippet" Field.CharField true false true false ].

(** [Meta.fields], after the fields of [NoArtifactContentSerializer]. *)
Definition Meta_fields (base : list string) : list string :=
  base ++ [ "modified"; "module_name"; "module_stream"; "message"; "override_previous";
           "module_context"; "eol_date"; "obsoleted_by_module_name";
           "obsoleted_by_module_stream"; "snippet" ].

End ModulemdObsoleteSerializer.

(** ** Running content-creation tasks *)

Inductive task_state := waiting | completed | failed.


Module Job.
Record t := mk { body : M Content.t; state : task_state; error : option string }.
End Job.



(** [s.startswith(p)] *)
Fixpoint startswith (p s : string) : bool :=
  match p, s with
  | EmptyString, _ => true
  | String a p', String b s' => Ascii.eqb a b && startswith p' s'
  | String _ _, EmptyString => false
  end.

(** [needle in haystack] for strings. *)
Fixpoint contains (needle haystack : string) : bool :=
  startswith needle haystack
  || match haystack with
     | EmptyString => false
     | String _ haystack' => contains needle haystack'
     end.

(** ** Reservations *)

#[global] Instance resource_kind_eq_dec : EqDecision resource_kind.
Proof. solve_decision. Defined.

Definition reserved_exclusive (t : Task.t) : list (resource_kind * string) :=
  resource_id <$> Task.exclusive_resources t.

Definition reserved_shared (t : Task.t) : list (resource_kind * string) :=
  resource_id <$> Task.shared_resources t.

Definition excludes (t1 t2 : Task.t) : bool :=
  existsb (fun r => bool_decide (r ∈ reserved_exclusive t2 ++ reserved_shared t2))
          (reserved_exclusive t1).

(** Modelled from the spec: the Resource Lock Manager of pulpcore (section
    4.1). An exclusive reservation excludes every other holder of that
    resource, whatever its mode; shared reservations go together. Two tasks
    may run at the same time when neither excludes the other. *)
Definition may_run_together (t1 t2 : Task.t) : bool :=
  negb (excludes t1 t2) && negb (excludes t2 t1).

Definition plan_dest_repo (r : val) : list string :=
  match r with
  | VDict d => match d !! "dest_repo" with Some (VUuid pk) => [pk] | _ => [] end
  | _ => []
  end.

(** Modelled from the spec: the repositories the task bodies of
    [pulp_rpm.app.tasks] (outside the files verified here) write a new
    version of, read off the payload a task was dispatched with: a sync
    writes [repository_pk], a copy the [dest_repo] of every entry of its
    plan, a publish none (it creates a publication of an existing version). *)
Definition mutated_repositories (t : Task.t) : list string :=
  match Task.func t with
  | synchronize =>
      match Task.kwargs t !! "repository_pk" with
      | Some (VStr pk) => [pk]
      | _ => []
      end
  | publish => []
  | copy_content =>
      match Task.args t with
      | VList plan :: _ => plan ≫= plan_dest_repo
      | _ => []
      end
  end.

(** The tasks the three triggers dispatch. *)
Inductive triggered (t : Task.t) : Prop :=
| by_sync repository validated_data w w' :
    RpmRepositoryViewSet.sync repository validated_data w
      = (Ok (OperationPostponedResponse t), w') ->
    triggered t
| by_publish validated_data w w' :
    RpmPublicationViewSet.create validated_data w
      = (Ok (OperationPostponedResponse t), w') ->
    triggered t
| by_copy get_resource extract_pk validated_data w w' :
    CopyViewSet.create get_resource extract_pk validated_data w
      = (Ok (OperationPostponedResponse t), w') ->
    triggered t.

(** ** Timestamps

    A [datetime] at the resolution of the checkpoint URL format
    [%Y%m%dT%H%M%SZ]. Python compares datetimes field by field, most
    significant first. *)

Module datetime.

Local Open Scope nat_scope.

Record t := mk {
  year : nat; month : nat; day : nat;
  hour : nat; minute : nat; second : nat
}.

Definition fields (d : t) : list nat :=
  [year d; month d; day d; hour d; minute d; second d].

Fixpoint lex_compare (a b : list nat) : comparison :=
  match a, b with
  | [], [] => Eq
  | [], _ :: _ => Lt
  | _ :: _, [] => Gt
  | x :: a', y :: b' =>
      match x ?= y with
      | Eq => lex_compare a' b'
      | c => c
      end
  end.

Definition compare (a b : t) : comparison := lex_compare (fields a) (fields b).

Definition leb (a b : t) : bool :=
  match compare a b with Gt => false | _ => true end.

Definition ltb (a b : t) : bool :=
  match compare a b with Lt => true | _ => false end.

Definition eqb (a b : t) : bool :=
  match compare a b with Eq => true | _ => false end.

Definition is_leap (y : nat) : bool :=
  ((y mod 4 =? 0) && negb (y mod 100 =? 0)) || (y mod 400 =? 0).

Definition days_in_month (y m : nat) : nat :=
  match m with
  | 1 | 3 | 5 | 7 | 8 | 10 | 12 => 31
  | 4 | 6 | 9 | 11 => 30
  | 2 => if is_leap y then 29 else 28
  | _ => 0
  end.

(** What the [datetime] constructor accepts. *)
Definition valid (d : t) : bool :=
  (1 <=? year d) && (year d <? 100 * 100)
  && (1 <=? month d) && (month d <=? 12)
  && (1 <=? day d) && (day d <=? days_in_month (year d) (month d))
  && (hour d <? 24) && (minute d <? 60) && (second d <? 60).

Definition digit (n : nat) : ascii := ascii_of_nat (48 + n mod 10).

Definition digits2 (n : nat) : list ascii := [digit (n / 10); digit n].

Definition digits4 (n : nat) : list ascii :=
  [digit (n / 1000); digit (n / 100); digit (n / 10); digit n].

(** [datetime.strftime(d, "%Y%m%dT%H%M%SZ")] *)
Definition strftime (d : t) : string :=
  string_of_list_ascii
    (digits4 (year d) ++ digits2 (month d) ++ digits2 (day d) ++ ["T"%char]
     ++ digits2 (hour d) ++ digits2 (minute d) ++ digits2 (second d) ++ ["Z"%char]).

Definition digit_value (c : ascii) : option nat :=
  let n := nat_of_ascii c in
  if (48 <=? n) && (n <=? 57) then Some (n - 48) else None.

Fixpoint number (cs : list ascii) (acc : nat) : option nat :=
  match cs with
  | [] => Some acc
  | c :: cs' =>
      match digit_value c with
      | Some v => number cs' (10 * acc + v)
      | None => None
      end
  end.

(** [datetime.strptime(s, "%Y%m%dT%H%M%SZ")], every field at its full width;
    [None] is the [ValueError] of a text that does not match or of a date
    that does not exist. *)
Definition strptime (s : string) : option t :=
  match list_ascii_of_string s with
  | [y1; y2; y3; y4; m1; m2; d1; d2; sep; h1; h2; mi1; mi2; s1; s2; z] =>
      if Ascii.eqb sep "T" && Ascii.eqb z "Z" then
        y ← number [y1; y2; y3; y4] 0;
        m ← number [m1; m2] 0;
        d ← number [d1; d2] 0;
        h ← number [h1; h2] 0;
        mi ← number [mi1; mi2] 0;
        sec ← number [s1; s2] 0;
        let r := mk y m d h mi sec in
        if valid r then Some r else None
      else None
  | _ => None
  end.

End datetime.

(** ** The checkpoint read path *)

Module Publication.
Record t := mk {
  pk : UUID;
  repository : UUID;
  checkpoint : bool;
  created_at : datetime.t
}.
End Publication.

Module Distribution.
Record t := mk { base_path : string; repository : UUID; checkpoint : bool }.
(** [{base_url}]: the base path, slash-terminated. *)
Definition base_url (d : t) : string := "/" +:+ base_path d +:+ "/".
End Distribution.

Module CheckpointResolver.

(** Modelled from the spec: the state of the Checkpoint Resolver (section
    4.4), the publications of the distribution's repository that are flagged
    [checkpoint], in the order of the publication history. *)
Definition checkpoint_sequence (pubs : list Publication.t) (d : Distribution.t)
    : list Publication.t :=
  List.filter
    (fun p => Publication.checkpoint p
              && String.eqb (Publication.repository p) (Distribution.repository d))
    pubs.

(** Modelled from the spec: step 3 of the algorithm of section 4.4, the
    binary search. [bisect seq t lo hi] is the number of entries of [seq]
    created at or before [t], looked for between [lo] and [hi]. *)
Equations? bisect (seq : list Publication.t) (t : datetime.t) (lo hi : nat)
    : nat by wf (hi - lo)%nat lt :=
  bisect seq t lo hi with decide (lo < hi)%nat := {
    | right _ := lo;
    | left _ with seq !! ((lo + hi) / 2)%nat := {
        | None := lo;
        | Some p with datetime.leb (Publication.created_at p) t := {
            | true := bisect seq t (S ((lo + hi) / 2)) hi;
            | false := bisect seq t lo ((lo + hi) / 2) } } }.
Proof.
  all: clear bisect.
  all: change (fst (Nat.divmod (lo + hi) 1 0 1)) with ((lo + hi) / 2)%nat.
  all: pose proof (Nat.div_mod_eq (lo + hi) 2) as E.
  all: pose proof (Nat.mod_upper_bound (lo + hi) 2) as B.
  all: lia.
Qed.

(** The latest entry created at or before [t]. *)
Definition latest_at_or_before (seq : list Publication.t) (t : datetime.t)
    : option Publication.t :=
  match bisect seq t 0 (length seq) with
  | O => None
  | S i => seq !! i
  end.

Inductive resolution :=
| ResolvedCheckpoint (p : Publication.t)
| NotFound.

(** Modelled from the spec: steps 1 to 3 of
    [resolve(distribution, requested_timestamp_text, now)] (section 4.4). *)
Definition resolve (pubs : list Publication.t) (d : Distribution.t)
    (requested_timestamp_text : string) (now : datetime.t) : resolution :=
  match datetime.strptime requested_timestamp_text with
  | None => NotFound
  | Some requested =>
      if datetime.ltb now requested then NotFound
      else
        match latest_at_or_before (checkpoint_sequence pubs d) requested with
        | None => NotFound
        | Some p => ResolvedCheckpoint p
        end
  end.

Inductive response :=
| Listing (timestamps : list string)
| Index (path : string) (p : Publication.t)
| MovedPermanently (location : string)
| NotFound404
| NotCheckpoint.

(** The canonical URL of a checkpoint. *)
Definition checkpoint_url (d : Distribution.t) (p : Publication.t) : string :=
  Distribution.base_url d +:+ datetime.strftime (Publication.created_at p) +:+ "/".

Fixpoint strip_prefix (p s : string) : option string :=
  match p, s with
  | EmptyString, _ => Some s
  | String a p', String b s' => if Ascii.eqb a b then strip_prefix p' s' else None
  | String _ _, EmptyString => None
  end.

Fixpoint ends_with_slash (s : string) : bool :=
  match s with
  | EmptyString => false
  | String c EmptyString => Ascii.eqb c "/"
  | String _ s' => ends_with_slash s'
  end.

(** All of [s] but its last character. *)
Fixpoint but_last (s : string) : string :=
  match s with
  | EmptyString => EmptyString
  | String c EmptyString => EmptyString
  | String c s' => String c (but_last s')
  end.

(** Modelled from the spec: the read path of a distribution (sections 4.4,
    steps 4 to 7, and 6). A path without its final slash is read as the path
    with it; the base path lists the checkpoints; a timestamp below it is
    resolved, then served when it is the checkpoint's own, and redirected to
    the checkpoint's canonical URL otherwise. Distributions that are not
    checkpoint-enabled are served by another path, which is left out. *)
Definition get (pubs : list Publication.t) (d : Distribution.t) (path : string)
    (now : datetime.t) : response :=
  if negb (Distribution.checkpoint d) then NotCheckpoint
  else
    let path := if ends_with_slash path then path else path +:+ "/" in
    match strip_prefix (Distribution.base_url d) path with
    | None => NotFound404
    | Some EmptyString =>
        Listing ((fun p => datetime.strftime (Publication.created_at p))
                   <$> checkpoint_sequence pubs d)
    | Some rest =>
        let text := but_last rest in
        match resolve pubs d text now with
        | NotFound => NotFound404
        | ResolvedCheckpoint p =>
            if String.eqb (datetime.strftime (Publication.created_at p)) text
            then Index path p
            else MovedPermanently (checkpoint_url d p)
        end
    end.

(** An HTTP client that follows redirects, at most [redirects] of them. *)
Fixpoint http_get (redirects : nat) (pubs : list Publication.t) (d : Distribution.t)
    (path : string) (now : datetime.t) : response :=
  match get pubs d path now with
  | MovedPermanently location =>
      match redirects with
      | O => MovedPermanently location
      | S n => http_get n pubs d location now
      end
  | r => r
  end.

End CheckpointResolver.

(** ** Auxiliary predicates and fixtures *)

(** A computation that only reads the state. *)
Definition read_only {A} (m : M A) : Prop := forall w, snd (m w) = w.

(** What an entry that was processed without error looked like, and what
    the loop kept of it. *)
Definition processed
    (get_resource : val -> forall c : model_class, result (instance_of c))
    (entry : val) (out : gmap string val * Repository.t * RpmRepository.t)
    : Prop :=
  exists d source_ref source_version dest_ref,
    entry = VDict d
    /\ d !! "source_repo_version" = Some source_ref
    /\ get_resource source_ref cRepositoryVersion = Ok source_version
    /\ d !! "dest_repo" = Some dest_ref
    /\ get_resource dest_ref cRpmRepository = Ok out.2
    /\ out.1.2 = RepositoryVersion.repository source_version
    /\ out.1.1 !! "source_repo_version" = Some (VUuid (RepositoryVersion.pk source_version))
    /\ out.1.1 !! "dest_repo" = Some (VUuid (RpmRepository.pk out.2)).

(** The repository has a version numbered [n]. *)
Definition has_version (w : World) (repo : RpmRepository.t) (n : Z) : Prop :=
  exists v,
    v ∈ repository_versions w
    /\ Repository.pk (RepositoryVersion.repository v) = RpmRepository.pk repo
    /\ RepositoryVersion.number v = n.

Module Fixtures.

Definition repo_a : RpmRepository.t :=
  RpmRepository.mk (Repository.mk "a-pk" "alpha") None 0 false None VNone VNone VNone.

Definition repo_b : RpmRepository.t :=
  RpmRepository.mk (Repository.mk "b-pk" "beta") None 0 false None VNone VNone VNone.

Definition version_a0 : RepositoryVersion.t :=
  RepositoryVersion.mk "a0-pk" (RpmRepository.base repo_a) 0.

Definition version_b0 : RepositoryVersion.t :=
  RepositoryVersion.mk "b0-pk" (RpmRepository.base repo_b) 0.

Definition world : World := mkWorld [version_a0; version_b0] ∅ [] [].

(** A resolver that knows the two repositories and their versions 0, and
    reports anything else as not found, naming the reference. *)
Definition get_resource (uri : val) (c : model_class) : result (instance_of c) :=
  match c with
  | cRepositoryVersion =>
      if eq_str uri "/repositories/a/versions/0/" then Ok version_a0
      else if eq_str uri "/repositories/b/versions/0/" then Ok version_b0
      else Raise (NotFoundError (match uri with VStr s => s | _ => "" end))
  | cRpmRepository =>
      if eq_str uri "/repositories/a/" then Ok repo_a
      else if eq_str uri "/repositories/b/" then Ok repo_b
      else Raise (NotFoundError (match uri with VStr s => s | _ => "" end))
  end.

Definition extract_pk (uri : val) : result string :=
  match uri with
  | VStr s => Ok s
  | _ => Raise TypeError
  end.

(** From a to b, on top of version 5 of b, which does not exist. *)
Definition entry_b5 : val :=
  VDict (<["source_repo_version" := VStr "/repositories/a/versions/0/"]>
         (<["dest_repo" := VStr "/repositories/b/"]>
          (<["dest_base_version" := VInt 5]> ∅))).

(** From b to a, on top of version 7 of a, which does not exist. *)
Definition entry_a7 : val :=
  VDict (<["source_repo_version" := VStr "/repositories/b/versions/0/"]>
         (<["dest_repo" := VStr "/repositories/a/"]>
          (<["dest_base_version" := VInt 7]> ∅))).

(** From a source that does not resolve. *)
Definition entry_unresolved : val :=
  VDict (<["source_repo_version" := VStr "/repositories/c/versions/0/"]>
         (<["dest_repo" := VStr "/repositories/b/"]> ∅)).

Definition copy_request (config : list val) : gmap string val :=
  <["dependency_solving" := VBool false]> (<["config" := VList config]> ∅).

End Fixtures.

(** The serializer of a content type, and the row it hands to the store for
    a request whose snippet is [s]. *)
Definition serializer_create unique_together constraint_name (ct : content_type)
    : gmap string val -> M Content.t :=
  match ct with
  | Modulemd => ModulemdSerializer.create unique_together constraint_name
  | ModulemdDefaults => ModulemdDefaultsSerializer.create unique_together constraint_name
  end.

Definition sha256_hex (s : string) : string :=
  hashlib.hexdigest (hashlib.sha256 (hashlib.encode s)).

Definition request_row (ct : content_type) (validated_data : gmap string val) (s : string)
    : gmap string val :=
  match ct with
  | Modulemd => delete "packages" (<["digest" := VStr (sha256_hex s)]> validated_data)
  | ModulemdDefaults => <["digest" := VStr (sha256_hex s)]> validated_data
  end.

Module StoreFixtures.

Definition unique_together (ct : content_type) : list string := ["digest"].

Definition constraint_name (ct : content_type) : string :=
  match ct with
  | Modulemd => "rpm_modulemd_digest_uniq"
  | ModulemdDefaults => "rpm_modulemddefaults_digest_uniq"
  end.

Definition empty_world : World := mkWorld [] ∅ [] [].



End StoreFixtures.

Module ModulemdFixtures.

(** [Meta.unique_together] as [pulp_rpm.app.models.modulemd] declares it, a
    module outside the files verified here: a modulemd is unique on its
    name, stream, version, context, arch and digest together, a
    modulemd-defaults on its digest. *)
Definition unique_together (ct : content_type) : list string :=
  match ct with
  | Modulemd => ["name"; "stream"; "version"; "context"; "arch"; "digest"]
  | ModulemdDefaults => ["digest"]
  end.

Definition constraint_name (ct : content_type) : string :=
  match ct with
  | Modulemd => "rpm_modulemd_name_stream_version_context_arch_digest_uniq"
  | ModulemdDefaults => "rpm_modulemddefaults_digest_uniq"
  end.

(** The request of test_create_modulemds, with the package it refers to
    resolved. *)
Definition request : gmap string val :=
  <["name" := VStr "foo"]>
  (<["stream" := VStr "foo"]>
   (<["version" := VStr "foo"]>
    (<["context" := VStr "foo"]>
     (<["arch" := VStr "foo"]>
      (<["artifacts" := VStr "[]"]>
       (<["dependencies" := VStr "[]"]>
        (<["packages" := VList [VUuid "package-1"]]>
         (<["snippet" := VStr "foobar"]>
          (<["profiles" := VStr "[]"]>
           (<["description" := VStr "foo"]> ∅)))))))))).


(** Another snippet under the same name, the variation of the test. *)
Definition variation : gmap string val := <["snippet" := VStr "barfoo"]> request.

End ModulemdFixtures.

(** ** What the triggers hand over *)

(** The task [sync] dispatches for the remote it settled on. *)
Definition sync_task (repository : RpmRepository.t) (validated_data : gmap string val)
    (remote : RpmRemote.t) : Task.t :=
  Task.mk synchronize
    [MRemote remote] [MRepository (RpmRepository.base repository)] []
    (<["sync_policy" :=
         RpmRepositoryViewSet.effective_sync_policy
           (dict_get validated_data "sync_policy") (dict_get validated_data "mirror")]>
     (<["remote_pk" := VStr (str (RpmRemote.pk remote))]>
      (<["repository_pk" := VStr (str (RpmRepository.pk repository))]>
       (<["skip_types" := dict_get validated_data "skip_types"]>
        (<["optimize" := dict_get validated_data "optimize"]> ∅))))).

(** The effective policy is one of the two mirror policies. *)
Definition mirror_policy (policy : val) : Prop :=
  policy = VStr SYNC_POLICIES.MIRROR_COMPLETE
  \/ policy = VStr SYNC_POLICIES.MIRROR_CONTENT_ONLY.

(** The keys [publish] is dispatched with. *)
Definition publish_keys : list string :=
  [ "repository_version_pk"; "metadata_signing_service"; "checksum_type";
    "repo_config"; "compression_type"; "checkpoint" ].

(** The keys of a dictionary of the copy plan. *)
Definition plan_keys : list string :=
  [ "source_repo_version"; "dest_repo"; "dest_base_version"; "content" ].

Module CopyFixtures.

(** From version 0 of alpha to beta, on top of version 0 of beta, with an
    empty list of content. *)
Definition entry_ab : val :=
  VDict (<["source_repo_version" := VStr "/repositories/a/versions/0/"]>
         (<["dest_repo" := VStr "/repositories/b/"]>
          (<["dest_base_version" := VInt 0]>
           (<["content" := VList []]> ∅)))).

(** What the plan holds for [entry_ab]. *)
Definition planned_ab : val :=
  VDict (<["source_repo_version" := VUuid "a0-pk"]>
         (<["dest_repo" := VUuid "b-pk"]>
          (<["dest_base_version" := VUuid "b0-pk"]>
           (<["content" := VList []]> ∅)))).

(** From version 0 of beta to alpha, two packages. *)
Definition entry_ba : val :=
  VDict (<["source_repo_version" := VStr "/repositories/b/versions/0/"]>
         (<["dest_repo" := VStr "/repositories/a/"]>
          (<["content" := VList [VStr "pkg-2"; VStr "pkg-1"]]> ∅))).

Definition planned_ba : val :=
  VDict (<["source_repo_version" := VUuid "b0-pk"]>
         (<["dest_repo" := VUuid "a-pk"]>
          (<["content" := VList [VUuid "pkg-2"; VUuid "pkg-1"]]> ∅))).

Definition shared : list Model :=
  [ MRepository (RpmRepository.base Fixtures.repo_a);
    MRepository (RpmRepository.base Fixtures.repo_b) ].

Definition exclusive : list Model :=
  [ MRepository (RpmRepository.base Fixtures.repo_b);
    MRepository (RpmRepository.base Fixtures.repo_a) ].

End CopyFixtures.

(** A character of [0-9a-f]. *)
Definition is_lower_hex (c : ascii) : bool :=
  let n := nat_of_ascii c in
  ((48 <=? n)%nat && (n <=? 57)%nat) || ((97 <=? n)%nat && (n <=? 102)%nat).

(** ** tests/functional/api/test_checkpoint.py *)

Module test_checkpoint.

(** [_format_checkpoint_timestamp] *)
Definition _format_checkpoint_timestamp (timestamp : datetime.t) : string :=
  datetime.strftime timestamp.

(** The fixture [checkpoint_url]; [distribution_base_url] is the fixture
    that makes the base URL of a distribution absolute. *)
Definition checkpoint_url (distribution_base_url : string -> string)
    (distribution : Distribution.t) (timestamp : datetime.t) : string :=
  distribution_base_url (Distribution.base_url distribution)
  +:+ _format_checkpoint_timestamp timestamp +:+ "/".

(** A character the pattern [\d] matches, in ASCII. *)
Definition is_digit (c : ascii) : bool :=
  match datetime.digit_value c with
  | Some _ => true
  | None => false
  end.

(** [re.fullmatch(r"\d{8}T\d{6}Z", text) is not None], the pattern the
    tests look for in a listing. *)
Definition matches_timestamp (text : string) : bool :=
  match list_ascii_of_string text with
  | [y1; y2; y3; y4; m1; m2; d1; d2; sep; h1; h2; mi1; mi2; s1; s2; z] =>
      forallb is_digit [y1; y2; y3; y4; m1; m2; d1; d2]
      && Ascii.eqb sep "T"
      && forallb is_digit [h1; h2; mi1; mi2; s1; s2]
      && Ascii.eqb z "Z"
  | _ => false
  end.

End test_checkpoint.

(** ** The policies and roles of the viewsets, together *)

(** Every access policy of [viewsets/repository.py]. *)
Definition access_policies : list AccessPolicy.t :=
  [ RpmRepositoryViewSet.DEFAULT_ACCESS_POLICY;
    RpmRepositoryVersionViewSet.DEFAULT_ACCESS_POLICY;
    RpmRemoteViewSet.DEFAULT_ACCESS_POLICY;
    UlnRemoteViewSet.DEFAULT_ACCESS_POLICY;
    RpmPublicationViewSet.DEFAULT_ACCESS_POLICY;
    RpmDistributionViewSet.DEFAULT_ACCESS_POLICY;
    CopyViewSet.DEFAULT_ACCESS_POLICY ].

(** Every table of locked roles. *)
Definition locked_roles : list (gmap string (list string)) :=
  [ RpmRepositoryViewSet.LOCKED_ROLES;
    RpmRemoteViewSet.LOCKED_ROLES;
    UlnRemoteViewSet.LOCKED_ROLES;
    RpmPublicationViewSet.LOCKED_ROLES;
    RpmDistributionViewSet.LOCKED_ROLES ].

(** The viewsets of a model with roles: the policy, the roles, and the
    permission the queryset is filtered by. *)
Definition model_viewsets : list (AccessPolicy.t * gmap string (list string) * string) :=
  [ (RpmRepositoryViewSet.DEFAULT_ACCESS_POLICY, RpmRepositoryViewSet.LOCKED_ROLES,
     RpmRepositoryViewSet.queryset_filtering_required_permission);
    (RpmRemoteViewSet.DEFAULT_ACCESS_POLICY, RpmRemoteViewSet.LOCKED_ROLES,
     RpmRemoteViewSet.queryset_filtering_required_permission);
    (UlnRemoteViewSet.DEFAULT_ACCESS_POLICY, UlnRemoteViewSet.LOCKED_ROLES,
     UlnRemoteViewSet.queryset_filtering_required_permission);
    (RpmPublicationViewSet.DEFAULT_ACCESS_POLICY, RpmPublicationViewSet.LOCKED_ROLES,
     RpmPublicationViewSet.queryset_filtering_required_permission);
    (RpmDistributionViewSet.DEFAULT_ACCESS_POLICY, RpmDistributionViewSet.LOCKED_ROLES,
     RpmDistributionViewSet.queryset_filtering_required_permission) ].

(** The permissions of a role, none when the table has no such role. *)
Definition role_permissions (roles : gmap string (list string)) (role : string)
    : list string :=
  default [] (roles !! role).

(** The plugin-wide administrator. *)
Definition admin : list string :=
  role_permissions RpmRepositoryViewSet.LOCKED_ROLES "rpm.admin".

(** The permissions a statement asks about through one check. *)
Definition asked_through (name : string) (st : AccessPolicy.statement) : list string :=
  c ← AccessPolicy.conditions st;
  if String.eqb (AccessPolicy.check_name c) name
  then option_list (AccessPolicy.permission c) else [].

(** The check of a condition on the object itself, and on the repository
    of a repository version. *)
Definition object_check : string := "has_model_or_domain_or_obj_perms".

Definition repository_check : string := "has_repository_model_or_domain_or_obj_perms".

(** The serializers of [serializers/modulemd.py]: what each declares and
    what its [Meta.fields] lists. *)
Definition serializers : list (list Field.t * (list string -> list string)) :=
  [ (ModulemdSerializer.declared_fields, ModulemdSerializer.Meta_fields);
    (ModulemdDefaultsSerializer.declared_fields, ModulemdDefaultsSerializer.Meta_fields);
    (ModulemdObsoleteSerializer.declared_fields, ModulemdObsoleteSerializer.Meta_fields) ].

(** The data-model invariant of the checkpoint sequence: ordered by
    [created_at], strictly increasing. *)
Definition strictly_increasing (seq : list Publication.t) : Prop :=
  forall i j p q,
    (i < j)%nat -> seq !! i = Some p -> seq !! j = Some q ->
    datetime.ltb (Publication.created_at p) (Publication.created_at q) = true.

Module CheckpointFixtures.

(** The setup of test_checkpoint.py: five publications of one repository,
    two seconds apart, flagged [False, True, False, True, False]. *)
Definition at_second (s : nat) : datetime.t := datetime.mk 2025 3 1 9 27 s.

Definition pubs : list Publication.t :=
  [ Publication.mk "p0" "repo" false (at_second 10);
    Publication.mk "p1" "repo" true (at_second 12);
    Publication.mk "p2" "repo" false (at_second 14);
    Publication.mk "p3" "repo" true (at_second 16);
    Publication.mk "p4" "repo" false (at_second 18) ].

Definition p1 : Publication.t := Publication.mk "p1" "repo" true (at_second 12).
Definition p3 : Publication.t := Publication.mk "p3" "repo" true (at_second 16).
Definition p4 : Publication.t := Publication.mk "p4" "repo" false (at_second 18).

Definition distribution : Distribution.t := Distribution.mk "checkpoints" "repo" true.

Definition now : datetime.t := datetime.mk 2025 3 1 9 30 0.

End CheckpointFixtures.

(** ** Tactics *)

(** Unfolds one layer of the request monad. *)
Ltac monad_step :=
  unfold mbind, M_bind, mret, M_ret, raise, lift, when, dict_item.

Create HintDb read_only.

(** Membership in a list that is written out. *)
Ltac in_list := apply list_elem_of_In; simpl; tauto.

(** * Properties *)

(** ** The request monad *)

Lemma bind_ok {A B} (m : M A) (f : A -> M B) (w w' : World) (a : A) :
  m w = (Ok a, w') -> (m ≫= f) w = f a w'.
Proof. intros H. unfold mbind, M_bind. now rewrite H. Qed.

Lemma bind_raise {A B} (m : M A) (f : A -> M B) (w w' : World) (e : exn) :
  m w = (Raise e, w') -> (m ≫= f) w = (Raise e, w').
Proof. intros H. unfold mbind, M_bind. now rewrite H. Qed.

Lemma bind_inv {A B} (m : M A) (f : A -> M B) (w w' : World) (b : B) :
  (m ≫= f) w = (Ok b, w') ->
  exists a w1, m w = (Ok a, w1) /\ f a w1 = (Ok b, w').
Proof.
  unfold mbind, M_bind. destruct (m w) as [[a|e] w1]; intros H.
  - now exists a, w1.
  - discriminate.
Qed.

(** ** Sync *)

Section sync_facts.

Import RpmRepositoryViewSet.

Lemma truthy_policy_names :
  truthy (VStr SYNC_POLICIES.ADDITIVE) = true
  /\ truthy (VStr SYNC_POLICIES.MIRROR_COMPLETE) = true
  /\ truthy (VStr SYNC_POLICIES.MIRROR_CONTENT_ONLY) = true.
Proof. repeat split. Qed.

Lemma effective_sync_policy_idem (p m m' : val) :
  effective_sync_policy (effective_sync_policy p m) m' = effective_sync_policy p m.
Proof.
  unfold effective_sync_policy.
  destruct (truthy p) eqn:Hp; simpl; [now rewrite Hp|].
  now destruct (truthy m).
Qed.

(** [sync] reads its request through five keys only. *)
Lemma sync_ext (repository : RpmRepository.t) (d1 d2 : gmap string val) (w : World) :
  d1 !! "remote" = d2 !! "remote" ->
  dict_get d1 "mirror" = dict_get d2 "mirror" ->
  effective_sync_policy (dict_get d1 "sync_policy") (dict_get d1 "mirror")
    = effective_sync_policy (dict_get d2 "sync_policy") (dict_get d2 "mirror") ->
  dict_get d1 "skip_types" = dict_get d2 "skip_types" ->
  dict_get d1 "optimize" = dict_get d2 "optimize" ->
  sync repository d1 w = sync repository d2 w.
Proof.
  intros Hr Hm Hp Hs Ho. unfold sync, dict_get_default.
  now rewrite Hr, Hp, Hs, Ho.
Qed.

End sync_facts.

(** C8: when the caller supplies no sync policy, the effective policy is
    [mirror_complete] if the mirror flag is true and [additive] otherwise
    (the flag being false or absent), and the request is validated against
    it. With the flag true the checks of [mirror_complete] are made, in
    their order: the request is rejected when the repository retains
    package versions, else when it publishes automatically, else when the
    request skips types; with the flag false or absent no check applies.
    A request that is not rejected dispatches, given a remote, one task
    that receives the effective policy. The request is handled throughout
    as the request that names this policy. *)
Theorem sync_default_policy
    (repository : RpmRepository.t) (validated_data : gmap string val)
    (mirror : option bool) (w : World) :
  dict_get validated_data "sync_policy" = VNone ->
  validated_data !! "mirror" = VBool <$> mirror ->
  let policy :=
    VStr (if default false mirror then SYNC_POLICIES.MIRROR_COMPLETE
          else SYNC_POLICIES.ADDITIVE) in
  let rejected (what : string) : result Response * World :=
    (Raise (DRFValidationError what), w) in
  let dispatched : result Response * World :=
    match dict_get_default validated_data "remote"
            (from_option VRemote VNone (RpmRepository.remote repository)) with
    | VRemote remote =>
        let t :=
          Task.mk synchronize
            [MRemote remote] [MRepository (RpmRepository.base repository)] []
            (<["sync_policy" := policy]>
             (<["remote_pk" := VStr (str (RpmRemote.pk remote))]>
              (<["repository_pk" := VStr (str (RpmRepository.pk repository))]>
               (<["skip_types" := dict_get validated_data "skip_types"]>
                (<["optimize" := dict_get validated_data "optimize"]> ∅))))) in
        (Ok (OperationPostponedResponse t),
         mkWorld (repository_versions w) (rpm_repositories w) (contents w)
                 (tasks w ++ [t]))
    | _ => (Raise (AttributeError "pk"), w)
    end in
  RpmRepositoryViewSet.effective_sync_policy
    (dict_get validated_data "sync_policy") (dict_get validated_data "mirror") = policy
  /\ RpmRepositoryViewSet.sync repository validated_data w
     = RpmRepositoryViewSet.sync repository (<["sync_policy" := policy]> validated_data) w
  /\ (forall t w',
        RpmRepositoryViewSet.sync repository validated_data w
          = (Ok (OperationPostponedResponse t), w') ->
        Task.kwargs t !! "sync_policy" = Some policy)
  /\ RpmRepositoryViewSet.sync repository validated_data w
     = (if default false mirror then
          if 0 <? RpmRepository.retain_package_versions repository then
            rejected (RpmRepositoryViewSet.err_mirror "retain_package_versions")
          else if RpmRepository.autopublish repository then
            rejected (RpmRepositoryViewSet.err_mirror_complete "autopublish")
          else if truthy (dict_get validated_data "skip_types") then
            rejected (RpmRepositoryViewSet.err_mirror_complete "skip_types")
          else dispatched
        else dispatched).
Proof.
  intros Hnone Hmirror policy rejected dispatched.
  assert (Heff : RpmRepositoryViewSet.effective_sync_policy
                   (dict_get validated_data "sync_policy")
                   (dict_get validated_data "mirror") = policy).
  { rewrite Hnone. unfold dict_get. rewrite Hmirror. subst policy.
    now destruct mirror as [[|]|]. }
  split; [exact Heff|]. split; [|split].
  - apply sync_ext.
    + now rewrite lookup_insert_ne.
    + unfold dict_get. now rewrite lookup_insert_ne.
    + rewrite Heff. unfold dict_get at 1. rewrite lookup_insert_eq. simpl.
      subst policy. now destruct mirror as [[|]|].
    + unfold dict_get. now rewrite lookup_insert_ne.
    + unfold dict_get. now rewrite lookup_insert_ne.
  - intros t w'. unfold RpmRepositoryViewSet.sync. rewrite Heff.
    monad_step. unfold RpmRepositoryViewSet.remote_of, dispatch.
    repeat match goal with
           | |- context [if ?b then _ else _] => destruct b; simpl
           | |- context [match ?v with VNone => _ | _ => _ end] => destruct v; simpl
           end; try discriminate.
    all: intros H; injection H as <- _; simpl; now rewrite lookup_insert_eq.
  - unfold RpmRepositoryViewSet.sync. rewrite Heff.
    subst rejected dispatched policy.
    set (remote := dict_get_default _ _ _).
    monad_step. unfold RpmRepositoryViewSet.remote_of, dispatch.
    destruct mirror as [[|]|]; cbn [default];
      destruct (0 <? RpmRepository.retain_package_versions repository);
      destruct (RpmRepository.autopublish repository);
      destruct (truthy (dict_get validated_data "skip_types"));
      simpl; try reflexivity; destruct remote; reflexivity.
Qed.

(** The witness of [sync_default_policy]: a request with the mirror flag
    set and no policy, for a repository that retains nothing and does not
    publish automatically, dispatches a [mirror_complete] sync. *)
Lemma sync_default_policy_witness :
  let remote := RpmRemote.mk "m1" "remote" in
  let repository :=
    RpmRepository.mk (Repository.mk "r1" "repo") (Some remote)
      0 false None VNone VNone VNone in
  let t :=
    Task.mk synchronize [MRemote remote] [MRepository (RpmRepository.base repository)] []
      (<["sync_policy" := VStr SYNC_POLICIES.MIRROR_COMPLETE]>
       (<["remote_pk" := VStr "m1"]>
        (<["repository_pk" := VStr "r1"]>
         (<["skip_types" := VNone]> (<["optimize" := VNone]> ∅))))) in
  RpmRepositoryViewSet.sync repository (<["mirror" := VBool true]> ∅) (mkWorld [] ∅ [] [])
  = (Ok (OperationPostponedResponse t), mkWorld [] ∅ [] [t]).
Proof.
  intros remote repository t.
  refine (proj2 (proj2 (proj2
            (sync_default_policy repository (<["mirror" := VBool true]> ∅) (Some true)
               (mkWorld [] ∅ [] []) _ _)))).
  - vm_compute; reflexivity.
  - vm_compute; reflexivity.
Defined.

(** C2: with an effective policy of [mirror_complete] or
    [mirror_content_only] and [retain_package_versions > 0], or an effective
    policy of [mirror_complete] and either [autopublish] or a non-empty
    [skip_types], [sync] raises a validation error and leaves the state as
    it found it: no task is dispatched, no reservation requested. *)
Theorem sync_rejects_mirror_conflicts
    (repository : RpmRepository.t) (validated_data : gmap string val) (w : World) :
  let policy :=
    RpmRepositoryViewSet.effective_sync_policy
      (dict_get validated_data "sync_policy") (dict_get validated_data "mirror") in
  ((policy = VStr SYNC_POLICIES.MIRROR_COMPLETE
    \/ policy = VStr SYNC_POLICIES.MIRROR_CONTENT_ONLY)
   /\ 0 < RpmRepository.retain_package_versions repository)
  \/ (policy = VStr SYNC_POLICIES.MIRROR_COMPLETE
      /\ (RpmRepository.autopublish repository = true
          \/ exists x l, validated_data !! "skip_types" = Some (VList (x :: l)))) ->
  exists detail,
    RpmRepositoryViewSet.sync repository validated_data w
    = (Raise (DRFValidationError detail), w).
Proof.
  intros policy H. unfold RpmRepositoryViewSet.sync. fold policy.
  destruct (0 <? RpmRepository.retain_package_versions repository) eqn:Hr.
  - (* retain_package_versions > 0 *)
    destruct H as [[[-> | ->] _] | [-> _]]; eexists; reflexivity.
  - apply Z.ltb_ge in Hr.
    destruct H as [[_ Hlt] | [-> H]]; [lia|].
    destruct (RpmRepository.autopublish repository) eqn:Ha.
    + eexists. reflexivity.
    + destruct H as [H | (x & l & Hs)]; [discriminate|].
      assert (Ht : dict_get validated_data "skip_types" = VList (x :: l))
        by (unfold dict_get; now rewrite Hs).
      rewrite !Ht. eexists. reflexivity.
Qed.

(** The witness of [sync_rejects_mirror_conflicts]: a mirror sync of a
    repository that retains two versions of each package. *)
Lemma sync_rejects_mirror_conflicts_witness :
  exists detail,
    RpmRepositoryViewSet.sync
      (RpmRepository.mk (Repository.mk "r1" "repo") (Some (RpmRemote.mk "m1" "remote"))
         2 false None VNone VNone VNone)
      (<["mirror" := VBool true]> ∅) (mkWorld [] ∅ [] [])
    = (Raise (DRFValidationError detail), mkWorld [] ∅ [] []).
Proof.
  apply sync_rejects_mirror_conflicts.
  left. split; [left; reflexivity | simpl; lia].
Defined.

(** ** Publish *)

(** C5: the publish trigger hands the task the checksum type, the
    repo_config and the compression type of the request where the request
    has them and those of the repository of the published version where it
    has not, and the task sees the checkpoint flag of the request. *)
Theorem publish_defaults_from_repository
    (validated_data : gmap string val) (w : World)
    (repository_version : RepositoryVersion.t) (repository : RpmRepository.t) :
  validated_data !! "repository_version" = Some (VVersion repository_version) ->
  rpm_repositories w
    !! Repository.pk (RepositoryVersion.repository repository_version)
    = Some repository ->
  exists t,
    RpmPublicationViewSet.create validated_data w
    = (Ok (OperationPostponedResponse t),
       mkWorld (repository_versions w) (rpm_repositories w) (contents w) (tasks w ++ [t]))
    /\ Task.func t = publish
    /\ Task.kwargs t !! "checksum_type"
       = Some (default (RpmRepository.checksum_type repository)
                       (validated_data !! "checksum_type"))
    /\ Task.kwargs t !! "repo_config"
       = Some (default (RpmRepository.repo_config repository)
                       (validated_data !! "repo_config"))
    /\ Task.kwargs t !! "compression_type"
       = Some (default (RpmRepository.compression_type repository)
                       (validated_data !! "compression_type"))
    /\ truthy (dict_get (Task.kwargs t) "checkpoint")
       = truthy (dict_get validated_data "checkpoint").
Proof.
  intros Hv Hr. unfold RpmPublicationViewSet.create.
  assert (Hg : dict_get validated_data "repository_version" = VVersion repository_version)
    by (unfold dict_get; now rewrite Hv).
  rewrite Hg. simpl.
  monad_step. unfold RpmPublicationViewSet.objects_get. rewrite Hr.
  unfold dispatch. eexists. split; [reflexivity|]. simpl.
  unfold dict_get_default.
  destruct (truthy (dict_get validated_data "checkpoint")) eqn:Hc;
    repeat split; now simplify_map_eq.
Qed.

(** The witness of [publish_defaults_from_repository]: a request that names
    a compression type and leaves the rest to the repository. *)
Lemma publish_defaults_from_repository_witness :
  let repo := Repository.mk "r1" "repo" in
  let version := RepositoryVersion.mk "v1" repo 1 in
  let rpm := RpmRepository.mk repo None 0 false None (VStr "sha256") VNone (VStr "zstd") in
  let w := mkWorld [version] (<["r1" := rpm]> ∅) [] [] in
  exists t,
    RpmPublicationViewSet.create
      (<["repository_version" := VVersion version]>
       (<["compression_type" := VStr "gz"]> ∅)) w
    = (Ok (OperationPostponedResponse t),
       mkWorld (repository_versions w) (rpm_repositories w) (contents w) (tasks w ++ [t]))
    /\ Task.kwargs t !! "checksum_type" = Some (VStr "sha256")
    /\ Task.kwargs t !! "compression_type" = Some (VStr "gz").
Proof.
  intros repo version rpm w.
  destruct (publish_defaults_from_repository
              (<["repository_version" := VVersion version]>
               (<["compression_type" := VStr "gz"]> ∅)) w version rpm)
    as (t & Hc & _ & Hk & _ & Hz & _);
    [vm_compute; reflexivity | vm_compute; reflexivity |].
  exists t. split; [exact Hc|]. split; [exact Hk | exact Hz].
Defined.

(** ** Copy *)
Lemma read_only_bind {A B} (m : M A) (f : A -> M B) :
  read_only m -> (forall a, read_only (f a)) -> read_only (m ≫= f).
Proof.
  intros Hm Hf w. unfold mbind, M_bind.
  specialize (Hm w). destruct (m w) as [[a|e] w1]; simpl in Hm; subst w1.
  - apply Hf.
  - reflexivity.
Qed.

Lemma read_only_ret {A} (a : A) : read_only (mret a : M A).
Proof. now intros w. Qed.

Lemma read_only_raise {A} (e : exn) : read_only (raise e : M A).
Proof. now intros w. Qed.

Lemma read_only_lift {A} (r : result A) : read_only (lift r).
Proof. now intros w. Qed.

Lemma read_only_dict_item (d : gmap string val) (k : string) : read_only (dict_item d k).
Proof. unfold dict_item. destruct (d !! k); [apply read_only_ret | apply read_only_raise]. Qed.

Lemma read_only_try {A} (m h : M A) :
  read_only m -> read_only h -> read_only (try_except_DoesNotExist m h).
Proof.
  intros Hm Hh w. unfold try_except_DoesNotExist.
  specialize (Hm w). destruct (m w) as [[a|e] w1]; simpl in Hm; subst w1; [easy|].
  destruct e; solve [easy | apply Hh].
Qed.

#[local] Hint Resolve read_only_ret read_only_raise read_only_lift read_only_dict_item
  read_only_try : read_only.

Section copy_facts.

Import CopyViewSet.

Variable get_resource : val -> forall c : model_class, result (instance_of c).
Variable extract_pk : val -> result string.

Lemma read_only_versions_get (dest_repo : RpmRepository.t) (n : Z) :
  read_only (versions_get dest_repo n).
Proof. intros w. unfold versions_get. now destruct (find _ _). Qed.

Lemma read_only_dest_base_version (entry r : gmap string val) (dest_repo : RpmRepository.t) :
  read_only (dest_base_version entry r dest_repo).
Proof.
  unfold dest_base_version. destruct (decide _); [|apply read_only_ret].
  apply read_only_bind; [apply read_only_dict_item|].
  intros [] ; auto with read_only.
  apply read_only_try; [|apply read_only_raise].
  apply read_only_bind; [apply read_only_versions_get | auto with read_only].
Qed.

Lemma read_only_content_pks (cs acc : list val) : read_only (content_pks extract_pk cs acc).
Proof.
  revert acc. induction cs as [|c cs IH]; intros acc; simpl; [apply read_only_ret|].
  apply read_only_bind; [apply read_only_lift | intros pk; apply IH].
Qed.

Lemma read_only_content (entry r : gmap string val) : read_only (content extract_pk entry r).
Proof.
  unfold content. destruct (dict_get entry "content"); auto with read_only.
  apply read_only_bind; [apply read_only_content_pks | auto with read_only].
Qed.

Lemma read_only_process_entry (entry : val) :
  read_only (process_entry get_resource extract_pk entry).
Proof.
  unfold process_entry. destruct entry; auto with read_only.
  repeat (apply read_only_bind; [auto using read_only_dest_base_version, read_only_content with read_only | intros ?]).
  apply read_only_ret.
Qed.

Lemma read_only_process_entries (config result : list val) (shared exclusive : list Model) :
  read_only (process_entries get_resource extract_pk config result shared exclusive).
Proof.
  revert result shared exclusive.
  induction config as [|e config IH]; intros result shared exclusive; simpl;
    [apply read_only_ret|].
  apply read_only_bind; [apply read_only_process_entry|].
  intros [[r s] d]. apply IH.
Qed.

Lemma read_only_process_config (config : val) :
  read_only (_process_config get_resource extract_pk config).
Proof.
  unfold _process_config. destruct config; auto with read_only.
  apply read_only_process_entries.
Qed.

Lemma dest_base_version_keeps (entry r r' : gmap string val) (dest_repo : RpmRepository.t)
    (w w' : World) (k : string) :
  dest_base_version entry r dest_repo w = (Ok r', w') ->
  k <> "dest_base_version" -> r' !! k = r !! k.
Proof.
  unfold dest_base_version. intros H Hk.
  destruct (decide _); [|monad_step; now injection H as <- _].
  revert H. monad_step. destruct (entry !! "dest_base_version") as [[]|]; try discriminate.
  unfold try_except_DoesNotExist, versions_get. monad_step.
  destruct (find _ _); [|discriminate].
  intros H; injection H as <- _. now rewrite lookup_insert_ne.
Qed.

Lemma content_keeps (entry r r' : gmap string val) (w w' : World) (k : string) :
  content extract_pk entry r w = (Ok r', w') ->
  k <> "content" -> r' !! k = r !! k.
Proof.
  unfold content. intros H Hk.
  destruct (dict_get entry "content"); try discriminate.
  - revert H. monad_step. now intros H; injection H as <- _.
  - apply bind_inv in H as (pks & w1 & _ & H). revert H. monad_step.
    intros H; injection H as <- _. now rewrite lookup_insert_ne.
Qed.

Lemma process_entry_ok (entry : val) (out : gmap string val * Repository.t * RpmRepository.t)
    (w w' : World) :
  process_entry get_resource extract_pk entry w = (Ok out, w') ->
  processed get_resource entry out.
Proof.
  unfold process_entry. destruct entry as [| | | | | |d| |]; try discriminate.
  intros H.
  apply bind_inv in H as (source_ref & w1 & H1 & H).
  apply bind_inv in H as (source_version & w2 & H2 & H).
  apply bind_inv in H as (dest_ref & w3 & H3 & H).
  apply bind_inv in H as (dest_repo & w4 & H4 & H).
  apply bind_inv in H as (r1 & w5 & H5 & H).
  apply bind_inv in H as (r2 & w6 & H6 & H).
  revert H. monad_step. intros H; injection H as <- _.
  revert H1 H2 H3 H4. monad_step.
  destruct (d !! "source_repo_version") as [sref|] eqn:Es; [|discriminate].
  intros H1; injection H1 as -> _.
  intros H2; injection H2 as H2 _.
  destruct (d !! "dest_repo") as [dref|] eqn:Ed; [|discriminate].
  intros H3; injection H3 as -> _.
  intros H4; injection H4 as H4 _.
  exists d, source_ref, source_version, dest_ref. simpl.
  repeat split; try assumption.
  - rewrite (content_keeps _ _ _ _ _ _ H6) by discriminate.
    rewrite (dest_base_version_keeps _ _ _ _ _ _ _ H5) by discriminate.
    now simplify_map_eq.
  - rewrite (content_keeps _ _ _ _ _ _ H6) by discriminate.
    rewrite (dest_base_version_keeps _ _ _ _ _ _ _ H5) by discriminate.
    now simplify_map_eq.
Qed.

Lemma process_entries_ok (config : list val) :
  forall (result : list val) (shared exclusive : list Model)
         (result' : list val) (shared' exclusive' : list Model) (w w' : World),
  process_entries get_resource extract_pk config result shared exclusive w
    = (Ok (result', shared', exclusive'), w') ->
  exists outs,
    Forall2 (processed get_resource) config outs
    /\ result' = result ++ ((fun o => VDict o.1.1) <$> outs)
    /\ shared' = shared ++ ((fun o => MRepository o.1.2) <$> outs)
    /\ exclusive' = exclusive ++ ((fun o => MRepository (RpmRepository.base o.2)) <$> outs).
Proof.
  induction config as [|e config IH]; intros result shared exclusive result' shared' exclusive' w w'; simpl.
  - monad_step. intros H; injection H as <- <- <- _. exists [].
    simpl. rewrite !app_nil_r. repeat split. constructor.
  - intros H. apply bind_inv in H as ([[r s] d] & w1 & H1 & H).
    apply IH in H as (outs & HF & -> & -> & ->).
    exists ((r, s, d) :: outs). simpl. rewrite <- !app_assoc. simpl.
    repeat split. constructor; [|assumption].
    eapply process_entry_ok; eassumption.
Qed.

(** The loop over a list of entries is the loop over its first part followed
    by the loop over the rest. *)
Lemma process_entries_app (pre rest : list val) :
  forall (result : list val) (shared exclusive : list Model) (w : World),
  process_entries get_resource extract_pk (pre ++ rest) result shared exclusive w
  = match process_entries get_resource extract_pk pre result shared exclusive w with
    | (Ok (result', shared', exclusive'), w') =>
        process_entries get_resource extract_pk rest result' shared' exclusive' w'
    | (Raise e, w') => (Raise e, w')
    end.
Proof.
  induction pre as [|e pre IH]; intros result shared exclusive w; simpl; [reflexivity|].
  unfold mbind, M_bind.
  destruct (process_entry get_resource extract_pk e w) as [[[[r s] d]|err] w1];
    [apply IH | reflexivity].
Qed.

End copy_facts.

(** ** Reservations *)

Lemma sync_ok (repository : RpmRepository.t) (validated_data : gmap string val)
    (w w' : World) (t : Task.t) :
  RpmRepositoryViewSet.sync repository validated_data w
    = (Ok (OperationPostponedResponse t), w') ->
  exists remote,
    dict_get_default validated_data "remote"
      (from_option VRemote VNone (RpmRepository.remote repository)) = VRemote remote
    /\ Task.func t = synchronize
    /\ Task.shared_resources t = [MRemote remote]
    /\ Task.exclusive_resources t = [MRepository (RpmRepository.base repository)]
    /\ Task.kwargs t !! "remote_pk" = Some (VStr (str (RpmRemote.pk remote)))
    /\ Task.kwargs t !! "repository_pk" = Some (VStr (str (RpmRepository.pk repository)))
    /\ tasks w' = tasks w ++ [t].
Proof.
  unfold RpmRepositoryViewSet.sync.
  set (remote := dict_get_default _ _ _).
  monad_step. unfold RpmRepositoryViewSet.remote_of, dispatch.
  repeat match goal with
         | |- context [if ?b then _ else _] => destruct b; simpl
         end; try discriminate.
  all: destruct remote as [| | | | | | |r|]; simpl; try discriminate.
  all: intros H; injection H as <- <-; simpl; exists r.
  all: repeat split; now simplify_map_eq.
Qed.

Lemma publish_ok (validated_data : gmap string val) (w w' : World) (t : Task.t) :
  RpmPublicationViewSet.create validated_data w
    = (Ok (OperationPostponedResponse t), w') ->
  exists repository_version,
    dict_get validated_data "repository_version" = VVersion repository_version
    /\ Task.func t = publish
    /\ Task.shared_resources t
       = [MRepository (RepositoryVersion.repository repository_version)]
    /\ Task.exclusive_resources t = []
    /\ Task.kwargs t !! "repository_version_pk"
       = Some (VUuid (RepositoryVersion.pk repository_version))
    /\ tasks w' = tasks w ++ [t].
Proof.
  unfold RpmPublicationViewSet.create.
  destruct (dict_get validated_data "repository_version") as [| | | | | | | |rv];
    simpl; try discriminate.
  monad_step. unfold RpmPublicationViewSet.objects_get, dispatch.
  destruct (rpm_repositories w !! _); [|discriminate].
  intros H; injection H as <- <-; simpl. exists rv.
  destruct (truthy (dict_get validated_data "checkpoint"));
    repeat split; now simplify_map_eq.
Qed.

Lemma copy_ok get_resource extract_pk (validated_data : gmap string val)
    (w w' : World) (t : Task.t) :
  CopyViewSet.create get_resource extract_pk validated_data w
    = (Ok (OperationPostponedResponse t), w') ->
  exists dependency_solving config outs,
    validated_data !! "dependency_solving" = Some dependency_solving
    /\ validated_data !! "config" = Some (VList config)
    /\ Forall2 (processed get_resource) config outs
    /\ Task.func t = copy_content
    /\ Task.args t = [VList ((fun o => VDict o.1.1) <$> outs); dependency_solving]
    /\ Task.shared_resources t = (fun o => MRepository o.1.2) <$> outs
    /\ Task.exclusive_resources t
       = (fun o => MRepository (RpmRepository.base o.2)) <$> outs
    /\ tasks w' = tasks w ++ [t].
Proof.
  unfold CopyViewSet.create. intros H.
  apply bind_inv in H as (dep & w1 & H1 & H).
  apply bind_inv in H as (cfg & w2 & H2 & H).
  apply bind_inv in H as ([[plan sh] ex] & w3 & H3 & H).
  revert H1 H2. monad_step.
  destruct (validated_data !! "dependency_solving") as [dep'|]; [|discriminate].
  intros H1; injection H1 as -> <-.
  destruct (validated_data !! "config") as [cfg'|]; [|discriminate].
  intros H2; injection H2 as -> <-.
  unfold CopyViewSet._process_config in H3.
  destruct cfg as [| | | | |config| | |]; try discriminate.
  pose proof (read_only_process_entries get_resource extract_pk config [] [] [] w) as Hw.
  rewrite H3 in Hw. simpl in Hw. subst w3.
  apply process_entries_ok in H3 as (outs & HF & -> & -> & ->).
  revert H. monad_step. unfold dispatch.
  intros H; injection H as <- <-. simpl.
  exists dep, config, outs. repeat split; assumption || reflexivity.
Qed.

Lemma triggered_exclusive (t : Task.t) (pk : string) :
  triggered t -> pk ∈ mutated_repositories t ->
  (KRepository, pk) ∈ reserved_exclusive t.
Proof.
  intros [repository vd w w' H | vd w w' H | gr ep vd w w' H]; unfold mutated_repositories, reserved_exclusive.
  - apply sync_ok in H as (remote & _ & -> & _ & -> & _ & -> & _).
    intros ->%list_elem_of_singleton. simpl. apply list_elem_of_singleton. reflexivity.
  - apply publish_ok in H as (rv & _ & -> & _). intros []%not_elem_of_nil.
  - apply copy_ok in H as (dep & config & outs & _ & _ & HF & -> & -> & _ & -> & _).
    intros (r & Hpk & Hr)%list_elem_of_bind.
    apply list_elem_of_fmap in Hr as (o & -> & Ho).
    rewrite <- list_fmap_compose. apply list_elem_of_fmap. exists o. split; [|assumption].
    simpl.
    assert (Hd : o.1.1 !! "dest_repo" = Some (VUuid (RpmRepository.pk o.2))).
    { apply list_elem_of_lookup in Ho as (i & Hi).
      destruct (Forall2_lookup_r _ _ _ _ _ HF Hi) as (e & _ & He).
      destruct He as (d & sref & sv & dref & _ & _ & _ & _ & _ & _ & _ & He). exact He. }
    unfold plan_dest_repo in Hpk. rewrite Hd in Hpk.
    apply list_elem_of_singleton in Hpk as ->. reflexivity.
Qed.

Lemma excludes_common (t1 t2 : Task.t) (r : resource_kind * string) :
  r ∈ reserved_exclusive t1 -> r ∈ reserved_exclusive t2 -> excludes t1 t2 = true.
Proof.
  intros H1 H2. unfold excludes. apply existsb_exists. exists r. split.
  - now apply list_elem_of_In.
  - apply bool_decide_eq_true. apply elem_of_app. now left.
Qed.

(** C3: the sync task reserves its remote as shared and its repository as
    exclusive; the copy task reserves the repository of every source version
    as shared and every destination repository as exclusive; the publish
    task, which writes no repository, reserves the repository of the
    published version as shared and nothing as exclusive. Every repository a
    dispatched task writes is among its exclusive reservations, so two
    dispatched tasks that write the same repository never run together. *)
Theorem triggers_declare_reservations :
  (forall repository validated_data w w' t,
     RpmRepositoryViewSet.sync repository validated_data w
       = (Ok (OperationPostponedResponse t), w') ->
     exists remote,
       dict_get_default validated_data "remote"
         (from_option VRemote VNone (RpmRepository.remote repository)) = VRemote remote
       /\ Task.shared_resources t = [MRemote remote]
       /\ Task.exclusive_resources t = [MRepository (RpmRepository.base repository)])
  /\ (forall get_resource extract_pk validated_data w w' t,
        CopyViewSet.create get_resource extract_pk validated_data w
          = (Ok (OperationPostponedResponse t), w') ->
        exists config outs,
          validated_data !! "config" = Some (VList config)
          /\ Forall2 (processed get_resource) config outs
          /\ Task.shared_resources t = (fun o => MRepository o.1.2) <$> outs
          /\ Task.exclusive_resources t
             = (fun o => MRepository (RpmRepository.base o.2)) <$> outs)
  /\ (forall validated_data w w' t,
        RpmPublicationViewSet.create validated_data w
          = (Ok (OperationPostponedResponse t), w') ->
        exists repository_version,
          dict_get validated_data "repository_version" = VVersion repository_version
          /\ Task.shared_resources t
             = [MRepository (RepositoryVersion.repository repository_version)]
          /\ Task.exclusive_resources t = [])
  /\ (forall t pk,
        triggered t -> pk ∈ mutated_repositories t ->
        (KRepository, pk) ∈ reserved_exclusive t)
  /\ (forall t1 t2 pk,
        triggered t1 -> triggered t2 ->
        pk ∈ mutated_repositories t1 -> pk ∈ mutated_repositories t2 ->
        may_run_together t1 t2 = false).
Proof.
  repeat split.
  - intros repository vd w w' t H.
    apply sync_ok in H as (remote & Hr & _ & Hs & He & _). now exists remote.
  - intros gr ep vd w w' t H.
    apply copy_ok in H as (dep & config & outs & _ & Hc & HF & _ & _ & Hs & He & _).
    now exists config, outs.
  - intros vd w w' t H.
    apply publish_ok in H as (rv & Hv & _ & Hs & He & _). now exists rv.
  - intros t pk. apply triggered_exclusive.
  - intros t1 t2 pk H1 H2 Hm1 Hm2. unfold may_run_together.
    rewrite (excludes_common t1 t2 (KRepository, pk))
      by (now apply triggered_exclusive).
    reflexivity.
Qed.

(** The witness of [triggers_declare_reservations]: two syncs of one
    repository from one remote never run together. *)
Lemma triggers_declare_reservations_witness :
  let remote := RpmRemote.mk "m1" "remote" in
  let repository :=
    RpmRepository.mk (Repository.mk "r1" "repo") (Some remote) 0 false None VNone VNone VNone in
  let t :=
    Task.mk synchronize [MRemote remote] [MRepository (RpmRepository.base repository)] []
      (<["sync_policy" := VStr SYNC_POLICIES.ADDITIVE]>
       (<["remote_pk" := VStr "m1"]>
        (<["repository_pk" := VStr "r1"]>
         (<["skip_types" := VNone]> (<["optimize" := VNone]> ∅))))) in
  may_run_together t t = false.
Proof.
  intros remote repository t.
  assert (Ht : triggered t).
  { apply (by_sync t repository ∅ (mkWorld [] ∅ [] []) (mkWorld [] ∅ [] [t])).
    reflexivity. }
  refine (proj2 (proj2 (proj2 (proj2 triggers_declare_reservations))) t t "r1" Ht Ht _ _);
    vm_compute; left.
Defined.

Lemma append_assoc (a b c : string) : (a +:+ b) +:+ c = a +:+ b +:+ c.
Proof.
  induction a as [|x a IH]; [reflexivity|].
  change (String x ((a +:+ b) +:+ c) = String x (a +:+ b +:+ c)). now rewrite IH.
Qed.

Lemma startswith_app (a b : string) : startswith a (a +:+ b) = true.
Proof.
  induction a as [|x a IH]; [reflexivity|].
  simpl. now rewrite Ascii.eqb_refl.
Qed.

Lemma contains_app (before needle after : string) :
  contains needle (before +:+ needle +:+ after) = true.
Proof.
  induction before as [|x before IH].
  - change (contains needle (needle +:+ after) = true).
    destruct (needle +:+ after) eqn:E; simpl; rewrite <- E, startswith_app; reflexivity.
  - change (contains needle (String x (before +:+ needle +:+ after)) = true).
    simpl. rewrite IH. apply orb_true_r.
Qed.

Lemma version_message_names (n : Z) (repo : string) :
  contains (str_int n) (CopyViewSet.version_message n repo) = true
  /\ contains repo (CopyViewSet.version_message n repo) = true.
Proof.
  unfold CopyViewSet.version_message. split.
  - apply contains_app.
  - rewrite <- (append_assoc (str_int n)), <- (append_assoc "Version ").
    apply contains_app.
Qed.

Section copy_errors.

Import CopyViewSet.

Variable get_resource : val -> forall c : model_class, result (instance_of c).
Variable extract_pk : val -> result string.

Lemma versions_get_missing (w : World) (dest_repo : RpmRepository.t) (n : Z) :
  ~ has_version w dest_repo n ->
  versions_get dest_repo n w = (Raise DoesNotExist, w).
Proof.
  intros Hno. unfold versions_get.
  destruct (find _ _) as [v|] eqn:Hf; [|reflexivity].
  exfalso. apply Hno. apply find_some in Hf as [Hin Hb].
  apply andb_true_iff in Hb as [Hpk Hn].
  exists v. repeat split.
  - now apply list_elem_of_In.
  - now apply String.eqb_eq.
  - now apply Z.eqb_eq.
Qed.

Lemma dest_base_version_missing (entry r : gmap string val) (w : World)
    (dest_repo : RpmRepository.t) (n : Z) :
  entry !! "dest_base_version" = Some (VInt n) ->
  ~ has_version w dest_repo n ->
  dest_base_version entry r dest_repo w
  = (Raise (DRFValidationError (version_message n (RpmRepository.name dest_repo))), w).
Proof.
  intros He Hno. unfold dest_base_version.
  destruct (decide _) as [_|Hn]; [|exfalso; apply Hn; now rewrite He].
  monad_step. rewrite He. unfold try_except_DoesNotExist. monad_step. cbv beta iota.
  now rewrite (versions_get_missing _ _ _ Hno).
Qed.

(** The entry with the missing base version fails, whatever else it says;
    it fails on the base version when its source resolves. *)
Lemma process_entry_missing (entry : gmap string val) (w : World)
    (dest_ref : val) (dest_repo : RpmRepository.t) (n : Z) :
  entry !! "dest_repo" = Some dest_ref ->
  get_resource dest_ref cRpmRepository = Ok dest_repo ->
  entry !! "dest_base_version" = Some (VInt n) ->
  ~ has_version w dest_repo n ->
  (exists e, process_entry get_resource extract_pk (VDict entry) w = (Raise e, w))
  /\ (forall source_ref source_version,
        entry !! "source_repo_version" = Some source_ref ->
        get_resource source_ref cRepositoryVersion = Ok source_version ->
        process_entry get_resource extract_pk (VDict entry) w
        = (Raise (DRFValidationError (version_message n (RpmRepository.name dest_repo))), w)).
Proof.
  intros Hd Hg Hv Hno.
  assert (Hres : forall source_ref source_version,
            entry !! "source_repo_version" = Some source_ref ->
            get_resource source_ref cRepositoryVersion = Ok source_version ->
            process_entry get_resource extract_pk (VDict entry) w
            = (Raise (DRFValidationError (version_message n (RpmRepository.name dest_repo))), w)).
  { intros sref sv Hs Hgs. unfold process_entry. monad_step.
    rewrite Hs. monad_step. cbv beta iota. rewrite Hgs. cbv beta iota.
    rewrite Hd. monad_step. cbv beta iota. rewrite Hg. cbv beta iota.
    now rewrite (dest_base_version_missing _ _ _ _ _ Hv Hno). }
  split; [|exact Hres].
  destruct (entry !! "source_repo_version") as [sref|] eqn:Hs.
  - destruct (get_resource sref cRepositoryVersion) as [sv|e] eqn:Hgs.
    + eexists. now apply (Hres sref sv).
    + exists e. unfold process_entry. monad_step.
      rewrite Hs. monad_step. cbv beta iota. now rewrite Hgs.
  - eexists. unfold process_entry. monad_step. now rewrite Hs.
Qed.

Lemma process_entries_pre_ok (pre : list val) (w : World) :
  Forall (fun e => exists out, process_entry get_resource extract_pk e w = (Ok out, w)) pre ->
  forall result shared exclusive,
  exists result' shared' exclusive',
    process_entries get_resource extract_pk pre result shared exclusive w
    = (Ok (result', shared', exclusive'), w).
Proof.
  induction 1 as [|e pre [[[r s] d] He] _ IH]; intros result shared exclusive; simpl.
  - now exists result, shared, exclusive.
  - unfold mbind, M_bind. rewrite He. apply IH.
Qed.

Lemma process_entries_cons_raise (e : val) (rest result : list val)
    (shared exclusive : list Model) (w w' : World) (err : exn) :
  process_entry get_resource extract_pk e w = (Raise err, w') ->
  process_entries get_resource extract_pk (e :: rest) result shared exclusive w
  = (Raise err, w').
Proof. intros H. simpl. unfold mbind, M_bind. now rewrite H. Qed.

End copy_errors.

(** C6, as the code has it: a copy request with an entry whose
    [dest_base_version] does not exist on the destination repository it
    resolves to fails, and dispatches nothing. The loop stops at the first
    entry that fails: when every entry before this one is processed without
    error and the source version of this one resolves, the failure is the
    validation error whose message names this entry's version number and
    destination repository. *)
Theorem copy_rejects_missing_base_version
    (get_resource : val -> forall c : model_class, result (instance_of c))
    (extract_pk : val -> result string)
    (validated_data : gmap string val) (w : World)
    (dependency_solving : val) (pre post : list val) (entry : gmap string val)
    (dest_ref : val) (dest_repo : RpmRepository.t) (n : Z) :
  validated_data !! "dependency_solving" = Some dependency_solving ->
  validated_data !! "config" = Some (VList (pre ++ VDict entry :: post)) ->
  entry !! "dest_repo" = Some dest_ref ->
  get_resource dest_ref cRpmRepository = Ok dest_repo ->
  entry !! "dest_base_version" = Some (VInt n) ->
  ~ has_version w dest_repo n ->
  (exists e, CopyViewSet.create get_resource extract_pk validated_data w = (Raise e, w))
  /\ (Forall (fun e => exists out,
                CopyViewSet.process_entry get_resource extract_pk e w = (Ok out, w)) pre ->
      (exists source_ref source_version,
         entry !! "source_repo_version" = Some source_ref
         /\ get_resource source_ref cRepositoryVersion = Ok source_version) ->
      let message := CopyViewSet.version_message n (RpmRepository.name dest_repo) in
      CopyViewSet.create get_resource extract_pk validated_data w
        = (Raise (DRFValidationError message), w)
      /\ contains (str_int n) message = true
      /\ contains (RpmRepository.name dest_repo) message = true).
Proof.
  intros Hdep Hcfg Hd Hg Hv Hno.
  destruct (process_entry_missing get_resource extract_pk entry w dest_ref dest_repo n
              Hd Hg Hv Hno) as [[e He] Hres].
  assert (Hcreate : forall err,
            CopyViewSet.process_entries get_resource extract_pk
              (pre ++ VDict entry :: post) [] [] [] w = (Raise err, w) ->
            CopyViewSet.create get_resource extract_pk validated_data w = (Raise err, w)).
  { intros err H. unfold CopyViewSet.create. monad_step.
    rewrite Hdep. monad_step. cbv beta iota. rewrite Hcfg. monad_step. cbv beta iota.
    unfold CopyViewSet._process_config. now rewrite H. }
  split.
  - pose proof (read_only_process_entries get_resource extract_pk pre [] [] [] w) as Hw.
    destruct (CopyViewSet.process_entries get_resource extract_pk pre [] [] [] w)
      as [[[[r s] x]|err] w1] eqn:Hpre; simpl in Hw; subst w1.
    + exists e. apply Hcreate. rewrite process_entries_app, Hpre.
      now apply process_entries_cons_raise.
    + exists err. apply Hcreate. now rewrite process_entries_app, Hpre.
  - intros Hpre (sref & sv & Hs & Hgs) message.
    split; [|apply version_message_names].
    apply Hcreate. rewrite process_entries_app.
    destruct (process_entries_pre_ok get_resource extract_pk pre w Hpre [] [] [])
      as (r & s & x & ->).
    apply process_entries_cons_raise. now apply (Hres sref sv).
Qed.

(** The witness of [copy_rejects_missing_base_version]: one entry, on top of
    version 5 of a repository that has version 0 only. *)
Lemma copy_rejects_missing_base_version_witness :
  CopyViewSet.create Fixtures.get_resource Fixtures.extract_pk
    (Fixtures.copy_request [Fixtures.entry_b5]) Fixtures.world
  = (Raise (DRFValidationError "Version 5 does not exist for repository 'beta'."),
     Fixtures.world).
Proof.
  refine (proj1 (proj2 (copy_rejects_missing_base_version
            Fixtures.get_resource Fixtures.extract_pk
            (Fixtures.copy_request [Fixtures.entry_b5]) Fixtures.world
            (VBool false) [] []
            (<["source_repo_version" := VStr "/repositories/a/versions/0/"]>
             (<["dest_repo" := VStr "/repositories/b/"]>
              (<["dest_base_version" := VInt 5]> ∅)))
            (VStr "/repositories/b/") Fixtures.repo_b 5 _ _ _ _ _ _) _ _)).
  - vm_compute; reflexivity.
  - vm_compute; reflexivity.
  - vm_compute; reflexivity.
  - reflexivity.
  - vm_compute; reflexivity.
  - intros (v & Hin & Hpk & Hn).
    apply list_elem_of_In in Hin. simpl in Hin.
    destruct Hin as [<- | [<- | []]]; discriminate.
  - constructor.
  - exists (VStr "/repositories/a/versions/0/"), Fixtures.version_a0.
    split; [vm_compute; reflexivity | reflexivity].
Defined.

(** C6 does not hold of every request with such an entry. Both requests
    below end with an entry on top of version 7 of alpha, which has version
    0 only. In the first the entry before it asks for version 5 of beta: the
    error names version 5 and beta, and neither 7 nor alpha. In the second
    the entry before it names a source that does not resolve: the error is
    the resolver's. *)
Lemma copy_first_failure_counterexample :
  (exists entry,
     Fixtures.entry_a7 = VDict entry
     /\ entry !! "dest_repo" = Some (VStr "/repositories/a/")
     /\ Fixtures.get_resource (VStr "/repositories/a/") cRpmRepository = Ok Fixtures.repo_a
     /\ entry !! "dest_base_version" = Some (VInt 7)
     /\ ~ has_version Fixtures.world Fixtures.repo_a 7)
  /\ (exists message,
        CopyViewSet.create Fixtures.get_resource Fixtures.extract_pk
          (Fixtures.copy_request [Fixtures.entry_b5; Fixtures.entry_a7]) Fixtures.world
        = (Raise (DRFValidationError message), Fixtures.world)
        /\ message = "Version 5 does not exist for repository 'beta'."
        /\ contains (str_int 7) message = false
        /\ contains (RpmRepository.name Fixtures.repo_a) message = false)
  /\ CopyViewSet.create Fixtures.get_resource Fixtures.extract_pk
       (Fixtures.copy_request [Fixtures.entry_unresolved; Fixtures.entry_a7]) Fixtures.world
     = (Raise (NotFoundError "/repositories/c/versions/0/"), Fixtures.world).
Proof.
  split; [|split].
  - eexists. split; [reflexivity|].
    split; [vm_compute; reflexivity|]. split; [reflexivity|].
    split; [vm_compute; reflexivity|].
    intros (v & Hin & Hpk & Hn).
    apply list_elem_of_In in Hin. simpl in Hin.
    destruct Hin as [<- | [<- | []]]; discriminate.
  - eexists. split; [vm_compute; reflexivity|]. repeat split; vm_compute; reflexivity.
  - vm_compute; reflexivity.
Qed.

(** ** Content creation *)

Section store_facts.

Variable unique_together : content_type -> list string.
Variable constraint_name : content_type -> string.


(** A serializer computes the digest, then inserts the row. *)
Lemma serializer_create_row (ct : content_type) (validated_data : gmap string val)
    (s : string) (w : World) :
  validated_data !! "snippet" = Some (VStr s) ->
  (ct = Modulemd -> is_Some (validated_data !! "packages")) ->
  serializer_create unique_together constraint_name ct validated_data w
  = match super_create unique_together constraint_name ct
            (request_row ct validated_data s) w with
    | (Ok u, w') =>
        match ct with
        | Modulemd =>
            packages_set u (default VNone (validated_data !! "packages")) w'
        | ModulemdDefaults => (Ok u, w')
        end
    | (Raise e, w') => (Raise e, w')
    end.
Proof.
  intros Hs Hp. destruct ct; simpl.
  - destruct (Hp eq_refl) as [p Hp'].
    unfold ModulemdSerializer.create. monad_step.
    rewrite Hs. monad_step. cbv beta iota. simpl snippet_digest. cbv beta iota.
    rewrite lookup_insert_ne by discriminate. rewrite Hp'. monad_step. cbv beta iota.
    reflexivity.
  - unfold ModulemdDefaultsSerializer.create. monad_step.
    rewrite Hs. monad_step. cbv beta iota. simpl snippet_digest. cbv beta iota.
    unfold request_row, sha256_hex.
    match goal with |- ?x = _ => destruct x as [[u|e] w'] end; reflexivity.
Qed.

Lemma request_row_digest (ct : content_type) (validated_data : gmap string val) (s : string) :
  request_row ct validated_data s !! "digest" = Some (VStr (sha256_hex s)).
Proof.
  destruct ct; simpl.
  - rewrite lookup_delete_ne by discriminate. apply lookup_insert_eq.
  - apply lookup_insert_eq.
Qed.



(** What a creation that went through left in the store. *)
Lemma serializer_create_ok (ct : content_type) (validated_data : gmap string val)
    (s : string) (w w' : World) (u : Content.t) :
  validated_data !! "snippet" = Some (VStr s) ->
  serializer_create unique_together constraint_name ct validated_data w = (Ok u, w') ->
  Content.model u = ct
  /\ Content.fields u = request_row ct validated_data s
  /\ contents w' = contents w ++ [u].
Proof.
  intros Hs H.
  assert (Hp : ct = Modulemd -> is_Some (validated_data !! "packages")).
  { intros ->. simpl in H. unfold ModulemdSerializer.create in H.
    apply bind_inv in H as (sn & w1 & _ & H).
    apply bind_inv in H as (d & w2 & _ & H).
    apply bind_inv in H as (p & w3 & H & _).
    revert H. monad_step. rewrite lookup_insert_ne by discriminate.
    destruct (validated_data !! "packages"); [eauto | discriminate]. }
  rewrite (serializer_create_row ct validated_data s w Hs Hp) in H.
  unfold super_create in H.
  destruct (existsb _ _); [discriminate|].
  destruct ct.
  - unfold packages_set in H.
    destruct (default VNone (validated_data !! "packages")); try discriminate.
    simpl in H. injection H as <- <-. simpl.
    repeat split.
    rewrite length_app. simpl. rewrite Nat.add_1_r. simpl.
    replace (length (contents w)) with (length (contents w) + 0)%nat by lia.
    now rewrite insert_app_r.
  - injection H as <- <-. now simpl.
Qed.

End store_facts.




(** ** The worker *)






(** ** Timestamps *)

Section datetime_facts.

Import datetime.

Local Open Scope nat_scope.

Lemma lex_compare_eq (a b : list nat) : lex_compare a b = Eq -> a = b.
Proof.
  revert b. induction a as [|x a IH]; intros [|y b]; simpl; try easy.
  destruct (Nat.compare_spec x y) as [-> | |]; try easy.
  intros E. f_equal. now apply IH.
Qed.

Lemma lex_compare_refl (a : list nat) : lex_compare a a = Eq.
Proof. induction a as [|x a IH]; simpl; [easy|]. now rewrite Nat.compare_refl. Qed.

Lemma lex_compare_antisym (a b : list nat) :
  lex_compare b a = CompOpp (lex_compare a b).
Proof.
  revert b. induction a as [|x a IH]; intros [|y b]; simpl; try easy.
  rewrite (Nat.compare_antisym x y).
  destruct (x ?= y); simpl; [apply IH | easy | easy].
Qed.

Lemma lex_compare_trans (a b c : list nat) :
  lex_compare a b = Lt -> lex_compare b c = Lt -> lex_compare a c = Lt.
Proof.
  revert b c. induction a as [|x a IH]; intros [|y b] [|z c]; simpl; try easy.
  destruct (Nat.compare_spec x y), (Nat.compare_spec y z), (Nat.compare_spec x z);
    try easy; try lia.
  apply IH.
Qed.

Lemma datetime_compare_eq (a b : t) : compare a b = Eq <-> a = b.
Proof.
  split.
  - intros H. apply lex_compare_eq in H. destruct a, b. now injection H as -> -> -> -> -> ->.
  - intros ->. apply lex_compare_refl.
Qed.

Lemma datetime_compare_antisym (a b : t) : compare b a = CompOpp (compare a b).
Proof. apply lex_compare_antisym. Qed.

Lemma datetime_compare_trans (a b c : t) :
  compare a b = Lt -> compare b c = Lt -> compare a c = Lt.
Proof. apply lex_compare_trans. Qed.

Lemma datetime_leb_refl (a : t) : leb a a = true.
Proof. unfold leb. now rewrite (proj2 (datetime_compare_eq a a) eq_refl). Qed.

Lemma datetime_eqb_eq (a b : t) : eqb a b = true <-> a = b.
Proof.
  unfold eqb. rewrite <- datetime_compare_eq. destruct (compare a b); easy.
Qed.

Lemma datetime_ltb_leb (a b : t) : ltb a b = true -> leb a b = true.
Proof. unfold ltb, leb. now destruct (compare a b). Qed.

Lemma datetime_leb_false (a b : t) : leb a b = false <-> ltb b a = true.
Proof.
  unfold ltb, leb. rewrite (datetime_compare_antisym a b). destruct (compare a b); easy.
Qed.

Lemma datetime_ltb_false (a b : t) : ltb a b = false <-> leb b a = true.
Proof.
  unfold ltb, leb. rewrite (datetime_compare_antisym a b). destruct (compare a b); easy.
Qed.

Lemma datetime_ltb_trans (a b c : t) : ltb a b = true -> ltb b c = true -> ltb a c = true.
Proof.
  unfold ltb. destruct (compare a b) eqn:E1; try easy.
  destruct (compare b c) eqn:E2; try easy.
  now rewrite (datetime_compare_trans a b c E1 E2).
Qed.

Lemma datetime_leb_ltb_trans (a b c : t) : leb a b = true -> ltb b c = true -> ltb a c = true.
Proof.
  unfold leb. destruct (compare a b) eqn:E; try easy.
  - apply datetime_compare_eq in E as ->. easy.
  - intros _. apply datetime_ltb_trans. unfold ltb. now rewrite E.
Qed.

Lemma datetime_ltb_leb_trans (a b c : t) : ltb a b = true -> leb b c = true -> ltb a c = true.
Proof.
  intros H. unfold leb. destruct (compare b c) eqn:E; try easy.
  - apply datetime_compare_eq in E as <-. easy.
  - intros _. apply (datetime_ltb_trans a b c H). unfold ltb. now rewrite E.
Qed.

Lemma datetime_leb_trans (a b c : t) : leb a b = true -> leb b c = true -> leb a c = true.
Proof.
  intros H1 H2. destruct (leb a c) eqn:E; [easy|].
  apply datetime_leb_false in E. pose proof (datetime_ltb_leb_trans c a b E H1) as H.
  pose proof (datetime_leb_ltb_trans b c b H2 H) as H3.
  unfold ltb in H3. now rewrite (proj2 (datetime_compare_eq b b) eq_refl) in H3.
Qed.

Lemma datetime_leb_antisym (a b : t) : leb a b = true -> leb b a = true -> a = b.
Proof.
  unfold leb. rewrite (datetime_compare_antisym a b).
  destruct (compare a b) eqn:E; try easy. intros _ _. now apply datetime_compare_eq.
Qed.

Lemma datetime_ltb_irrefl (a : t) : ltb a a = false.
Proof. unfold ltb. now rewrite (proj2 (datetime_compare_eq a a) eq_refl). Qed.

(** *** Printing and parsing *)

Lemma digit_value_digit (n : nat) : digit_value (digit n) = Some (n mod 10).
Proof.
  unfold digit. pose proof (Nat.mod_upper_bound n 10) as H.
  destruct (n mod 10) as [|[|[|[|[|[|[|[|[|[|m]]]]]]]]]]; try reflexivity. lia.
Qed.

Lemma number_cons (c : ascii) (cs : list ascii) (acc : nat) :
  number (c :: cs) acc
  = match digit_value c with
    | Some v => number cs (10 * acc + v)
    | None => None
    end.
Proof. reflexivity. Qed.

Lemma number_digits2 (n : nat) : n < 100 -> number (digits2 n) 0 = Some n.
Proof.
  intros H. unfold digits2.
  repeat (rewrite number_cons, digit_value_digit; cbv beta iota).
  cbn [number]. f_equal.
  pose proof (Nat.div_mod_eq n 10). pose proof (Nat.mod_upper_bound n 10).
  assert (n / 10 < 10) by (apply Nat.Div0.div_lt_upper_bound; lia).
  rewrite (Nat.mod_small (n / 10)) by lia. lia.
Qed.

Lemma number_digits4 (n : nat) : n < 100 * 100 -> number (digits4 n) 0 = Some n.
Proof.
  intros H. unfold digits4.
  repeat (rewrite number_cons, digit_value_digit; cbv beta iota).
  cbn [number]. f_equal.
  pose proof (Nat.div_mod_eq n 10). pose proof (Nat.mod_upper_bound n 10).
  pose proof (Nat.div_mod_eq (n / 10) 10). pose proof (Nat.mod_upper_bound (n / 10) 10).
  pose proof (Nat.div_mod_eq (n / 10 / 10) 10).
  pose proof (Nat.mod_upper_bound (n / 10 / 10) 10).
  assert (E2 : n / 100 = n / 10 / 10) by (now rewrite Nat.Div0.div_div).
  assert (E3 : n / 1000 = n / 10 / 10 / 10) by (now rewrite !Nat.Div0.div_div).
  rewrite E2, E3.
  assert (n / 10 / 10 / 10 < 10).
  { rewrite <- E3. apply Nat.Div0.div_lt_upper_bound. lia. }
  rewrite (Nat.mod_small (n / 10 / 10 / 10)) by lia. lia.
Qed.

Lemma days_in_month_le (y m : nat) : days_in_month y m <= 31.
Proof.
  unfold days_in_month.
  do 13 (destruct m as [|m]; [try lia; destruct (is_leap y); lia|]). lia.
Qed.

(** Parsing what was printed gives the datetime back. *)
Lemma strptime_strftime (d : t) : valid d = true -> strptime (strftime d) = Some d.
Proof.
  intros Hv. pose proof Hv as Hv'. unfold valid in Hv'.
  repeat (apply andb_true_iff in Hv' as [Hv' ?]).
  repeat match goal with
         | H : (_ <=? _) = true |- _ => apply Nat.leb_le in H
         | H : (_ <? _) = true |- _ => apply Nat.ltb_lt in H
         end.
  pose proof (days_in_month_le (year d) (month d)).
  unfold strptime, strftime. rewrite list_ascii_of_string_of_list_ascii.
  unfold digits4 at 1, digits2 at 1 2 3 4 5. cbn [app].
  change (Ascii.eqb "T" "T" && Ascii.eqb "Z" "Z") with true. cbv iota.
  change [digit (year d / 1000); digit (year d / 100); digit (year d / 10); digit (year d)]
    with (digits4 (year d)).
  repeat match goal with
         | |- context [number [digit (?n / 10); digit ?n] 0] =>
             change [digit (n / 10); digit n] with (digits2 n)
         end.
  rewrite number_digits4 by assumption.
  rewrite !number_digits2 by lia.
  cbn [mbind option_bind].
  destruct d. cbn [year month day hour minute second] in *.
  now rewrite Hv.
Qed.

Lemma strftime_inj (a b : t) :
  valid a = true -> valid b = true -> strftime a = strftime b -> a = b.
Proof.
  intros Ha Hb H. apply strptime_strftime in Ha, Hb.
  rewrite H in Ha. congruence.
Qed.

End datetime_facts.

(** ** The checkpoint read path *)

Section resolver_facts.

Import CheckpointResolver.

Lemma strip_prefix_app (p r : string) : strip_prefix p (p +:+ r) = Some r.
Proof.
  induction p as [|a p IH]; [now destruct r|].
  change (strip_prefix (String a p) (String a (p +:+ r)) = Some r).
  cbn [strip_prefix]. now rewrite Ascii.eqb_refl.
Qed.

Lemma strip_prefix_self (p : string) : strip_prefix p p = Some EmptyString.
Proof.
  induction p as [|a p IH]; [reflexivity|].
  cbn [strip_prefix]. now rewrite Ascii.eqb_refl.
Qed.

Lemma ends_with_slash_app (s : string) : ends_with_slash (s +:+ "/") = true.
Proof.
  induction s as [|a s IH]; [reflexivity|].
  change (ends_with_slash (String a (s +:+ "/")) = true).
  cbn [ends_with_slash]. destruct (s +:+ "/") eqn:E; [now destruct s | exact IH].
Qed.

Lemma but_last_app (s : string) : but_last (s +:+ "/") = s.
Proof.
  induction s as [|a s IH]; [reflexivity|].
  change (but_last (String a (s +:+ "/")) = String a s).
  cbn [but_last]. destruct (s +:+ "/") eqn:E; [now destruct s | now rewrite IH].
Qed.

(** A printed timestamp is not empty. *)
Lemma strftime_cons (t : datetime.t) :
  exists c s, datetime.strftime t = String c s.
Proof. unfold datetime.strftime, datetime.digits4. cbn [app string_of_list_ascii]. eauto. Qed.

(** *** The binary search *)

Lemma bisect_spec (seq : list Publication.t) (t : datetime.t) (lo hi : nat) :
  strictly_increasing seq ->
  (lo <= hi <= length seq)%nat ->
  (forall i p, (i < lo)%nat -> seq !! i = Some p ->
               datetime.leb (Publication.created_at p) t = true) ->
  (forall i p, (hi <= i)%nat -> seq !! i = Some p ->
               datetime.leb (Publication.created_at p) t = false) ->
  (lo <= bisect seq t lo hi <= hi)%nat
  /\ (forall i p, (i < bisect seq t lo hi)%nat -> seq !! i = Some p ->
                  datetime.leb (Publication.created_at p) t = true)
  /\ (forall i p, (bisect seq t lo hi <= i)%nat -> seq !! i = Some p ->
                  datetime.leb (Publication.created_at p) t = false).
Proof.
  intros Hinc. funelim (bisect seq t lo hi); intros Hb Hlo Hhi.
  - (* the range is empty *)
    repeat split; try lia; [exact Hlo|].
    intros i p Hi. apply Hhi. lia.
  - (* the middle of a range within the sequence is an entry *)
    exfalso. apply lookup_ge_None in Heq.
    pose proof (Nat.div_mod_eq (lo + hi) 2). pose proof (Nat.mod_upper_bound (lo + hi) 2).
    lia.
  - (* the middle entry is at or before [t]: go right *)
    pose proof (Nat.div_mod_eq (lo + hi) 2). pose proof (Nat.mod_upper_bound (lo + hi) 2).
    destruct H as (Hr & Hbelow & Habove); [assumption | lia | | assumption |].
    + intros i q Hi Hq.
      destruct (decide (i = (lo + hi) / 2)%nat) as [-> | Hne].
      * rewrite Heq0 in Hq. now injection Hq as <-.
      * apply datetime_ltb_leb.
        apply (datetime_ltb_leb_trans _ (Publication.created_at p)); [|assumption].
        apply (Hinc i ((lo + hi) / 2)%nat); [lia | assumption | assumption].
    + repeat split; [lia | lia | assumption | assumption].
  - (* the middle entry is after [t]: go left *)
    pose proof (Nat.div_mod_eq (lo + hi) 2). pose proof (Nat.mod_upper_bound (lo + hi) 2).
    destruct H as (Hr & Hbelow & Habove); [assumption | lia | assumption | |].
    + intros i q Hi Hq.
      destruct (decide (i = (lo + hi) / 2)%nat) as [-> | Hne].
      * rewrite Heq0 in Hq. now injection Hq as <-.
      * apply datetime_leb_false. apply datetime_leb_false in Heq.
        apply (datetime_ltb_trans _ (Publication.created_at p)); [assumption|].
        apply (Hinc ((lo + hi) / 2)%nat i); [lia | assumption | assumption].
    + repeat split; [lia | lia | assumption | assumption].
Qed.

(** The latest entry at or before [t]: none when every entry is later,
    otherwise the entry every other entry at or before [t] precedes. *)
Lemma latest_at_or_before_spec (seq : list Publication.t) (t : datetime.t) :
  strictly_increasing seq ->
  match latest_at_or_before seq t with
  | None =>
      forall p, p ∈ seq -> datetime.ltb t (Publication.created_at p) = true
  | Some p =>
      p ∈ seq
      /\ datetime.leb (Publication.created_at p) t = true
      /\ (forall q, q ∈ seq -> datetime.leb (Publication.created_at q) t = true ->
                    datetime.leb (Publication.created_at q) (Publication.created_at p) = true)
  end.
Proof.
  intros Hinc. unfold latest_at_or_before.
  destruct (bisect_spec seq t 0 (length seq) Hinc) as (Hr & Hbelow & Habove);
    [lia | intros i p Hi; lia | |].
  { intros i p Hi Hp. apply lookup_lt_Some in Hp. lia. }
  destruct (bisect seq t 0 (length seq)) as [|r] eqn:E.
  - intros p (i & Hi)%list_elem_of_lookup. apply datetime_leb_false.
    apply (Habove i); [lia | assumption].
  - destruct (lookup_lt_is_Some_2 seq r) as [p Hp]; [lia|]. rewrite Hp.
    split; [now apply list_elem_of_lookup; exists r|].
    split; [apply (Hbelow r); [lia | assumption]|].
    intros q (i & Hi)%list_elem_of_lookup Hq.
    destruct (decide (i = r)) as [-> | Hne].
    + rewrite Hp in Hi. injection Hi as <-. apply datetime_leb_refl.
    + assert (i < r)%nat.
      { destruct (decide (i < r)%nat); [assumption|]. exfalso.
        rewrite (Habove i q) in Hq; [discriminate | lia | assumption]. }
      apply datetime_ltb_leb. now apply (Hinc i r).
Qed.

(** The latest entry at or before the creation time of an entry is that
    entry. *)
Lemma latest_at_or_before_exact (seq : list Publication.t) (p : Publication.t) :
  strictly_increasing seq -> p ∈ seq ->
  latest_at_or_before seq (Publication.created_at p) = Some p.
Proof.
  intros Hinc Hp.
  pose proof (latest_at_or_before_spec seq (Publication.created_at p) Hinc) as H.
  destruct (latest_at_or_before seq (Publication.created_at p)) as [q|].
  - destruct H as (Hq & Hle & Hmax). f_equal.
    apply list_elem_of_lookup in Hq as (i & Hi).
    apply list_elem_of_lookup in Hp as (j & Hj).
    destruct (Nat.lt_trichotomy i j) as [Hlt | [-> | Hgt]].
    + pose proof (Hinc i j q p Hlt Hi Hj) as Hs.
      assert (Hpq : datetime.leb (Publication.created_at p) (Publication.created_at q) = true).
      { apply Hmax; [apply list_elem_of_lookup; now exists j | apply datetime_leb_refl]. }
      apply datetime_ltb_false in Hpq. congruence.
    + congruence.
    + pose proof (Hinc j i p q Hgt Hj Hi) as Hs.
      apply datetime_ltb_false in Hle. congruence.
  - specialize (H p Hp). now rewrite datetime_ltb_irrefl in H.
Qed.

End resolver_facts.

Section read_path.

Import CheckpointResolver.

Variable pubs : list Publication.t.
Variable d : Distribution.t.
Variable now : datetime.t.

Hypothesis checkpoint_enabled : Distribution.checkpoint d = true.

Lemma base_url_ends_with_slash : ends_with_slash (Distribution.base_url d) = true.
Proof.
  unfold Distribution.base_url. rewrite <- append_assoc. apply ends_with_slash_app.
Qed.

Lemma get_base_url :
  get pubs d (Distribution.base_url d) now
  = Listing ((fun p => datetime.strftime (Publication.created_at p))
               <$> checkpoint_sequence pubs d).
Proof.
  unfold get. rewrite checkpoint_enabled. cbn [negb].
  rewrite base_url_ends_with_slash. now rewrite strip_prefix_self.
Qed.

(** A request below the base URL, for a text that is not empty. *)
Lemma get_timestamp_url (text : string) :
  text <> EmptyString ->
  get pubs d (Distribution.base_url d +:+ text +:+ "/") now
  = match resolve pubs d text now with
    | NotFound => NotFound404
    | ResolvedCheckpoint p =>
        if String.eqb (datetime.strftime (Publication.created_at p)) text
        then Index (Distribution.base_url d +:+ text +:+ "/") p
        else MovedPermanently (checkpoint_url d p)
    end.
Proof.
  intros Hne. unfold get. rewrite checkpoint_enabled. cbn [negb].
  assert (Hs : ends_with_slash (Distribution.base_url d +:+ text +:+ "/") = true)
    by (rewrite <- append_assoc; apply ends_with_slash_app).
  rewrite Hs, strip_prefix_app.
  destruct (text +:+ "/") as [|c rest] eqn:E; [now destruct text|].
  rewrite <- E, but_last_app. reflexivity.
Qed.

Lemma strftime_nonempty (t : datetime.t) : datetime.strftime t <> EmptyString.
Proof. destruct (strftime_cons t) as (c & s & ->). discriminate. Qed.

(** Resolving the printed form of a valid timestamp that is not in the
    future is the binary search. *)
Lemma resolve_strftime (t : datetime.t) :
  datetime.valid t = true -> datetime.leb t now = true ->
  resolve pubs d (datetime.strftime t) now
  = match latest_at_or_before (checkpoint_sequence pubs d) t with
    | None => NotFound
    | Some p => ResolvedCheckpoint p
    end.
Proof.
  intros Hv Hle. unfold resolve. rewrite (strptime_strftime t Hv).
  now rewrite (proj2 (datetime_ltb_false now t) Hle).
Qed.

Lemma resolve_future (t : datetime.t) :
  datetime.valid t = true -> datetime.ltb now t = true ->
  resolve pubs d (datetime.strftime t) now = NotFound.
Proof.
  intros Hv Hlt. unfold resolve. rewrite (strptime_strftime t Hv). now rewrite Hlt.
Qed.

(** The canonical URL of a checkpoint of the sequence serves its index. *)
Lemma get_checkpoint_url (p : Publication.t) :
  strictly_increasing (checkpoint_sequence pubs d) ->
  p ∈ checkpoint_sequence pubs d ->
  datetime.valid (Publication.created_at p) = true ->
  datetime.leb (Publication.created_at p) now = true ->
  resolve pubs d (datetime.strftime (Publication.created_at p)) now = ResolvedCheckpoint p
  /\ get pubs d (checkpoint_url d p) now = Index (checkpoint_url d p) p.
Proof.
  intros Hinc Hp Hv Hle.
  assert (Hr : resolve pubs d (datetime.strftime (Publication.created_at p)) now
               = ResolvedCheckpoint p).
  { rewrite (resolve_strftime _ Hv Hle).
    now rewrite (latest_at_or_before_exact _ p Hinc Hp). }
  split; [exact Hr|].
  unfold checkpoint_url. rewrite get_timestamp_url by apply strftime_nonempty.
  rewrite Hr. now rewrite String.eqb_refl.
Qed.

Lemma checkpoint_sequence_elem (p : Publication.t) :
  p ∈ checkpoint_sequence pubs d
  <-> p ∈ pubs /\ Publication.checkpoint p = true
      /\ Publication.repository p = Distribution.repository d.
Proof.
  unfold checkpoint_sequence. rewrite !list_elem_of_In, filter_In.
  rewrite andb_true_iff, String.eqb_eq. tauto.
Qed.

End read_path.

(** C7: in a checkpoint-enabled distribution, the formatted creation time of
    a checkpoint publication resolves to that publication, and the request
    for it is answered with the publication's index at the requested path,
    not with a redirect. *)
Theorem exact_timestamp_is_served
    (pubs : list Publication.t) (d : Distribution.t) (now : datetime.t)
    (p : Publication.t) :
  Distribution.checkpoint d = true ->
  strictly_increasing (CheckpointResolver.checkpoint_sequence pubs d) ->
  p ∈ pubs ->
  Publication.checkpoint p = true ->
  Publication.repository p = Distribution.repository d ->
  datetime.valid (Publication.created_at p) = true ->
  datetime.leb (Publication.created_at p) now = true ->
  let text := datetime.strftime (Publication.created_at p) in
  CheckpointResolver.resolve pubs d text now = CheckpointResolver.ResolvedCheckpoint p
  /\ CheckpointResolver.get pubs d (Distribution.base_url d +:+ text +:+ "/") now
     = CheckpointResolver.Index (Distribution.base_url d +:+ text +:+ "/") p.
Proof.
  intros Hc Hinc Hp Hcp Hrepo Hv Hle text.
  apply (get_checkpoint_url pubs d now Hc p Hinc); [|assumption..].
  now apply checkpoint_sequence_elem.
Qed.

(** C4: the base path of a checkpoint-enabled distribution, with its final
    slash or without, lists the formatted creation times of the
    checkpoint-flagged publications of the repository, all of them and
    nothing else; the creation time of a publication that is not a checkpoint
    is not listed, unless a checkpoint was created at that very time. *)
Theorem base_path_lists_checkpoints
    (pubs : list Publication.t) (d : Distribution.t) (now : datetime.t) :
  Distribution.checkpoint d = true ->
  CheckpointResolver.ends_with_slash ("/" +:+ Distribution.base_path d) = false ->
  let listing :=
    (fun p => datetime.strftime (Publication.created_at p))
      <$> CheckpointResolver.checkpoint_sequence pubs d in
  CheckpointResolver.get pubs d (Distribution.base_url d) now
    = CheckpointResolver.Listing listing
  /\ CheckpointResolver.get pubs d ("/" +:+ Distribution.base_path d) now
     = CheckpointResolver.Listing listing
  /\ (forall text,
        text ∈ listing
        <-> exists p, p ∈ pubs /\ Publication.checkpoint p = true
                      /\ Publication.repository p = Distribution.repository d
                      /\ text = datetime.strftime (Publication.created_at p))
  /\ (forall q,
        q ∈ pubs -> Publication.checkpoint q = false ->
        datetime.valid (Publication.created_at q) = true ->
        (forall p, p ∈ pubs -> Publication.checkpoint p = true ->
                   Publication.repository p = Distribution.repository d ->
                   datetime.valid (Publication.created_at p) = true
                   /\ Publication.created_at p <> Publication.created_at q) ->
        datetime.strftime (Publication.created_at q) ∉ listing).
Proof.
  intros Hc Hslash listing.
  assert (Hmem : forall text,
            text ∈ listing
            <-> exists p, p ∈ pubs /\ Publication.checkpoint p = true
                          /\ Publication.repository p = Distribution.repository d
                          /\ text = datetime.strftime (Publication.created_at p)).
  { intros text. unfold listing. rewrite list_elem_of_fmap. split.
    - intros (p & -> & Hp). apply checkpoint_sequence_elem in Hp as (? & ? & ?).
      exists p. auto.
    - intros (p & Hp & Hcp & Hr & ->). exists p. split; [reflexivity|].
      now apply checkpoint_sequence_elem. }
  split; [now apply get_base_url|]. split; [|split; [exact Hmem|]].
  - unfold CheckpointResolver.get. rewrite Hc, Hslash. cbn [negb].
    rewrite append_assoc. fold (Distribution.base_url d).
    now rewrite strip_prefix_self.
  - intros q Hq Hnc Hvq Hdistinct Hin.
    apply Hmem in Hin as (p & Hp & Hcp & Hr & Heq).
    destruct (Hdistinct p Hp Hcp Hr) as [Hvp Hne].
    apply Hne. symmetry. now apply strftime_inj.
Qed.

Lemma strictly_increasing_pair (p1 p2 : Publication.t) :
  datetime.ltb (Publication.created_at p1) (Publication.created_at p2) = true ->
  strictly_increasing [p1; p2].
Proof.
  intros H i j p q Hij Hi Hj.
  destruct i as [|[|i]], j as [|[|j]]; try lia; try discriminate.
  injection Hi as <-. injection Hj as <-. exact H.
Qed.

(** C1: a checkpoint-enabled distribution whose checkpoint publications are
    [P1] then [P2], created at T1 < T2, with a publication [P3] that is not a
    checkpoint created at T3 > T2 (before now, as every publication is). A
    timestamp in [T2, T3) resolves to [P2], and the client that follows the
    redirect gets the index of [P2] at its canonical URL; a timestamp before
    T1 and a timestamp after now are not found. *)
Theorem resolve_between_checkpoints
    (pubs : list Publication.t) (d : Distribution.t) (now : datetime.t)
    (P1 P2 P3 : Publication.t) :
  Distribution.checkpoint d = true ->
  CheckpointResolver.checkpoint_sequence pubs d = [P1; P2] ->
  P3 ∈ pubs ->
  Publication.checkpoint P3 = false ->
  datetime.ltb (Publication.created_at P1) (Publication.created_at P2) = true ->
  datetime.ltb (Publication.created_at P2) (Publication.created_at P3) = true ->
  datetime.leb (Publication.created_at P3) now = true ->
  datetime.valid (Publication.created_at P2) = true ->
  forall t,
    datetime.valid t = true ->
    let url := Distribution.base_url d +:+ datetime.strftime t +:+ "/" in
    (datetime.leb (Publication.created_at P2) t = true ->
     datetime.ltb t (Publication.created_at P3) = true ->
     CheckpointResolver.resolve pubs d (datetime.strftime t) now
       = CheckpointResolver.ResolvedCheckpoint P2
     /\ CheckpointResolver.http_get 1 pubs d url now
        = CheckpointResolver.Index (CheckpointResolver.checkpoint_url d P2) P2)
    /\ (datetime.ltb t (Publication.created_at P1) = true ->
        CheckpointResolver.resolve pubs d (datetime.strftime t) now
          = CheckpointResolver.NotFound
        /\ CheckpointResolver.http_get 1 pubs d url now = CheckpointResolver.NotFound404)
    /\ (datetime.ltb now t = true ->
        CheckpointResolver.resolve pubs d (datetime.strftime t) now
          = CheckpointResolver.NotFound
        /\ CheckpointResolver.http_get 1 pubs d url now = CheckpointResolver.NotFound404).
Proof.
  intros Hc Hseq HP3 HnP3 H12 H23 H3now Hv2 t Hvt url.
  pose proof (strictly_increasing_pair P1 P2 H12) as Hinc. rewrite <- Hseq in Hinc.
  assert (H2now : datetime.leb (Publication.created_at P2) now = true).
  { apply datetime_ltb_leb. now apply (datetime_ltb_leb_trans _ _ _ H23). }
  pose proof (latest_at_or_before_spec _ t Hinc) as Hspec.
  assert (Hget : forall r,
            CheckpointResolver.resolve pubs d (datetime.strftime t) now = r ->
            CheckpointResolver.get pubs d url now
            = match r with
              | CheckpointResolver.NotFound => CheckpointResolver.NotFound404
              | CheckpointResolver.ResolvedCheckpoint p =>
                  if String.eqb (datetime.strftime (Publication.created_at p))
                                (datetime.strftime t)
                  then CheckpointResolver.Index url p
                  else CheckpointResolver.MovedPermanently
                         (CheckpointResolver.checkpoint_url d p)
              end).
  { intros r <-. apply (get_timestamp_url pubs d now Hc). apply strftime_nonempty. }
  split; [|split].
  - (* T2 <= t < T3 *)
    intros H2t Ht3.
    assert (Htnow : datetime.leb t now = true).
    { apply datetime_ltb_leb. now apply (datetime_ltb_leb_trans _ _ _ Ht3). }
    assert (Hr : CheckpointResolver.resolve pubs d (datetime.strftime t) now
                 = CheckpointResolver.ResolvedCheckpoint P2).
    { rewrite (resolve_strftime pubs d now t Hvt Htnow).
      destruct (CheckpointResolver.latest_at_or_before _ t) as [p|].
      - destruct Hspec as (Hp & Hpt & Hmax). f_equal.
        rewrite Hseq in Hp, Hmax.
        apply elem_of_cons in Hp as [-> | Hp].
        + specialize (Hmax P2 ltac:(right; left) H2t).
          apply datetime_ltb_false in Hmax. congruence.
        + now apply list_elem_of_singleton in Hp.
      - rewrite Hseq in Hspec. specialize (Hspec P2 ltac:(right; left)).
        apply datetime_ltb_false in H2t. congruence. }
    split; [exact Hr|].
    cbn [CheckpointResolver.http_get]. rewrite (Hget _ Hr).
    destruct (String.eqb _ _) eqn:E.
    + apply String.eqb_eq in E. unfold url, CheckpointResolver.checkpoint_url.
      now rewrite E.
    + assert (HP2 : P2 ∈ CheckpointResolver.checkpoint_sequence pubs d)
        by (rewrite Hseq; right; left).
      destruct (get_checkpoint_url pubs d now Hc P2 Hinc HP2 Hv2 H2now) as [_ ->].
      reflexivity.
  - (* t < T1 *)
    intros Ht1.
    assert (Ht2 : datetime.ltb t (Publication.created_at P2) = true)
      by (now apply (datetime_ltb_trans _ _ _ Ht1)).
    assert (Htnow : datetime.leb t now = true).
    { apply datetime_ltb_leb. apply (datetime_ltb_leb_trans _ _ _ Ht2 H2now). }
    assert (Hr : CheckpointResolver.resolve pubs d (datetime.strftime t) now
                 = CheckpointResolver.NotFound).
    { rewrite (resolve_strftime pubs d now t Hvt Htnow).
      destruct (CheckpointResolver.latest_at_or_before _ t) as [p|]; [|reflexivity].
      destruct Hspec as (Hp & Hpt & _). rewrite Hseq in Hp.
      apply datetime_ltb_false in Hpt.
      apply elem_of_cons in Hp as [-> | Hp]; [congruence|].
      apply list_elem_of_singleton in Hp as ->. congruence. }
    split; [exact Hr|].
    cbn [CheckpointResolver.http_get]. now rewrite (Hget _ Hr).
  - (* t > now *)
    intros Hfuture.
    pose proof (resolve_future pubs d now t Hvt Hfuture) as Hr.
    split; [exact Hr|].
    cbn [CheckpointResolver.http_get]. now rewrite (Hget _ Hr).
Qed.

(** The witness of [resolve_between_checkpoints]: in the setup of
    test_checkpoint.py, one second after the second checkpoint. *)
Lemma resolve_between_checkpoints_witness :
  CheckpointResolver.http_get 1 CheckpointFixtures.pubs CheckpointFixtures.distribution
    (Distribution.base_url CheckpointFixtures.distribution
     +:+ datetime.strftime (CheckpointFixtures.at_second 17) +:+ "/")
    CheckpointFixtures.now
  = CheckpointResolver.Index
      (CheckpointResolver.checkpoint_url CheckpointFixtures.distribution
         CheckpointFixtures.p3)
      CheckpointFixtures.p3.
Proof.
  refine (proj2 (proj1 (resolve_between_checkpoints
            CheckpointFixtures.pubs CheckpointFixtures.distribution CheckpointFixtures.now
            CheckpointFixtures.p1 CheckpointFixtures.p3 CheckpointFixtures.p4
            _ _ _ _ _ _ _ _ (CheckpointFixtures.at_second 17) _) _ _)).
  - reflexivity.
  - vm_compute; reflexivity.
  - apply list_elem_of_In. vm_compute. tauto.
  - reflexivity.
  - vm_compute; reflexivity.
  - vm_compute; reflexivity.
  - vm_compute; reflexivity.
  - vm_compute; reflexivity.
  - vm_compute; reflexivity.
  - vm_compute; reflexivity.
  - vm_compute; reflexivity.
Defined.

(** The witness of [exact_timestamp_is_served]: the first checkpoint of the
    setup of test_checkpoint.py. *)
Lemma exact_timestamp_is_served_witness :
  CheckpointResolver.get CheckpointFixtures.pubs CheckpointFixtures.distribution
    (Distribution.base_url CheckpointFixtures.distribution
     +:+ datetime.strftime (CheckpointFixtures.at_second 12) +:+ "/")
    CheckpointFixtures.now
  = CheckpointResolver.Index
      (Distribution.base_url CheckpointFixtures.distribution
       +:+ datetime.strftime (CheckpointFixtures.at_second 12) +:+ "/")
      CheckpointFixtures.p1.
Proof.
  refine (proj2 (exact_timestamp_is_served
            CheckpointFixtures.pubs CheckpointFixtures.distribution CheckpointFixtures.now
            CheckpointFixtures.p1 _ _ _ _ _ _ _)).
  - reflexivity.
  - replace (CheckpointResolver.checkpoint_sequence CheckpointFixtures.pubs
               CheckpointFixtures.distribution)
      with [CheckpointFixtures.p1; CheckpointFixtures.p3] by (vm_compute; reflexivity).
    apply strictly_increasing_pair. vm_compute; reflexivity.
  - apply list_elem_of_In. vm_compute. tauto.
  - reflexivity.
  - reflexivity.
  - vm_compute; reflexivity.
  - vm_compute; reflexivity.
Defined.

(** The witness of [base_path_lists_checkpoints]: the listing of the setup
    of test_checkpoint.py, asked for without the final slash. *)
Lemma base_path_lists_checkpoints_witness :
  CheckpointResolver.get CheckpointFixtures.pubs CheckpointFixtures.distribution
    "/checkpoints" CheckpointFixtures.now
  = CheckpointResolver.Listing ["20250301T092712Z"; "20250301T092716Z"].
Proof.
  refine (proj1 (proj2 (base_path_lists_checkpoints
            CheckpointFixtures.pubs CheckpointFixtures.distribution CheckpointFixtures.now
            _ _))).
  - reflexivity.
  - vm_compute; reflexivity.
Defined.

(** ** Further properties of the triggers and serializers *)

(** [hashlib.sha256] on the standard test vector and on the snippet of
    test_create_modulemds. *)
Example sha256_abc :
  sha256_hex "abc" = "ba7816bf8f01cfea414140de5dae2223b00361a396177a9cb410ff61f20015ad".
Proof. vm_compute. reflexivity. Qed.

(** The digest [ModulemdSerializer.create] computes for the snippet
    [foobar] of test_create_modulemds. *)
Example snippet_digest_foobar :
  snippet_digest (VStr "foobar")
  = Ok "c3ab8ff13720e8ad9047dd39466b3c8974e592c2fa383d4a3960714caef0c4f2".
Proof. vm_compute. reflexivity. Qed.

(** The month 99 of test_invalid_timestamp_returns_404 does not parse. *)
Example strptime_month_99 : datetime.strptime "20259928T092752Z" = None.
Proof. vm_compute. reflexivity. Qed.

(** X1: the copy trigger dispatches exactly one task when it succeeds and
    leaves the state untouched when it fails. *)
Theorem copy_dispatches_once
    (get_resource : val -> forall c : model_class, result (instance_of c))
    (extract_pk : val -> result string)
    (validated_data : gmap string val) (w : World) :
  match CopyViewSet.create get_resource extract_pk validated_data w with
  | (Ok (OperationPostponedResponse t), w') =>
      Task.func t = copy_content
      /\ w' = mkWorld (repository_versions w) (rpm_repositories w) (contents w)
                      (tasks w ++ [t])
  | (Raise _, w') => w' = w
  end.
Proof.
  unfold CopyViewSet.create. monad_step.
  destruct (validated_data !! "dependency_solving") as [dep|]; [|reflexivity].
  monad_step. cbv beta iota.
  destruct (validated_data !! "config") as [config|]; [|reflexivity].
  monad_step. cbv beta iota.
  pose proof (read_only_process_config get_resource extract_pk config w) as Hw.
  destruct (CopyViewSet._process_config get_resource extract_pk config w)
    as [[[[plan shared] exclusive]|e] w1]; simpl in Hw; subst w1; [|reflexivity].
  unfold dispatch. now split.
Qed.

(** X2: the sync trigger dispatches exactly one task when it succeeds and
    leaves the state untouched when it fails. *)
Theorem sync_dispatches_once
    (repository : RpmRepository.t) (validated_data : gmap string val) (w : World) :
  match RpmRepositoryViewSet.sync repository validated_data w with
  | (Ok (OperationPostponedResponse t), w') =>
      Task.func t = synchronize
      /\ w' = mkWorld (repository_versions w) (rpm_repositories w) (contents w)
                      (tasks w ++ [t])
  | (Raise _, w') => w' = w
  end.
Proof.
  unfold RpmRepositoryViewSet.sync.
  set (remote := dict_get_default _ _ _).
  monad_step. unfold RpmRepositoryViewSet.remote_of, dispatch.
  repeat match goal with
         | |- context [if ?b then _ else _] => destruct b; simpl
         end; try reflexivity.
  all: destruct remote; simpl; try reflexivity; now split.
Qed.

(** X3: [ModulemdSerializer.create] takes [packages] out of the validated
    data with [pop]: for a request without that key (the field is not
    required) it raises [KeyError] and stores nothing. *)
Theorem modulemd_create_needs_packages
    (unique_together : content_type -> list string)
    (constraint_name : content_type -> string)
    (validated_data : gmap string val) (s : string) (w : World) :
  validated_data !! "snippet" = Some (VStr s) ->
  validated_data !! "packages" = None ->
  ModulemdSerializer.create unique_together constraint_name validated_data w
  = (Raise (KeyError "packages"), w).
Proof.
  intros Hs Hp. unfold ModulemdSerializer.create. monad_step.
  rewrite Hs. monad_step. cbv beta iota. simpl snippet_digest. cbv beta iota.
  rewrite lookup_insert_ne by discriminate. now rewrite Hp.
Qed.

(** The witness of [modulemd_create_needs_packages]: a request with a
    snippet only. *)
Lemma modulemd_create_needs_packages_witness :
  ModulemdSerializer.create StoreFixtures.unique_together StoreFixtures.constraint_name
    (<["snippet" := VStr "foobar"]> ∅) StoreFixtures.empty_world
  = (Raise (KeyError "packages"), StoreFixtures.empty_world).
Proof.
  apply (modulemd_create_needs_packages StoreFixtures.unique_together
           StoreFixtures.constraint_name (<["snippet" := VStr "foobar"]> ∅) "foobar").
  - vm_compute; reflexivity.
  - vm_compute; reflexivity.
Defined.

(** ** The sync trigger, case by case *)

Section sync_cases.

Import RpmRepositoryViewSet.

Lemma eq_str_true (v : val) (s : string) : eq_str v s = true -> v = VStr s.
Proof.
  destruct v; simpl; try discriminate. now intros ->%String.eqb_eq.
Qed.

(** Past its checks, [sync] dispatches [sync_task] or fails on the remote. *)
Lemma sync_past_checks (repository : RpmRepository.t) (validated_data : gmap string val)
    (w : World) :
  let policy := effective_sync_policy (dict_get validated_data "sync_policy")
                                      (dict_get validated_data "mirror") in
  ((eq_str policy SYNC_POLICIES.MIRROR_COMPLETE
    || eq_str policy SYNC_POLICIES.MIRROR_CONTENT_ONLY)
   && (0 <? RpmRepository.retain_package_versions repository)) = false ->
  (eq_str policy SYNC_POLICIES.MIRROR_COMPLETE
   && (RpmRepository.autopublish repository
       || truthy (dict_get validated_data "skip_types"))) = false ->
  sync repository validated_data w
  = match dict_get_default validated_data "remote"
            (from_option VRemote VNone (RpmRepository.remote repository)) with
    | VRemote remote =>
        let t := sync_task repository validated_data remote in
        (Ok (OperationPostponedResponse t),
         mkWorld (repository_versions w) (rpm_repositories w) (contents w) (tasks w ++ [t]))
    | _ => (Raise (AttributeError "pk"), w)
    end.
Proof.
  intros policy H1 H2. unfold sync. fold policy.
  set (remote := dict_get_default _ _ _).
  monad_step. unfold remote_of, dispatch, sync_task. fold policy.
  destruct (eq_str policy SYNC_POLICIES.MIRROR_COMPLETE);
    destruct (eq_str policy SYNC_POLICIES.MIRROR_CONTENT_ONLY);
    destruct (0 <? RpmRepository.retain_package_versions repository);
    destruct (RpmRepository.autopublish repository);
    destruct (truthy (dict_get validated_data "skip_types"));
    try discriminate; simpl; destruct remote; reflexivity.
Qed.

End sync_cases.

(** X5: [sync] raises a validation error in three cases and no other, and
    the checks are made in a fixed order: the error names
    [retain_package_versions] when the policy is a mirror policy and the
    repository retains package versions; otherwise, under [mirror_complete],
    [autopublish] when the repository publishes automatically; otherwise
    [skip_types] when the request skips types. *)
Theorem sync_validation_error_cases
    (repository : RpmRepository.t) (validated_data : gmap string val)
    (w w' : World) (detail : string) :
  RpmRepositoryViewSet.sync repository validated_data w
    = (Raise (DRFValidationError detail), w') ->
  let policy :=
    RpmRepositoryViewSet.effective_sync_policy
      (dict_get validated_data "sync_policy") (dict_get validated_data "mirror") in
  (mirror_policy policy
   /\ 0 < RpmRepository.retain_package_versions repository
   /\ detail = RpmRepositoryViewSet.err_mirror "retain_package_versions")
  \/ (policy = VStr SYNC_POLICIES.MIRROR_COMPLETE
      /\ RpmRepository.retain_package_versions repository <= 0
      /\ RpmRepository.autopublish repository = true
      /\ detail = RpmRepositoryViewSet.err_mirror_complete "autopublish")
  \/ (policy = VStr SYNC_POLICIES.MIRROR_COMPLETE
      /\ RpmRepository.retain_package_versions repository <= 0
      /\ RpmRepository.autopublish repository = false
      /\ truthy (dict_get validated_data "skip_types") = true
      /\ detail = RpmRepositoryViewSet.err_mirror_complete "skip_types").
Proof.
  intros H policy. revert H.
  unfold RpmRepositoryViewSet.sync. fold policy.
  set (remote := dict_get_default _ _ _).
  monad_step. unfold RpmRepositoryViewSet.remote_of, dispatch.
  destruct (eq_str policy SYNC_POLICIES.MIRROR_COMPLETE) eqn:Ec;
    destruct (eq_str policy SYNC_POLICIES.MIRROR_CONTENT_ONLY) eqn:Eo;
    destruct (0 <? RpmRepository.retain_package_versions repository) eqn:Er;
    destruct (RpmRepository.autopublish repository) eqn:Ea;
    destruct (truthy (dict_get validated_data "skip_types")) eqn:Es;
    simpl; try (destruct remote; discriminate).
  all: try apply eq_str_true in Ec; try apply eq_str_true in Eo.
  all: try apply Z.ltb_lt in Er; try apply Z.ltb_ge in Er.
  all: intros H; injection H as <- _.
  all: first
    [ left; split; [first [now left | now right] | now split]
    | right; left; now repeat split
    | right; right; now repeat split ].
Qed.

(** The witness of [sync_validation_error_cases]: a mirror sync that skips
    types, of a repository that neither retains package versions nor
    publishes automatically. *)
Lemma sync_validation_error_cases_witness :
  let repository :=
    RpmRepository.mk (Repository.mk "r1" "repo") (Some (RpmRemote.mk "m1" "remote"))
      0 false None VNone VNone VNone in
  let request : gmap string val :=
    <["mirror" := VBool true]> (<["skip_types" := VList [VStr "srpm"]]> ∅) in
  RpmRepositoryViewSet.sync repository request (mkWorld [] ∅ [] [])
    = (Raise (DRFValidationError
                "Cannot use 'skip_types' in combination with a 'mirror_complete' sync policy."),
       mkWorld [] ∅ [] [])
  /\ ((mirror_policy (VStr SYNC_POLICIES.MIRROR_COMPLETE) /\ 0 < 0
       /\ "Cannot use 'skip_types' in combination with a 'mirror_complete' sync policy."
          = RpmRepositoryViewSet.err_mirror "retain_package_versions")
      \/ (VStr SYNC_POLICIES.MIRROR_COMPLETE = VStr SYNC_POLICIES.MIRROR_COMPLETE
          /\ 0 <= 0 /\ false = true
          /\ "Cannot use 'skip_types' in combination with a 'mirror_complete' sync policy."
             = RpmRepositoryViewSet.err_mirror_complete "autopublish")
      \/ (VStr SYNC_POLICIES.MIRROR_COMPLETE = VStr SYNC_POLICIES.MIRROR_COMPLETE
          /\ 0 <= 0 /\ false = false /\ true = true
          /\ "Cannot use 'skip_types' in combination with a 'mirror_complete' sync policy."
             = RpmRepositoryViewSet.err_mirror_complete "skip_types")).
Proof.
  intros repository request.
  assert (H : RpmRepositoryViewSet.sync repository request (mkWorld [] ∅ [] [])
              = (Raise (DRFValidationError
                   "Cannot use 'skip_types' in combination with a 'mirror_complete' sync policy."),
                 mkWorld [] ∅ [] []))
    by (vm_compute; reflexivity).
  split; [exact H|].
  exact (sync_validation_error_cases repository request _ _ _ H).
Defined.

(** X6: [sync] accepts every request that is in none of the three cases of
    conflict: a policy that is not a mirror policy (additive) whatever the
    repository retains, publishes or the request skips; [mirror_content_only]
    with automatic publication and skipped types, as long as the repository
    retains no package versions; [mirror_complete] without any of the three.
    With a remote in the request or on the repository it then dispatches one
    task, which reserves that remote and the repository and receives the
    effective policy, both keys, and [skip_types] and [optimize] as the
    request has them ([None] when absent). *)
Theorem sync_accepts_without_conflict
    (repository : RpmRepository.t) (validated_data : gmap string val)
    (remote : RpmRemote.t) (w : World) :
  dict_get_default validated_data "remote"
    (from_option VRemote VNone (RpmRepository.remote repository)) = VRemote remote ->
  let policy :=
    RpmRepositoryViewSet.effective_sync_policy
      (dict_get validated_data "sync_policy") (dict_get validated_data "mirror") in
  ~ mirror_policy policy
  \/ (policy = VStr SYNC_POLICIES.MIRROR_CONTENT_ONLY
      /\ RpmRepository.retain_package_versions repository <= 0)
  \/ (policy = VStr SYNC_POLICIES.MIRROR_COMPLETE
      /\ RpmRepository.retain_package_versions repository <= 0
      /\ RpmRepository.autopublish repository = false
      /\ truthy (dict_get validated_data "skip_types") = false) ->
  let t := sync_task repository validated_data remote in
  RpmRepositoryViewSet.sync repository validated_data w
  = (Ok (OperationPostponedResponse t),
     mkWorld (repository_versions w) (rpm_repositories w) (contents w) (tasks w ++ [t])).
Proof.
  intros Hr policy H t.
  rewrite sync_past_checks; fold policy.
  - now rewrite Hr.
  - destruct H as [H | [[-> H] | [-> [H _]]]].
    + destruct (eq_str policy SYNC_POLICIES.MIRROR_COMPLETE) eqn:Ec.
      { exfalso. apply H. left. now apply eq_str_true. }
      destruct (eq_str policy SYNC_POLICIES.MIRROR_CONTENT_ONLY) eqn:Eo.
      { exfalso. apply H. right. now apply eq_str_true. }
      reflexivity.
    + simpl. now apply Z.ltb_ge.
    + simpl. now apply Z.ltb_ge.
  - destruct H as [H | [[-> H] | [-> (_ & -> & ->)]]].
    + destruct (eq_str policy SYNC_POLICIES.MIRROR_COMPLETE) eqn:Ec; [|reflexivity].
      exfalso. apply H. left. now apply eq_str_true.
    + reflexivity.
    + reflexivity.
Qed.

(** The witness of [sync_accepts_without_conflict]: a [mirror_content_only]
    sync that skips types, of a repository that publishes automatically,
    from the remote of the repository. *)
Lemma sync_accepts_without_conflict_witness :
  let remote := RpmRemote.mk "m1" "remote" in
  let repository :=
    RpmRepository.mk (Repository.mk "r1" "repo") (Some remote)
      0 true None VNone VNone VNone in
  let request : gmap string val :=
    <["sync_policy" := VStr SYNC_POLICIES.MIRROR_CONTENT_ONLY]>
    (<["skip_types" := VList [VStr "srpm"]]> ∅) in
  let t := sync_task repository request remote in
  RpmRepositoryViewSet.sync repository request (mkWorld [] ∅ [] [])
  = (Ok (OperationPostponedResponse t), mkWorld [] ∅ [] [t]).
Proof.
  intros remote repository request t.
  apply (sync_accepts_without_conflict repository request remote (mkWorld [] ∅ [] [])).
  - vm_compute; reflexivity.
  - right. left. split; [vm_compute; reflexivity | simpl; lia].
Defined.

(** ** The publish trigger *)

(** X7: the publish trigger dispatches exactly one task when it succeeds
    and leaves the state untouched when it fails; the task reserves nothing
    exclusively and takes no positional argument. *)
Theorem publish_dispatches_once (validated_data : gmap string val) (w : World) :
  match RpmPublicationViewSet.create validated_data w with
  | (Ok (OperationPostponedResponse t), w') =>
      Task.func t = publish
      /\ Task.exclusive_resources t = []
      /\ Task.args t = []
      /\ w' = mkWorld (repository_versions w) (rpm_repositories w) (contents w)
                      (tasks w ++ [t])
  | (Raise _, w') => w' = w
  end.
Proof.
  unfold RpmPublicationViewSet.create.
  destruct (dict_get validated_data "repository_version"); simpl; try reflexivity.
  monad_step. unfold RpmPublicationViewSet.objects_get, dispatch.
  destruct (rpm_repositories w !! _); [|reflexivity].
  now repeat split.
Qed.

(** X8: the keyword arguments of the publish task. [checkpoint] is passed
    only when the request's flag is truthy, and then as [True]: a false or
    absent flag leaves the key out. [metadata_signing_service] is the key of
    the repository's signing service, or [None] when it has none. No other
    key than the six is passed, whatever else the request holds. *)
Theorem publish_task_kwargs
    (validated_data : gmap string val) (w w' : World) (t : Task.t) :
  RpmPublicationViewSet.create validated_data w
    = (Ok (OperationPostponedResponse t), w') ->
  exists repository_version repository,
    dict_get validated_data "repository_version" = VVersion repository_version
    /\ rpm_repositories w
         !! Repository.pk (RepositoryVersion.repository repository_version)
       = Some repository
    /\ Task.kwargs t !! "checkpoint"
       = (if truthy (dict_get validated_data "checkpoint")
          then Some (VBool true) else None)
    /\ Task.kwargs t !! "metadata_signing_service"
       = Some (from_option (fun s => VUuid (RpmSigningService.pk s)) VNone
                 (RpmRepository.metadata_signing_service repository))
    /\ Task.kwargs t !! "repository_version_pk"
       = Some (VUuid (RepositoryVersion.pk repository_version))
    /\ (forall k, is_Some (Task.kwargs t !! k) -> k ∈ publish_keys).
Proof.
  unfold RpmPublicationViewSet.create.
  destruct (dict_get validated_data "repository_version") as [| | | | | | | |rv];
    simpl; try discriminate.
  monad_step. unfold RpmPublicationViewSet.objects_get, dispatch.
  destruct (rpm_repositories w !! _) as [repository|] eqn:Hr; [|discriminate].
  intros H; injection H as <- <-; simpl. exists rv, repository.
  split; [reflexivity|]. split; [exact Hr|].
  assert (Hkeys : forall (m : gmap string val) k,
            (is_Some (m !! k) -> k ∈ publish_keys) ->
            forall k' v, k' ∈ publish_keys ->
            is_Some (<[k' := v]> m !! k) -> k ∈ publish_keys).
  { intros m k Hm k' v Hk' Hs. destruct (decide (k' = k)) as [<- | Hne]; [assumption|].
    rewrite lookup_insert_ne in Hs by assumption. now apply Hm. }
  destruct (RpmRepository.metadata_signing_service repository);
    destruct (truthy (dict_get validated_data "checkpoint"));
    cbn [from_option]; repeat split; try (now simplify_map_eq).
  all: intros k; repeat (apply Hkeys; [|unfold publish_keys; in_list]).
  all: intros [x Hx]; now rewrite lookup_empty in Hx.
Qed.

(** The witness of [publish_task_kwargs]: a request whose checkpoint flag
    is [False], for a repository without signing service: the task gets no
    [checkpoint] key. *)
Lemma publish_task_kwargs_witness :
  let repo := Repository.mk "r1" "repo" in
  let version := RepositoryVersion.mk "v1" repo 1 in
  let rpm := RpmRepository.mk repo None 0 false None (VStr "sha256") VNone (VStr "zstd") in
  let w := mkWorld [version] (<["r1" := rpm]> ∅) [] [] in
  let request : gmap string val :=
    <["repository_version" := VVersion version]> (<["checkpoint" := VBool false]> ∅) in
  let t :=
    Task.mk publish [MRepository repo] [] []
      (<["repository_version_pk" := VUuid "v1"]>
       (<["metadata_signing_service" := VNone]>
        (<["checksum_type" := VStr "sha256"]>
         (<["repo_config" := VNone]>
          (<["compression_type" := VStr "zstd"]> ∅))))) in
  Task.kwargs t !! "checkpoint" = None.
Proof.
  intros repo version rpm w request t.
  assert (H : RpmPublicationViewSet.create request w
              = (Ok (OperationPostponedResponse t),
                 mkWorld [version] (<["r1" := rpm]> ∅) [] [t]))
    by (vm_compute; reflexivity).
  destruct (publish_task_kwargs request w _ t H) as (rv & repository & _ & _ & Hc & _).
  rewrite Hc. vm_compute; reflexivity.
Defined.

(** X9: the publish trigger looks the repository of the version up among
    the RPM repositories. For a version of a repository that is none of
    them it raises [DoesNotExist]; for a request without version it raises
    [AttributeError]. Either way no task is dispatched. *)
Theorem publish_needs_rpm_repository (validated_data : gmap string val) (w : World) :
  (validated_data !! "repository_version" = None ->
   RpmPublicationViewSet.create validated_data w
   = (Raise (AttributeError "repository"), w))
  /\ (forall repository_version,
        validated_data !! "repository_version" = Some (VVersion repository_version) ->
        rpm_repositories w
          !! Repository.pk (RepositoryVersion.repository repository_version) = None ->
        RpmPublicationViewSet.create validated_data w = (Raise DoesNotExist, w)).
Proof.
  split.
  - intros H. unfold RpmPublicationViewSet.create, dict_get. now rewrite H.
  - intros rv H Hr. unfold RpmPublicationViewSet.create, dict_get. rewrite H. simpl.
    monad_step. unfold RpmPublicationViewSet.objects_get. now rewrite Hr.
Qed.

(** The witness of [publish_needs_rpm_repository]: the version of a
    repository that is not among the RPM repositories. *)
Lemma publish_needs_rpm_repository_witness :
  let version := RepositoryVersion.mk "v1" (Repository.mk "f1" "files") 1 in
  RpmPublicationViewSet.create (<["repository_version" := VVersion version]> ∅)
    (mkWorld [version] ∅ [] [])
  = (Raise DoesNotExist, mkWorld [version] ∅ [] []).
Proof.
  intros version.
  apply (proj2 (publish_needs_rpm_repository
                  (<["repository_version" := VVersion version]> ∅)
                  (mkWorld [version] ∅ [] [])) version).
  - vm_compute; reflexivity.
  - vm_compute; reflexivity.
Defined.

(** ** The copy plan *)

Section copy_plan.

Import CopyViewSet.

Variable get_resource : val -> forall c : model_class, result (instance_of c).
Variable extract_pk : val -> result string.

Lemma content_pks_inv (cs : list val) :
  forall (acc l : list val) (w w' : World),
  content_pks extract_pk cs acc w = (Ok l, w') ->
  exists pks,
    Forall2 (fun c pk => extract_pk c = Ok pk) cs pks
    /\ l = acc ++ (VUuid <$> pks).
Proof.
  induction cs as [|c cs IH]; intros acc l w w'; simpl.
  - monad_step. intros H; injection H as <- _. exists []. split; [constructor|].
    simpl. now rewrite app_nil_r.
  - intros H. apply bind_inv in H as (pk & w1 & H1 & H).
    apply IH in H as (pks & HF & ->).
    revert H1. monad_step. intros H1; injection H1 as H1 _.
    exists (pk :: pks). split; [now constructor|].
    simpl. now rewrite <- app_assoc.
Qed.

(** What the [content] block made of [r]. *)
Lemma content_inv (entry r r' : gmap string val) (w w' : World) :
  content extract_pk entry r w = (Ok r', w') ->
  match dict_get entry "content" with
  | VNone => r' = r
  | VList cs =>
      exists pks,
        Forall2 (fun c pk => extract_pk c = Ok pk) cs pks
        /\ r' = <["content" := VList (VUuid <$> pks)]> r
  | _ => False
  end.
Proof.
  unfold content. destruct (dict_get entry "content") as [| | | | |cs| | |];
    try discriminate.
  - monad_step. now intros H; injection H as <- _.
  - intros H. apply bind_inv in H as (l & w1 & H1 & H).
    apply content_pks_inv in H1 as (pks & HF & ->).
    revert H. monad_step. intros H; injection H as <- _. now exists pks.
Qed.

(** What the [dest_base_version] block made of [r]. *)
Lemma dest_base_version_inv (entry r r' : gmap string val) (dest_repo : RpmRepository.t)
    (w w' : World) :
  dest_base_version entry r dest_repo w = (Ok r', w') ->
  match entry !! "dest_base_version" with
  | None => r' = r
  | Some number =>
      exists n v,
        number = VInt n
        /\ v ∈ repository_versions w
        /\ Repository.pk (RepositoryVersion.repository v) = RpmRepository.pk dest_repo
        /\ RepositoryVersion.number v = n
        /\ r' = <["dest_base_version" := VUuid (RepositoryVersion.pk v)]> r
  end.
Proof.
  unfold dest_base_version.
  destruct (decide _) as [[number Hn] | Hn].
  - rewrite Hn. monad_step. rewrite Hn.
    destruct number as [| |n| | | | | |]; try discriminate.
    unfold try_except_DoesNotExist, versions_get. monad_step.
    destruct (find _ _) as [v|] eqn:Hf; [|discriminate].
    intros H; injection H as <- _.
    apply find_some in Hf as [Hin Hb].
    apply andb_true_iff in Hb as [Hpk Hnum].
    exists n, v. repeat split.
    + now apply list_elem_of_In.
    + now apply String.eqb_eq.
    + now apply Z.eqb_eq.
  - destruct (entry !! "dest_base_version") as [x|] eqn:E.
    + exfalso. apply Hn. now exists x.
    + monad_step. now intros H; injection H as <- _.
Qed.

(** One turn of the loop, taken apart. *)
Lemma process_entry_inv (entry : val)
    (out : gmap string val * Repository.t * RpmRepository.t) (w w' : World) :
  process_entry get_resource extract_pk entry w = (Ok out, w') ->
  exists e source_ref source_version dest_ref r1,
    entry = VDict e
    /\ e !! "source_repo_version" = Some source_ref
    /\ get_resource source_ref cRepositoryVersion = Ok source_version
    /\ e !! "dest_repo" = Some dest_ref
    /\ get_resource dest_ref cRpmRepository = Ok out.2
    /\ dest_base_version e
         (<["dest_repo" := VUuid (RpmRepository.pk out.2)]>
          (<["source_repo_version" := VUuid (RepositoryVersion.pk source_version)]> ∅))
         out.2 w = (Ok r1, w)
    /\ content extract_pk e r1 w = (Ok out.1.1, w)
    /\ out.1.2 = RepositoryVersion.repository source_version.
Proof.
  unfold process_entry. destruct entry as [| | | | | |e| |]; try discriminate.
  intros H.
  apply bind_inv in H as (source_ref & w1 & H1 & H).
  apply bind_inv in H as (source_version & w2 & H2 & H).
  apply bind_inv in H as (dest_ref & w3 & H3 & H).
  apply bind_inv in H as (dest_repo & w4 & H4 & H).
  apply bind_inv in H as (r1 & w5 & H5 & H).
  apply bind_inv in H as (r2 & w6 & H6 & H).
  revert H. monad_step. intros H; injection H as <- _.
  revert H1 H2 H3 H4. monad_step.
  destruct (e !! "source_repo_version") as [sref|] eqn:Es; [|discriminate].
  intros H1; injection H1 as -> <-.
  intros H2; injection H2 as H2 <-.
  destruct (e !! "dest_repo") as [dref|] eqn:Ed; [|discriminate].
  intros H3; injection H3 as -> <-.
  intros H4; injection H4 as H4 <-.
  pose proof (read_only_dest_base_version e
                (<["dest_repo" := VUuid (RpmRepository.pk dest_repo)]>
                 (<["source_repo_version" := VUuid (RepositoryVersion.pk source_version)]> ∅))
                dest_repo w) as Hw5.
  rewrite H5 in Hw5. simpl in Hw5. subst w5.
  pose proof (read_only_content extract_pk e r1 w) as Hw6.
  rewrite H6 in Hw6. simpl in Hw6. subst w6.
  exists e, source_ref, source_version, dest_ref, r1. simpl.
  repeat split; assumption.
Qed.

(** The loop, entry by entry: on success every entry was processed without
    error against the state the request found, and the plan holds the
    dictionaries in the order of the entries. *)
Lemma process_entries_inv (config : list val) :
  forall (result shared exclusive : _) (plan : list val) (shared' exclusive' : list Model)
         (w w' : World),
  process_entries get_resource extract_pk config result shared exclusive w
    = (Ok (plan, shared', exclusive'), w') ->
  exists rs,
    plan = result ++ rs
    /\ Forall2 (fun entry r =>
                  exists out,
                    process_entry get_resource extract_pk entry w = (Ok out, w)
                    /\ r = VDict out.1.1) config rs.
Proof.
  induction config as [|e config IH];
    intros result shared exclusive plan shared' exclusive' w w'; simpl.
  - monad_step. intros H; injection H as <- _ _ _. exists [].
    split; [now rewrite app_nil_r | constructor].
  - intros H. apply bind_inv in H as ([[r s] d] & w1 & H1 & H).
    pose proof (read_only_process_entry get_resource extract_pk e w) as Hw.
    rewrite H1 in Hw. simpl in Hw. subst w1.
    apply IH in H as (rs & -> & HF).
    exists (VDict r :: rs). split; [now rewrite <- app_assoc|].
    constructor; [|assumption]. now exists (r, s, d).
Qed.

Lemma process_config_inv (config plan : list val) (shared exclusive : list Model)
    (w w' : World) :
  _process_config get_resource extract_pk (VList config) w
    = (Ok (plan, shared, exclusive), w') ->
  Forall2 (fun entry r =>
             exists out,
               process_entry get_resource extract_pk entry w = (Ok out, w)
               /\ r = VDict out.1.1) config plan.
Proof.
  unfold _process_config. intros H.
  apply process_entries_inv in H as (rs & -> & HF). exact HF.
Qed.

End copy_plan.

(** X10: the keys of the copy plan. The dictionary [_process_config] makes
    of an entry always has [source_repo_version] and [dest_repo]; it has
    [dest_base_version] exactly when the entry has that key, and [content]
    exactly when the entry's content is not [None]; it has no other key,
    whatever else the entry holds. *)
Theorem copy_plan_keys
    (get_resource : val -> forall c : model_class, result (instance_of c))
    (extract_pk : val -> result string)
    (config plan : list val) (shared exclusive : list Model) (w w' : World) :
  CopyViewSet._process_config get_resource extract_pk (VList config) w
    = (Ok (plan, shared, exclusive), w') ->
  Forall2 (fun entry r =>
             exists e d,
               entry = VDict e /\ r = VDict d
               /\ is_Some (d !! "source_repo_version")
               /\ is_Some (d !! "dest_repo")
               /\ (is_Some (d !! "dest_base_version")
                   <-> is_Some (e !! "dest_base_version"))
               /\ (is_Some (d !! "content") <-> dict_get e "content" <> VNone)
               /\ (forall k, is_Some (d !! k) -> k ∈ plan_keys)) config plan.
Proof.
  intros H. apply process_config_inv in H.
  eapply Forall2_impl; [exact H|]. clear H.
  intros entry r (out & H & ->).
  apply process_entry_inv in H as (e & sref & sv & dref & r1 & -> & _ & _ & _ & _ & Hb & Hc & _).
  exists e, out.1.1. split; [reflexivity|]. split; [reflexivity|].
  apply dest_base_version_inv in Hb. apply content_inv in Hc.
  set (r0 := <["dest_repo" := VUuid (RpmRepository.pk out.2)]>
             (<["source_repo_version" := VUuid (RepositoryVersion.pk sv)]> ∅)) in *.
  assert (H0 : forall k, is_Some (r0 !! k) -> k = "dest_repo" \/ k = "source_repo_version").
  { intros k [x Hx]. subst r0.
    destruct (decide (k = "dest_repo")) as [-> | ?]; [now left|].
    rewrite lookup_insert_ne in Hx by congruence.
    destruct (decide (k = "source_repo_version")) as [-> | ?]; [now right|].
    rewrite lookup_insert_ne in Hx by congruence. now rewrite lookup_empty in Hx. }
  assert (H1 : is_Some (r1 !! "source_repo_version") /\ is_Some (r1 !! "dest_repo")
               /\ r1 !! "content" = None
               /\ (is_Some (r1 !! "dest_base_version")
                   <-> is_Some (e !! "dest_base_version"))
               /\ (forall k, is_Some (r1 !! k) ->
                             k = "dest_repo" \/ k = "source_repo_version"
                             \/ k = "dest_base_version")).
  { destruct (e !! "dest_base_version") as [number|].
    - destruct Hb as (n & v & _ & _ & _ & _ & ->).
      repeat split; try (subst r0; now simplify_map_eq).
      intros k [x Hx].
      destruct (decide (k = "dest_base_version")) as [-> | ?]; [now right; right|].
      rewrite lookup_insert_ne in Hx by congruence.
      destruct (H0 k (ex_intro _ x Hx)); auto.
    - subst r1. repeat split; try (subst r0; now simplify_map_eq).
      intros k Hk. destruct (H0 k Hk); auto. }
  destruct H1 as (Hs & Hd & Hnc & Hbv & Hk).
  destruct (dict_get e "content") as [| | | | |cs| | |] eqn:Ec; try contradiction.
  - rewrite Hc, Hnc. split; [exact Hs|]. split; [exact Hd|]. split; [exact Hbv|]. split.
    + split; [intros [x Hx]; discriminate | intros Hne; now contradiction Hne].
    + intros k Hk'. unfold plan_keys.
      destruct (Hk k Hk') as [-> | [-> | ->]]; in_list.
  - destruct Hc as (pks & _ & Hc). rewrite Hc.
    rewrite !lookup_insert_ne by discriminate. rewrite lookup_insert_eq.
    split; [exact Hs|]. split; [exact Hd|]. split; [exact Hbv|]. split.
    + split; [intros _; discriminate | intros _; now eexists].
    + intros k [x Hx]. unfold plan_keys.
      destruct (decide (k = "content")) as [-> | ?]; [in_list|].
      rewrite lookup_insert_ne in Hx by congruence.
      destruct (Hk k (ex_intro _ x Hx)) as [-> | [-> | ->]]; in_list.
Qed.

(** The witness of [copy_plan_keys]: two entries, one with a base version
    and an empty content list, one with content only. *)
Lemma copy_plan_keys_witness :
  Forall2 (fun entry r =>
             exists e d,
               entry = VDict e /\ r = VDict d
               /\ is_Some (d !! "source_repo_version")
               /\ is_Some (d !! "dest_repo")
               /\ (is_Some (d !! "dest_base_version")
                   <-> is_Some (e !! "dest_base_version"))
               /\ (is_Some (d !! "content") <-> dict_get e "content" <> VNone)
               /\ (forall k, is_Some (d !! k) -> k ∈ plan_keys))
    [CopyFixtures.entry_ab; CopyFixtures.entry_ba]
    [CopyFixtures.planned_ab; CopyFixtures.planned_ba].
Proof.
  apply (copy_plan_keys Fixtures.get_resource Fixtures.extract_pk
           [CopyFixtures.entry_ab; CopyFixtures.entry_ba]
           [CopyFixtures.planned_ab; CopyFixtures.planned_ba]
           CopyFixtures.shared CopyFixtures.exclusive Fixtures.world Fixtures.world).
  vm_compute; reflexivity.
Defined.

(** X11: the content of a copy plan. For an entry whose [content] is a
    list, the plan holds under [content] the keys [extract_pk] gave for its
    references, as many and in the same order. An empty list stays an empty
    list: it is not dropped as an absent or [None] content is. The plan
    has one dictionary for each entry, in the order of the entries. *)
Theorem copy_content_in_order
    (get_resource : val -> forall c : model_class, result (instance_of c))
    (extract_pk : val -> result string)
    (config plan : list val) (shared exclusive : list Model) (w w' : World) :
  CopyViewSet._process_config get_resource extract_pk (VList config) w
    = (Ok (plan, shared, exclusive), w') ->
  length plan = length config
  /\ Forall2 (fun entry r =>
                forall e cs,
                  entry = VDict e -> e !! "content" = Some (VList cs) ->
                  exists d pks,
                    r = VDict d
                    /\ d !! "content" = Some (VList (VUuid <$> pks))
                    /\ Forall2 (fun c pk => extract_pk c = Ok pk) cs pks) config plan.
Proof.
  intros H. apply process_config_inv in H.
  split; [symmetry; eapply Forall2_length; exact H|].
  eapply Forall2_impl; [exact H|]. clear H.
  intros entry r (out & H & ->) e cs -> Hcs.
  apply process_entry_inv in H
    as (e' & sref & sv & dref & r1 & [= <-] & _ & _ & _ & _ & _ & Hc & _).
  apply content_inv in Hc. unfold dict_get in Hc. rewrite Hcs in Hc. simpl in Hc.
  destruct Hc as (pks & HF & Hc).
  exists out.1.1, pks. split; [reflexivity|]. split; [|exact HF].
  rewrite Hc. apply lookup_insert_eq.
Qed.

(** The witness of [copy_content_in_order]: the plan of the two entries has
    two dictionaries. *)
Lemma copy_content_in_order_witness :
  length [CopyFixtures.planned_ab; CopyFixtures.planned_ba]
  = length [CopyFixtures.entry_ab; CopyFixtures.entry_ba].
Proof.
  refine (proj1 (copy_content_in_order Fixtures.get_resource Fixtures.extract_pk
            [CopyFixtures.entry_ab; CopyFixtures.entry_ba]
            [CopyFixtures.planned_ab; CopyFixtures.planned_ba]
            CopyFixtures.shared CopyFixtures.exclusive Fixtures.world Fixtures.world _)).
  vm_compute; reflexivity.
Defined.

(** X12: the base version of a copy plan. For an entry that names a
    [dest_base_version], the plan holds under that key the key of a version
    of the destination repository (the one [dest_repo] resolves to, not the
    source) that has the number asked for. *)
Theorem copy_base_version_resolved
    (get_resource : val -> forall c : model_class, result (instance_of c))
    (extract_pk : val -> result string)
    (config plan : list val) (shared exclusive : list Model) (w w' : World) :
  CopyViewSet._process_config get_resource extract_pk (VList config) w
    = (Ok (plan, shared, exclusive), w') ->
  Forall2 (fun entry r =>
             forall e number,
               entry = VDict e -> e !! "dest_base_version" = Some number ->
               exists d dest_ref dest_repo v,
                 r = VDict d
                 /\ e !! "dest_repo" = Some dest_ref
                 /\ get_resource dest_ref cRpmRepository = Ok dest_repo
                 /\ v ∈ repository_versions w
                 /\ Repository.pk (RepositoryVersion.repository v)
                    = RpmRepository.pk dest_repo
                 /\ number = VInt (RepositoryVersion.number v)
                 /\ d !! "dest_base_version" = Some (VUuid (RepositoryVersion.pk v)))
          config plan.
Proof.
  intros H. apply process_config_inv in H.
  eapply Forall2_impl; [exact H|]. clear H.
  intros entry r (out & H & ->) e number -> Hn.
  apply process_entry_inv in H
    as (e' & sref & sv & dref & r1 & [= <-] & _ & _ & Hd & Hg & Hb & Hc & _).
  apply dest_base_version_inv in Hb. rewrite Hn in Hb.
  destruct Hb as (n & v & -> & Hin & Hpk & Hnum & ->).
  exists out.1.1, dref, out.2, v.
  repeat split; try assumption.
  - now rewrite Hnum.
  - rewrite (content_keeps extract_pk _ _ _ _ _ _ Hc) by discriminate.
    apply lookup_insert_eq.
Qed.

(** The witness of [copy_base_version_resolved]: on top of version 0 of
    beta. *)
Lemma copy_base_version_resolved_witness :
  Forall2 (fun entry r =>
             forall e number,
               entry = VDict e -> e !! "dest_base_version" = Some number ->
               exists d dest_ref dest_repo v,
                 r = VDict d
                 /\ e !! "dest_repo" = Some dest_ref
                 /\ Fixtures.get_resource dest_ref cRpmRepository = Ok dest_repo
                 /\ v ∈ repository_versions Fixtures.world
                 /\ Repository.pk (RepositoryVersion.repository v)
                    = RpmRepository.pk dest_repo
                 /\ number = VInt (RepositoryVersion.number v)
                 /\ d !! "dest_base_version" = Some (VUuid (RepositoryVersion.pk v)))
    [CopyFixtures.entry_ab; CopyFixtures.entry_ba]
    [CopyFixtures.planned_ab; CopyFixtures.planned_ba].
Proof.
  apply (copy_base_version_resolved Fixtures.get_resource Fixtures.extract_pk
           [CopyFixtures.entry_ab; CopyFixtures.entry_ba]
           [CopyFixtures.planned_ab; CopyFixtures.planned_ba]
           CopyFixtures.shared CopyFixtures.exclusive Fixtures.world Fixtures.world).
  vm_compute; reflexivity.
Defined.

(** ** The digest and the stored unit *)

Section hashlib_facts.

Import hashlib.

Lemma round_length (s : list Z) (kw : Z * Z) : length (round s kw) = length s.
Proof.
  unfold round.
  do 9 (destruct s as [|? s]; [reflexivity|]). reflexivity.
Qed.

Lemma fold_round_length (kws : list (Z * Z)) (s : list Z) :
  length (fold_left round kws s) = length s.
Proof.
  revert s. induction kws as [|kw kws IH]; intros s; [reflexivity|].
  cbn [fold_left]. now rewrite IH, round_length.
Qed.

Lemma compress_length (h block : list Z) : length (compress h block) = length h.
Proof.
  unfold compress. rewrite length_zip_with, fold_round_length. apply Nat.min_id.
Qed.

Lemma blocks_length (n : nat) (h bytes : list Z) : length (blocks n h bytes) = length h.
Proof.
  revert h bytes. induction n as [|n IH]; intros h bytes; [reflexivity|].
  cbn [blocks]. now rewrite IH, compress_length.
Qed.

(** A SHA-256 hash value is eight words. *)
Lemma sha256_length (msg : list Z) : length (sha256 msg) = 8%nat.
Proof. unfold sha256. now rewrite blocks_length. Qed.

Lemma hex_length (n : nat) (x : Z) : length (hex n x) = n.
Proof.
  revert x. induction n as [|n IH]; intros x; [reflexivity|].
  cbn [hex]. rewrite length_app, IH. cbn [length]. lia.
Qed.

Lemma hex_digit_lower (x : Z) : 0 <= x < 16 -> is_lower_hex (hex_digit x) = true.
Proof.
  intros H.
  assert (E : x = 0 \/ x = 1 \/ x = 2 \/ x = 3 \/ x = 4 \/ x = 5 \/ x = 6 \/ x = 7
              \/ x = 8 \/ x = 9 \/ x = 10 \/ x = 11 \/ x = 12 \/ x = 13 \/ x = 14
              \/ x = 15) by lia.
  repeat (destruct E as [-> | E]; [reflexivity|]). now subst x.
Qed.

Lemma hex_lower (n : nat) (x : Z) : Forall (fun c => is_lower_hex c = true) (hex n x).
Proof.
  revert x. induction n as [|n IH]; intros x; [constructor|].
  cbn [hex]. apply Forall_app. split; [apply IH|].
  constructor; [|constructor]. apply hex_digit_lower.
  change 0xf with (Z.ones 4). rewrite Z.land_ones by lia.
  apply Z.mod_pos_bound. reflexivity.
Qed.

Lemma hexdigest_list (h : list Z) :
  list_ascii_of_string (hexdigest h) = mbind (hex 8) h.
Proof. unfold hexdigest. apply list_ascii_of_string_of_list_ascii. Qed.

Lemma bind_hex_length (h : list Z) : length (mbind (hex 8) h) = (8 * length h)%nat.
Proof.
  induction h as [|x h IH]; [reflexivity|].
  change (mbind (hex 8) (x :: h)) with (hex 8 x ++ mbind (hex 8) h).
  rewrite length_app, IH, hex_length. cbn [length]. lia.
Qed.

Lemma bind_hex_lower (h : list Z) :
  Forall (fun c => is_lower_hex c = true) (mbind (hex 8) h).
Proof.
  induction h as [|x h IH]; [constructor|].
  change (mbind (hex 8) (x :: h)) with (hex 8 x ++ mbind (hex 8) h).
  apply Forall_app. split; [apply hex_lower | exact IH].
Qed.

Lemma string_length_list (s : string) :
  String.length s = length (list_ascii_of_string s).
Proof. induction s as [|c s IH]; [reflexivity|]. cbn. now rewrite IH. Qed.

End hashlib_facts.

(** X14: whatever the snippet, the digest the serializers compute is a
    text of 64 characters, each one of [0-9a-f]: the SHA-256 of the snippet
    in lowercase hexadecimal. *)
Theorem digest_is_64_hex_characters (s : string) :
  exists digest,
    snippet_digest (VStr s) = Ok digest
    /\ String.length digest = 64%nat
    /\ Forall (fun c => is_lower_hex c = true) (list_ascii_of_string digest).
Proof.
  eexists. split; [reflexivity|].
  rewrite string_length_list, hexdigest_list. split.
  - now rewrite bind_hex_length, sha256_length.
  - apply bind_hex_lower.
Qed.

(** X16: a creation with a new digest goes through. When the digest is
    a column of the uniqueness constraint of the content type, as it is for
    a modulemd and for modulemd-defaults, a request whose snippet has a
    digest that no stored unit of the content type has is created, however
    many of its other fields repeat those of stored units: the unit has the
    digest of the snippet and is the one row added. (For a modulemd the
    packages must be a list.) *)
Theorem create_succeeds_with_new_digest
    (unique_together : content_type -> list string)
    (constraint_name : content_type -> string)
    (ct : content_type) (validated_data : gmap string val) (s : string) (w : World) :
  "digest" ∈ unique_together ct ->
  validated_data !! "snippet" = Some (VStr s) ->
  (ct = Modulemd -> exists l, validated_data !! "packages" = Some (VList l)) ->
  (forall u, u ∈ contents w -> Content.model u = ct ->
             Content.fields u !! "digest" <> Some (VStr (sha256_hex s))) ->
  exists u w',
    serializer_create unique_together constraint_name ct validated_data w = (Ok u, w')
    /\ Content.fields u !! "digest" = Some (VStr (sha256_hex s))
    /\ contents w' = contents w ++ [u].
Proof.
  intros Hu Hs Hp Hnew.
  assert (Hp' : ct = Modulemd -> is_Some (validated_data !! "packages")).
  { intros E. destruct (Hp E) as [l Hl]. rewrite Hl. eauto. }
  assert (Hno : existsb (duplicates unique_together ct (request_row ct validated_data s))
                        (contents w) = false).
  { apply not_true_is_false. intros (u & Hin & Hd)%existsb_exists.
    apply list_elem_of_In in Hin.
    unfold duplicates in Hd. apply andb_true_iff in Hd as [Hm Hd].
    assert (Hct : Content.model u = ct)
      by (destruct (Content.model u), ct; (reflexivity || discriminate)).
    apply (Hnew u Hin Hct).
    unfold same_identity in Hd. rewrite forallb_forall in Hd.
    apply list_elem_of_In in Hu. specialize (Hd "digest" Hu).
    rewrite request_row_digest in Hd. cbn [text] in Hd.
    destruct (Content.fields u !! "digest") as [[| | |x| | | | |]|]; try discriminate.
    cbn [text] in Hd. apply String.eqb_eq in Hd. now subst x. }
  destruct (serializer_create unique_together constraint_name ct validated_data w)
    as [[u|e] w'] eqn:Hc.
  - exists u, w'. split; [reflexivity|].
    destruct (serializer_create_ok unique_together constraint_name ct validated_data
                s w w' u Hs Hc) as (_ & Hf & Hw).
    split; [rewrite Hf; apply request_row_digest | exact Hw].
  - exfalso.
    rewrite (serializer_create_row unique_together constraint_name ct validated_data
               s w Hs Hp') in Hc.
    unfold super_create in Hc. rewrite Hno in Hc.
    destruct ct; [|discriminate].
    destruct (Hp eq_refl) as [l Hl]. rewrite Hl in Hc.
    unfold packages_set in Hc. discriminate.
Qed.

(** The witness of [create_succeeds_with_new_digest]: the variation of
    test_create_modulemds. The store holds the unit of the request of the
    test; the request with another snippet and every other field the same
    is created. *)
Lemma create_succeeds_with_new_digest_witness :
  let stored :=
    Content.mk Modulemd (request_row Modulemd ModulemdFixtures.request "foobar")
      (VList [VUuid "package-1"]) in
  exists u w',
    serializer_create ModulemdFixtures.unique_together ModulemdFixtures.constraint_name
      Modulemd ModulemdFixtures.variation (mkWorld [] ∅ [stored] []) = (Ok u, w')
    /\ Content.fields u !! "digest" = Some (VStr (sha256_hex "barfoo"))
    /\ contents w' = [stored; u].
Proof.
  intros stored.
  apply (create_succeeds_with_new_digest ModulemdFixtures.unique_together
           ModulemdFixtures.constraint_name Modulemd ModulemdFixtures.variation
           "barfoo" (mkWorld [] ∅ [stored] [])).
  - unfold ModulemdFixtures.unique_together. in_list.
  - vm_compute; reflexivity.
  - intros _. eexists. vm_compute; reflexivity.
  - intros u Hin _. apply list_elem_of_singleton in Hin. subst u.
    vm_compute. discriminate.
Defined.

(** ** Checkpoint timestamps and their URLs *)

Lemma is_digit_digit (n : nat) : test_checkpoint.is_digit (datetime.digit n) = true.
Proof. unfold test_checkpoint.is_digit. now rewrite digit_value_digit. Qed.

Lemma append_inj_l (p a b : string) : p +:+ a = p +:+ b -> a = b.
Proof.
  induction p as [|c p IH]; [trivial|].
  change (String c (p +:+ a) = String c (p +:+ b) -> a = b).
  intros [= H]. now apply IH.
Qed.

Lemma append_slash_inj (a b : string) : a +:+ "/" = b +:+ "/" -> a = b.
Proof.
  intros H. apply (f_equal CheckpointResolver.but_last) in H.
  now rewrite !but_last_app in H.
Qed.

(** X17: the text [_format_checkpoint_timestamp] gives for a timestamp
    from the year 1000 on (before it the C library may print the year
    without padding) is 16 characters that match [\d{8}T\d{6}Z], the
    pattern by which the tests find the checkpoints in a listing. *)
Theorem formatted_timestamp_matches_pattern (timestamp : datetime.t) :
  datetime.valid timestamp = true ->
  (1000 <= datetime.year timestamp)%nat ->
  test_checkpoint.matches_timestamp
    (test_checkpoint._format_checkpoint_timestamp timestamp) = true
  /\ String.length (test_checkpoint._format_checkpoint_timestamp timestamp) = 16%nat.
Proof.
  intros _ _.
  unfold test_checkpoint.matches_timestamp, test_checkpoint._format_checkpoint_timestamp.
  rewrite string_length_list.
  unfold datetime.strftime. rewrite list_ascii_of_string_of_list_ascii.
  unfold datetime.digits4, datetime.digits2. cbn [app length forallb].
  rewrite !is_digit_digit. split; reflexivity.
Qed.

(** The witness of [formatted_timestamp_matches_pattern]: the creation time
    of the first checkpoint of the setup. *)
Lemma formatted_timestamp_matches_pattern_witness :
  test_checkpoint.matches_timestamp "20250301T092712Z" = true.
Proof.
  refine (proj1 (formatted_timestamp_matches_pattern (CheckpointFixtures.at_second 12) _ _)).
  - vm_compute; reflexivity.
  - vm_compute; lia.
Defined.

(** X18: two timestamps have the same checkpoint URL only when they are
    the same second: publications created at least one second apart, as
    the setup of the tests spaces them, have different checkpoint URLs. *)
Theorem checkpoint_urls_differ
    (distribution_base_url : string -> string) (distribution : Distribution.t)
    (a b : datetime.t) :
  datetime.valid a = true -> datetime.valid b = true ->
  test_checkpoint.checkpoint_url distribution_base_url distribution a
    = test_checkpoint.checkpoint_url distribution_base_url distribution b
  <-> a = b.
Proof.
  intros Ha Hb. split; [|now intros ->].
  unfold test_checkpoint.checkpoint_url, test_checkpoint._format_checkpoint_timestamp.
  intros H. apply append_inj_l, append_slash_inj in H.
  now apply strftime_inj.
Qed.

(** The witness of [checkpoint_urls_differ]: one second apart. *)
Lemma checkpoint_urls_differ_witness :
  test_checkpoint.checkpoint_url (fun path => "http://pulp" +:+ path)
    CheckpointFixtures.distribution (CheckpointFixtures.at_second 12)
  <> test_checkpoint.checkpoint_url (fun path => "http://pulp" +:+ path)
       CheckpointFixtures.distribution (CheckpointFixtures.at_second 13).
Proof.
  intros H.
  apply (checkpoint_urls_differ (fun path => "http://pulp" +:+ path)
           CheckpointFixtures.distribution
           (CheckpointFixtures.at_second 12) (CheckpointFixtures.at_second 13)) in H.
  - discriminate H.
  - vm_compute; reflexivity.
  - vm_compute; reflexivity.
Defined.

(** ** The read path on any checkpoint sequence *)

Section read_path_general.

Import CheckpointResolver.

Variable pubs : list Publication.t.
Variable d : Distribution.t.
Variable now : datetime.t.

Hypothesis checkpoint_enabled : Distribution.checkpoint d = true.

(** A request below the base URL. *)
Lemma get_below_base_url (text : string) :
  get pubs d (Distribution.base_url d +:+ text +:+ "/") now
  = match resolve pubs d text now with
    | NotFound => NotFound404
    | ResolvedCheckpoint p =>
        if String.eqb (datetime.strftime (Publication.created_at p)) text
        then Index (Distribution.base_url d +:+ text +:+ "/") p
        else MovedPermanently (checkpoint_url d p)
    end.
Proof.
  unfold get. rewrite checkpoint_enabled. cbn [negb].
  assert (Hs : ends_with_slash (Distribution.base_url d +:+ text +:+ "/") = true)
    by (rewrite <- append_assoc; apply ends_with_slash_app).
  rewrite Hs, strip_prefix_app.
  destruct (text +:+ "/") as [|c rest] eqn:E; [now destruct text|].
  rewrite <- E, but_last_app. reflexivity.
Qed.

Lemma ends_with_slash_app_r (a b : string) :
  b <> EmptyString -> ends_with_slash (a +:+ b) = ends_with_slash b.
Proof.
  intros Hb. induction a as [|c a IH]; [reflexivity|].
  change (ends_with_slash (String c (a +:+ b)) = ends_with_slash b).
  cbn [ends_with_slash].
  destruct (a +:+ b) eqn:E; [|exact IH].
  destruct a; [contradiction | discriminate].
Qed.

Lemma ends_with_slash_strftime (t : datetime.t) :
  ends_with_slash (datetime.strftime t) = false.
Proof.
  unfold datetime.strftime, datetime.digits4, datetime.digits2.
  cbn [app string_of_list_ascii ends_with_slash]. reflexivity.
Qed.

(** A timestamp asked for without the final slash is read as with it. *)
Lemma get_without_slash (t : datetime.t) :
  get pubs d (Distribution.base_url d +:+ datetime.strftime t) now
  = get pubs d (Distribution.base_url d +:+ datetime.strftime t +:+ "/") now.
Proof.
  unfold get at 1. rewrite checkpoint_enabled. cbn [negb].
  rewrite ends_with_slash_app_r by apply strftime_nonempty.
  rewrite ends_with_slash_strftime, append_assoc.
  unfold get. rewrite checkpoint_enabled. cbn [negb].
  assert (Hs : ends_with_slash
                 (Distribution.base_url d +:+ datetime.strftime t +:+ "/") = true)
    by (rewrite <- append_assoc; apply ends_with_slash_app).
  now rewrite Hs.
Qed.

(** Two entries of the sequence created at the same time are one entry. *)
Lemma strictly_increasing_inj (seq : list Publication.t) (p q : Publication.t) :
  strictly_increasing seq -> p ∈ seq -> q ∈ seq ->
  Publication.created_at p = Publication.created_at q -> p = q.
Proof.
  intros Hinc (i & Hi)%list_elem_of_lookup (j & Hj)%list_elem_of_lookup E.
  destruct (Nat.lt_trichotomy i j) as [Hlt | [-> | Hgt]].
  - pose proof (Hinc i j p q Hlt Hi Hj) as H. rewrite E in H.
    now rewrite datetime_ltb_irrefl in H.
  - congruence.
  - pose proof (Hinc j i q p Hgt Hj Hi) as H. rewrite E in H.
    now rewrite datetime_ltb_irrefl in H.
Qed.

End read_path_general.

(** X19: the read path on any history. In a checkpoint-enabled
    distribution whose checkpoints are ordered by creation time, a valid
    timestamp that is not in the future is answered with the latest
    checkpoint created at or before it: the client that follows at most one
    redirect gets the index of that checkpoint at its canonical URL, with
    the final slash in the request or without it, and the answer to a
    timestamp that is not the checkpoint's own is the redirect. This is what
    test_non_checkpoint_timestamp_is_redirected,
    test_arbitrary_timestamp_is_redirected and
    test_current_timestamp_serves_latest_checkpoint observe on one
    history. *)
Theorem timestamp_serves_latest_checkpoint
    (pubs : list Publication.t) (d : Distribution.t) (now t : datetime.t)
    (p : Publication.t) :
  Distribution.checkpoint d = true ->
  strictly_increasing (CheckpointResolver.checkpoint_sequence pubs d) ->
  datetime.valid t = true ->
  datetime.leb t now = true ->
  p ∈ CheckpointResolver.checkpoint_sequence pubs d ->
  datetime.valid (Publication.created_at p) = true ->
  datetime.leb (Publication.created_at p) t = true ->
  (forall q, q ∈ CheckpointResolver.checkpoint_sequence pubs d ->
             datetime.leb (Publication.created_at q) t = true ->
             datetime.leb (Publication.created_at q) (Publication.created_at p) = true) ->
  let url := Distribution.base_url d +:+ datetime.strftime t in
  CheckpointResolver.resolve pubs d (datetime.strftime t) now
    = CheckpointResolver.ResolvedCheckpoint p
  /\ CheckpointResolver.http_get 1 pubs d (url +:+ "/") now
     = CheckpointResolver.Index (CheckpointResolver.checkpoint_url d p) p
  /\ CheckpointResolver.http_get 1 pubs d url now
     = CheckpointResolver.Index (CheckpointResolver.checkpoint_url d p) p
  /\ (Publication.created_at p <> t ->
      CheckpointResolver.get pubs d (url +:+ "/") now
      = CheckpointResolver.MovedPermanently (CheckpointResolver.checkpoint_url d p)).
Proof.
  intros Hc Hinc Hvt Htnow Hp Hvp Hpt Hmax url.
  assert (Hpnow : datetime.leb (Publication.created_at p) now = true)
    by (now apply (datetime_leb_trans _ t)).
  assert (Hr : CheckpointResolver.resolve pubs d (datetime.strftime t) now
               = CheckpointResolver.ResolvedCheckpoint p).
  { rewrite (resolve_strftime pubs d now t Hvt Htnow).
    pose proof (latest_at_or_before_spec _ t Hinc) as Hspec.
    destruct (CheckpointResolver.latest_at_or_before _ t) as [q|].
    - destruct Hspec as (Hq & Hqt & Hqmax). f_equal.
      apply (strictly_increasing_inj _ q p Hinc Hq Hp).
      apply datetime_leb_antisym; [now apply Hmax | now apply Hqmax].
    - specialize (Hspec p Hp). apply datetime_ltb_false in Hpt. congruence. }
  assert (Hurl : url +:+ "/" = Distribution.base_url d +:+ datetime.strftime t +:+ "/")
    by apply append_assoc.
  assert (Hget : CheckpointResolver.get pubs d (url +:+ "/") now
                 = if String.eqb (datetime.strftime (Publication.created_at p))
                                 (datetime.strftime t)
                   then CheckpointResolver.Index (url +:+ "/") p
                   else CheckpointResolver.MovedPermanently
                          (CheckpointResolver.checkpoint_url d p)).
  { rewrite Hurl, (get_below_base_url pubs d now Hc). now rewrite Hr. }
  assert (Hfollow : CheckpointResolver.http_get 1 pubs d (url +:+ "/") now
                    = CheckpointResolver.Index (CheckpointResolver.checkpoint_url d p) p).
  { cbn [CheckpointResolver.http_get]. rewrite Hget.
    destruct (String.eqb _ _) eqn:E.
    - apply String.eqb_eq in E. rewrite Hurl.
      unfold CheckpointResolver.checkpoint_url. now rewrite E.
    - destruct (get_checkpoint_url pubs d now Hc p Hinc Hp Hvp Hpnow) as [_ ->].
      reflexivity. }
  split; [exact Hr|]. split; [exact Hfollow|]. split.
  - cbn [CheckpointResolver.http_get].
    unfold url. rewrite (get_without_slash pubs d now Hc t). rewrite <- Hurl.
    exact Hfollow.
  - intros Hne. rewrite Hget.
    destruct (String.eqb _ _) eqn:E; [|reflexivity].
    apply String.eqb_eq in E. exfalso. apply Hne.
    now apply strftime_inj.
Qed.

(** The witness of [timestamp_serves_latest_checkpoint]: in the setup of
    test_checkpoint.py, the creation time of the last publication, which is
    no checkpoint, asked for without the final slash. *)
Lemma timestamp_serves_latest_checkpoint_witness :
  CheckpointResolver.http_get 1 CheckpointFixtures.pubs CheckpointFixtures.distribution
    (Distribution.base_url CheckpointFixtures.distribution
     +:+ datetime.strftime (CheckpointFixtures.at_second 18))
    CheckpointFixtures.now
  = CheckpointResolver.Index
      (CheckpointResolver.checkpoint_url CheckpointFixtures.distribution
         CheckpointFixtures.p3)
      CheckpointFixtures.p3.
Proof.
  refine (proj1 (proj2 (proj2 (timestamp_serves_latest_checkpoint
            CheckpointFixtures.pubs CheckpointFixtures.distribution CheckpointFixtures.now
            (CheckpointFixtures.at_second 18) CheckpointFixtures.p3
            _ _ _ _ _ _ _ _)))).
  - reflexivity.
  - replace (CheckpointResolver.checkpoint_sequence CheckpointFixtures.pubs
               CheckpointFixtures.distribution)
      with [CheckpointFixtures.p1; CheckpointFixtures.p3] by (vm_compute; reflexivity).
    apply strictly_increasing_pair. vm_compute; reflexivity.
  - vm_compute; reflexivity.
  - vm_compute; reflexivity.
  - apply list_elem_of_In. vm_compute. tauto.
  - vm_compute; reflexivity.
  - vm_compute; reflexivity.
  - intros q Hq _.
    replace (CheckpointResolver.checkpoint_sequence CheckpointFixtures.pubs
               CheckpointFixtures.distribution)
      with [CheckpointFixtures.p1; CheckpointFixtures.p3] in Hq by (vm_compute; reflexivity).
    apply list_elem_of_In in Hq. simpl in Hq.
    destruct Hq as [<- | [<- | []]]; vm_compute; reflexivity.
Defined.

(** X20: a text that is not a timestamp is not found. Below the base URL
    of a checkpoint-enabled distribution, a text [strptime] does not accept
    (wrong shape, or a date that does not exist, as the month 99 of
    test_invalid_timestamp_returns_404) is answered 404, whatever the
    history and the time of the request; the client that follows redirects
    gets the 404 as well. *)
Theorem unparsable_timestamp_is_not_found
    (pubs : list Publication.t) (d : Distribution.t) (now : datetime.t)
    (text : string) (redirects : nat) :
  Distribution.checkpoint d = true ->
  datetime.strptime text = None ->
  CheckpointResolver.get pubs d (Distribution.base_url d +:+ text +:+ "/") now
    = CheckpointResolver.NotFound404
  /\ CheckpointResolver.http_get redirects pubs d
       (Distribution.base_url d +:+ text +:+ "/") now
     = CheckpointResolver.NotFound404.
Proof.
  intros Hc Hp.
  assert (Hget : CheckpointResolver.get pubs d
                   (Distribution.base_url d +:+ text +:+ "/") now
                 = CheckpointResolver.NotFound404).
  { rewrite (get_below_base_url pubs d now Hc).
    unfold CheckpointResolver.resolve. now rewrite Hp. }
  split; [exact Hget|].
  destruct redirects; cbn [CheckpointResolver.http_get]; now rewrite Hget.
Qed.

(** The witness of [unparsable_timestamp_is_not_found]: the second request
    of test_invalid_timestamp_returns_404. *)
Lemma unparsable_timestamp_is_not_found_witness :
  CheckpointResolver.get CheckpointFixtures.pubs CheckpointFixtures.distribution
    "/checkpoints/20259928T092752Z/" CheckpointFixtures.now
  = CheckpointResolver.NotFound404.
Proof.
  refine (proj1 (unparsable_timestamp_is_not_found
            CheckpointFixtures.pubs CheckpointFixtures.distribution CheckpointFixtures.now
            "20259928T092752Z" 0 _ _)).
  - reflexivity.
  - vm_compute; reflexivity.
Defined.

(** X21: a timestamp out of the range of the history is not found. In a
    checkpoint-enabled distribution whose checkpoints are ordered by
    creation time, a valid timestamp that is after the time of the request,
    or before the creation of every checkpoint (of the first one, or of
    none when the repository has no checkpoint yet), is answered 404. This
    is test_future_timestamp_returns_404 and
    test_before_first_timestamp_returns_404 on any history. *)
Theorem out_of_range_timestamp_is_not_found
    (pubs : list Publication.t) (d : Distribution.t) (now t : datetime.t) :
  Distribution.checkpoint d = true ->
  strictly_increasing (CheckpointResolver.checkpoint_sequence pubs d) ->
  datetime.valid t = true ->
  datetime.ltb now t = true
  \/ (forall p, p ∈ CheckpointResolver.checkpoint_sequence pubs d ->
                datetime.ltb t (Publication.created_at p) = true) ->
  CheckpointResolver.resolve pubs d (datetime.strftime t) now
    = CheckpointResolver.NotFound
  /\ CheckpointResolver.get pubs d
       (Distribution.base_url d +:+ datetime.strftime t +:+ "/") now
     = CheckpointResolver.NotFound404.
Proof.
  intros Hc Hinc Hvt H.
  assert (Hr : CheckpointResolver.resolve pubs d (datetime.strftime t) now
               = CheckpointResolver.NotFound).
  { destruct (datetime.ltb now t) eqn:Hfuture.
    - now apply resolve_future.
    - destruct H as [H | H]; [discriminate|].
      apply datetime_ltb_false in Hfuture.
      rewrite (resolve_strftime pubs d now t Hvt Hfuture).
      pose proof (latest_at_or_before_spec _ t Hinc) as Hspec.
      destruct (CheckpointResolver.latest_at_or_before _ t) as [q|]; [|reflexivity].
      destruct Hspec as (Hq & Hqt & _).
      specialize (H q Hq). apply datetime_leb_false in H. congruence. }
  split; [exact Hr|].
  rewrite (get_below_base_url pubs d now Hc). now rewrite Hr.
Qed.

(** The witness of [out_of_range_timestamp_is_not_found]: in the setup of
    test_checkpoint.py, the creation time of the first publication, which
    is before the first checkpoint. *)
Lemma out_of_range_timestamp_is_not_found_witness :
  CheckpointResolver.get CheckpointFixtures.pubs CheckpointFixtures.distribution
    (Distribution.base_url CheckpointFixtures.distribution
     +:+ datetime.strftime (CheckpointFixtures.at_second 10) +:+ "/")
    CheckpointFixtures.now
  = CheckpointResolver.NotFound404.
Proof.
  refine (proj2 (out_of_range_timestamp_is_not_found
            CheckpointFixtures.pubs CheckpointFixtures.distribution CheckpointFixtures.now
            (CheckpointFixtures.at_second 10) _ _ _ _)).
  - reflexivity.
  - replace (CheckpointResolver.checkpoint_sequence CheckpointFixtures.pubs
               CheckpointFixtures.distribution)
      with [CheckpointFixtures.p1; CheckpointFixtures.p3] by (vm_compute; reflexivity).
    apply strictly_increasing_pair. vm_compute; reflexivity.
  - vm_compute; reflexivity.
  - right. intros q Hq.
    replace (CheckpointResolver.checkpoint_sequence CheckpointFixtures.pubs
               CheckpointFixtures.distribution)
      with [CheckpointFixtures.p1; CheckpointFixtures.p3] in Hq by (vm_compute; reflexivity).
    apply list_elem_of_In in Hq. simpl in Hq.
    destruct Hq as [<- | [<- | []]]; vm_compute; reflexivity.
Defined.

(** ** Access policies and roles *)

(** The conditions are taken apart at the colon. *)
Example split_condition_sync :
  AccessPolicy.split_condition "has_model_or_domain_or_obj_perms:rpm.sync_rpmrepository"
  = ("has_model_or_domain_or_obj_perms", Some "rpm.sync_rpmrepository")
  /\ AccessPolicy.split_condition "has_perms_to_copy" = ("has_perms_to_copy", None).
Proof. split; reflexivity. Qed.

Example required_permissions_versions :
  AccessPolicy.required_permissions RpmRepositoryVersionViewSet.DEFAULT_ACCESS_POLICY
  = [ "rpm.view_rpmrepository"; "rpm.delete_rpmrepository"; "rpm.view_rpmrepository";
      "rpm.delete_rpmrepository_version"; "rpm.view_rpmrepository";
      "rpm.repair_rpmrepository"; "rpm.view_rpmrepository" ].
Proof. reflexivity. Qed.

(** X22: the role [rpm.admin] is complete: it holds every permission that
    a condition of an access policy of these viewsets asks about, and every
    permission of every other locked role, so that no action these policies
    guard by a permission is out of the administrator's reach. *)
Theorem admin_holds_every_permission :
  (forall p perm,
     p ∈ access_policies -> perm ∈ AccessPolicy.required_permissions p ->
     perm ∈ admin)
  /\ (forall roles role perms perm,
        roles ∈ locked_roles -> roles !! role = Some perms -> perm ∈ perms ->
        perm ∈ admin).
Proof.
  split.
  - assert (H : Forall (fun p => Forall (fun perm => perm ∈ admin)
                                   (AccessPolicy.required_permissions p))
                       access_policies)
      by (apply (bool_decide_unpack _); vm_compute; exact I).
    intros p perm Hp Hperm.
    rewrite Forall_forall in H. specialize (H p Hp).
    rewrite Forall_forall in H. now apply H.
  - assert (H : Forall (fun roles =>
                          map_Forall (fun _ perms => Forall (fun perm => perm ∈ admin) perms)
                                     roles)
                       locked_roles)
      by (apply (bool_decide_unpack _); vm_compute; exact I).
    intros roles role perms perm Hroles Hrole Hperm.
    rewrite Forall_forall in H. specialize (H roles Hroles role perms Hrole).
    rewrite Forall_forall in H. now apply H.
Qed.

(** The witness of [admin_holds_every_permission]: the permission the sync
    action asks about. *)
Lemma admin_holds_every_permission_witness : "rpm.sync_rpmrepository" ∈ admin.
Proof.
  apply (proj1 admin_holds_every_permission RpmRepositoryViewSet.DEFAULT_ACCESS_POLICY).
  - unfold access_policies. in_list.
  - apply list_elem_of_In. vm_compute. tauto.
Defined.

(** X23: the creator of an object can act on it. Each viewset of a model
    has one creation hook, [add_roles_for_object_creator], and the role it
    gives is a locked role of the viewset that holds the permission the
    queryset is filtered by and every permission the statements of the
    policy ask about on the object itself. For repositories the role also
    holds every permission the policy of the repository versions asks about
    on the repository. *)
Theorem creator_holds_object_permissions
    (policy : AccessPolicy.t) (roles : gmap string (list string)) (filter : string) :
  (policy, roles, filter) ∈ model_viewsets ->
  exists hook perms,
    AccessPolicy.creation_hooks policy = [hook]
    /\ AccessPolicy.function hook = "add_roles_for_object_creator"
    /\ roles !! AccessPolicy.roles hook = Some perms
    /\ filter ∈ perms
    /\ (forall st perm,
          st ∈ AccessPolicy.statements policy ->
          perm ∈ asked_through object_check st -> perm ∈ perms)
    /\ (policy = RpmRepositoryViewSet.DEFAULT_ACCESS_POLICY ->
        forall st perm,
          st ∈ AccessPolicy.statements RpmRepositoryVersionViewSet.DEFAULT_ACCESS_POLICY ->
          perm ∈ asked_through repository_check st -> perm ∈ perms).
Proof.
  assert (H : Forall (fun v : AccessPolicy.t * gmap string (list string) * string =>
              exists hook,
                AccessPolicy.creation_hooks v.1.1 = [hook]
                /\ AccessPolicy.function hook = "add_roles_for_object_creator"
                /\ is_Some (v.1.2 !! AccessPolicy.roles hook)
                /\ v.2 ∈ role_permissions v.1.2 (AccessPolicy.roles hook)
                /\ Forall (fun st =>
                             Forall (fun perm =>
                                       perm ∈ role_permissions v.1.2 (AccessPolicy.roles hook))
                                    (asked_through object_check st))
                          (AccessPolicy.statements v.1.1)
                /\ (v.1.1 = RpmRepositoryViewSet.DEFAULT_ACCESS_POLICY ->
                    Forall (fun st =>
                              Forall (fun perm =>
                                        perm ∈ role_permissions v.1.2
                                                 (AccessPolicy.roles hook))
                                     (asked_through repository_check st))
                           (AccessPolicy.statements
                              RpmRepositoryVersionViewSet.DEFAULT_ACCESS_POLICY)))
            model_viewsets).
  { unfold model_viewsets.
    repeat (constructor;
            [eexists; split; [reflexivity|]; split; [reflexivity|];
             split; [apply (bool_decide_unpack _); vm_compute; exact I|];
             split; [apply (bool_decide_unpack _); vm_compute; exact I|];
             split; [apply (bool_decide_unpack _); vm_compute; exact I|];
             first [ intros _; apply (bool_decide_unpack _); vm_compute; exact I
                   | intros E; apply (f_equal AccessPolicy.creation_hooks) in E;
                     discriminate E ]
            |]).
    constructor. }
  intros Hin. rewrite Forall_forall in H.
  destruct (H _ Hin) as (hook & Hh & Hf & [perms Hr] & Hfilter & Hobj & Hrepo).
  cbn [fst snd] in *. unfold role_permissions in *. rewrite Hr in *. cbn [default] in *.
  exists hook, perms. repeat split; try assumption.
  - intros st perm Hst Hperm. rewrite Forall_forall in Hobj. specialize (Hobj st Hst).
    rewrite Forall_forall in Hobj. now apply Hobj.
  - intros E st perm Hst Hperm. specialize (Hrepo E).
    rewrite Forall_forall in Hrepo. specialize (Hrepo st Hst).
    rewrite Forall_forall in Hrepo. now apply Hrepo.
Qed.

(** The witness of [creator_holds_object_permissions]: the creator of a
    repository holds the permission to delete its versions. *)
Lemma creator_holds_object_permissions_witness :
  exists perms,
    RpmRepositoryViewSet.LOCKED_ROLES !! "rpm.rpmrepository_owner" = Some perms
    /\ "rpm.delete_rpmrepository_version" ∈ perms.
Proof.
  destruct (creator_holds_object_permissions
              RpmRepositoryViewSet.DEFAULT_ACCESS_POLICY RpmRepositoryViewSet.LOCKED_ROLES
              RpmRepositoryViewSet.queryset_filtering_required_permission)
    as (hook & perms & Hh & _ & Hr & _ & _ & Hrepo).
  - unfold model_viewsets. in_list.
  - injection Hh as <-. exists perms. split; [exact Hr|].
    apply (Hrepo eq_refl
             (AccessPolicy.Statement ["destroy"] (AccessPolicy.One "authenticated") "allow"
                (Some (AccessPolicy.Many
                   [ "has_repository_model_or_domain_or_obj_perms:rpm.delete_rpmrepository_version";
                     "has_repository_model_or_domain_or_obj_perms:rpm.view_rpmrepository" ])))).
    + apply list_elem_of_In. vm_compute. tauto.
    + apply list_elem_of_In. vm_compute. tauto.
Defined.

(** X24: nothing is open. Every statement of every access policy of these
    viewsets allows (none denies) and admits authenticated users only, and
    the only actions allowed without a condition are [list] and
    [my_permissions]: every other action is guarded by at least one
    condition. *)
Theorem no_unconditional_access (p : AccessPolicy.t) (st : AccessPolicy.statement) :
  p ∈ access_policies -> st ∈ AccessPolicy.statements p ->
  AccessPolicy.effect st = "allow"
  /\ AccessPolicy.as_list (AccessPolicy.principal st) = ["authenticated"]
  /\ (AccessPolicy.conditions st = [] ->
      forall a, a ∈ AccessPolicy.action st -> a = "list" \/ a = "my_permissions").
Proof.
  assert (H : Forall (fun p =>
                Forall (fun st =>
                          AccessPolicy.effect st = "allow"
                          /\ AccessPolicy.as_list (AccessPolicy.principal st)
                             = ["authenticated"]
                          /\ (AccessPolicy.conditions st = [] ->
                              Forall (fun a => a = "list" \/ a = "my_permissions")
                                     (AccessPolicy.action st)))
                       (AccessPolicy.statements p))
              access_policies)
    by (apply (bool_decide_unpack _); vm_compute; exact I).
  intros Hp Hst. rewrite Forall_forall in H. specialize (H p Hp).
  rewrite Forall_forall in H. destruct (H st Hst) as (He & Hpr & Hc).
  split; [exact He|]. split; [exact Hpr|].
  intros Hnil a Ha. specialize (Hc Hnil). rewrite Forall_forall in Hc. now apply Hc.
Qed.

(** The witness of [no_unconditional_access]: the statement of the copy
    viewset. *)
Lemma no_unconditional_access_witness :
  AccessPolicy.effect
    (AccessPolicy.Statement ["create"] (AccessPolicy.Many ["authenticated"]) "allow"
       (Some (AccessPolicy.Many ["has_perms_to_copy"]))) = "allow".
Proof.
  refine (proj1 (no_unconditional_access CopyViewSet.DEFAULT_ACCESS_POLICY _ _ _)).
  - unfold access_policies. in_list.
  - apply list_elem_of_In. vm_compute. tauto.
Defined.

(** ** The fields of the modulemd serializers *)

(** X25: the declarations of the three modulemd serializers agree with
    their [Meta.fields]. Whatever the inherited fields are, every declared
    field is listed (the REST framework refuses a serializer that declares a
    field it does not list), what is listed after the inherited fields is
    exactly the declared fields, none twice, and [snippet] is declared
    required and write-only. [digest] is not among them: a client cannot
    supply it, [create] computes it. *)
Theorem declared_fields_are_listed
    (declared : list Field.t) (Meta_fields : list string -> list string)
    (base : list string) :
  (declared, Meta_fields) ∈ serializers ->
  (forall f, f ∈ declared -> Field.name f ∈ Meta_fields base)
  /\ (forall n, n ∈ Meta_fields [] <-> exists f, f ∈ declared /\ Field.name f = n)
  /\ NoDup (Meta_fields [])
  /\ (exists f, f ∈ declared /\ Field.name f = "snippet"
                /\ Field.required f = true /\ Field.write_only f = true)
  /\ "digest" ∉ Meta_fields [].
Proof.
  intros Hin.
  assert (H : Forall (fun s : list Field.t * (list string -> list string) =>
                        (exists own, forall b, s.2 b = b ++ own)
                        /\ Forall (fun f => Field.name f ∈ s.2 []) s.1
                        /\ Forall (fun n => n ∈ Field.name <$> s.1) (s.2 [])
                        /\ NoDup (s.2 [])
                        /\ Exists (fun f => Field.name f = "snippet"
                                            /\ Field.required f = true
                                            /\ Field.write_only f = true) s.1
                        /\ "digest" ∉ s.2 [])
                     serializers).
  { unfold serializers.
    repeat (constructor;
            [split; [eexists; intros b; reflexivity|];
             repeat (split; [apply (bool_decide_unpack _); vm_compute; exact I|]);
             apply (bool_decide_unpack _); vm_compute; exact I|]).
    constructor. }
  rewrite Forall_forall in H.
  destruct (H _ Hin) as ([own Hown] & Hd & Hl & Hnd & Hs & Hdig). cbn [fst snd] in *.
  pose proof (proj1 (Forall_forall _ _) Hd) as Hd'.
  pose proof (proj1 (Forall_forall _ _) Hl) as Hl'.
  clear Hd Hl. rename Hd' into Hd, Hl' into Hl.
  split.
  { intros f Hf. specialize (Hd f Hf). rewrite Hown in *. cbn [app] in Hd.
    apply elem_of_app. now right. }
  split.
  { intros n. split.
    - intros Hn. apply Hl in Hn. apply list_elem_of_fmap in Hn as (f & -> & Hf). eauto.
    - intros (f & Hf & <-). now apply Hd. }
  split; [exact Hnd|]. split; [|exact Hdig].
  apply Exists_exists in Hs as (f & Hf & Hs). eauto.
Qed.

(** The witness of [declared_fields_are_listed]: the modulemd serializer
    lists [packages], after whatever it inherits. *)
Lemma declared_fields_are_listed_witness :
  "packages" ∈ ModulemdSerializer.Meta_fields ["pulp_href"].
Proof.
  refine (proj1 (declared_fields_are_listed ModulemdSerializer.declared_fields
                   ModulemdSerializer.Meta_fields ["pulp_href"] _)
            (Field.mk "packages" Field.DetailRelatedField false true false true) _).
  - unfold serializers. in_list.
  - unfold ModulemdSerializer.declared_fields. in_list.
Defined.

(** ** Readers and writers of one repository *)

(** A resource one task holds exclusively and the other holds in whatever
    mode keeps the two apart. *)
Lemma exclusive_keeps_apart (t1 t2 : Task.t) (r : resource_kind * string) :
  r ∈ reserved_exclusive t1 ->
  r ∈ reserved_exclusive t2 ++ reserved_shared t2 ->
  may_run_together t1 t2 = false /\ may_run_together t2 t1 = false.
Proof.
  intros H1 H2.
  assert (He : excludes t1 t2 = true).
  { unfold excludes. apply existsb_exists. exists r. split.
    - now apply list_elem_of_In.
    - now apply bool_decide_eq_true. }
  unfold may_run_together. rewrite He. split; [reflexivity|].
  now rewrite andb_false_r.
Qed.

(** X26: readers and writers of one repository, under the lock rule. A
    sync of a repository never runs together with the publish of a version
    of that repository, nor with a copy that reads from a version of it: the
    sync locks the repository the other one shares. Two publish tasks always
    may run together, of one repository or of two: they lock nothing. *)
Theorem readers_exclude_writers
    (repository : RpmRepository.t) (sync_data : gmap string val) (w w' : World)
    (ts : Task.t) :
  RpmRepositoryViewSet.sync repository sync_data w
    = (Ok (OperationPostponedResponse ts), w') ->
  (forall publish_data w1 w1' tp rv,
     RpmPublicationViewSet.create publish_data w1
       = (Ok (OperationPostponedResponse tp), w1') ->
     publish_data !! "repository_version" = Some (VVersion rv) ->
     Repository.pk (RepositoryVersion.repository rv) = RpmRepository.pk repository ->
     may_run_together ts tp = false /\ may_run_together tp ts = false)
  /\ (forall get_resource extract_pk copy_data w1 w1' tc config entry source_ref
             source_version,
        CopyViewSet.create get_resource extract_pk copy_data w1
          = (Ok (OperationPostponedResponse tc), w1') ->
        copy_data !! "config" = Some (VList config) ->
        VDict entry ∈ config ->
        entry !! "source_repo_version" = Some source_ref ->
        get_resource source_ref cRepositoryVersion = Ok source_version ->
        Repository.pk (RepositoryVersion.repository source_version)
          = RpmRepository.pk repository ->
        may_run_together ts tc = false /\ may_run_together tc ts = false)
  /\ (forall data1 w1 w1' t1 data2 w2 w2' t2,
        RpmPublicationViewSet.create data1 w1
          = (Ok (OperationPostponedResponse t1), w1') ->
        RpmPublicationViewSet.create data2 w2
          = (Ok (OperationPostponedResponse t2), w2') ->
        may_run_together t1 t2 = true).
Proof.
  intros Hs.
  apply sync_ok in Hs as (remote & _ & _ & _ & Hex & _).
  assert (Hlock : (KRepository, RpmRepository.pk repository) ∈ reserved_exclusive ts).
  { unfold reserved_exclusive. rewrite Hex. cbn. apply list_elem_of_singleton.
    reflexivity. }
  split; [|split].
  - intros publish_data w1 w1' tp rv Hp Hv Hpk.
    apply publish_ok in Hp as (rv' & Hv' & _ & Hsh & _).
    unfold dict_get in Hv'. rewrite Hv in Hv'. injection Hv' as <-.
    apply (exclusive_keeps_apart ts tp _ Hlock).
    apply elem_of_app. right. unfold reserved_shared. rewrite Hsh. cbn.
    rewrite Hpk. apply list_elem_of_singleton. reflexivity.
  - intros gr ep copy_data w1 w1' tc config entry source_ref source_version
           Hc Hcfg Hin He Hg Hpk.
    apply copy_ok in Hc as (dep & config' & outs & _ & Hcfg' & HF & _ & _ & Hsh & _).
    rewrite Hcfg in Hcfg'. injection Hcfg' as <-.
    apply list_elem_of_lookup in Hin as (i & Hi).
    destruct (Forall2_lookup_l _ _ _ _ _ HF Hi) as (out & Hout & Hproc).
    destruct Hproc as (d & sref & sv & dref & [= <-] & Hd & Hgs & _ & _ & Hrepo & _).
    rewrite He in Hd. injection Hd as <-. rewrite Hg in Hgs. injection Hgs as <-.
    apply (exclusive_keeps_apart ts tc _ Hlock).
    apply elem_of_app. right. unfold reserved_shared. rewrite Hsh.
    rewrite <- list_fmap_compose. apply list_elem_of_fmap. exists out. split.
    + cbn. now rewrite Hrepo, Hpk.
    + apply list_elem_of_lookup. now exists i.
  - intros data1 w1 w1' t1 data2 w2 w2' t2 H1 H2.
    apply publish_ok in H1 as (rv1 & _ & _ & _ & He1 & _).
    apply publish_ok in H2 as (rv2 & _ & _ & _ & He2 & _).
    unfold may_run_together, excludes, reserved_exclusive.
    now rewrite He1, He2.
Qed.

(** The witness of [readers_exclude_writers]: the sync of a repository and
    the publish of its version 1. *)
Lemma readers_exclude_writers_witness :
  let remote := RpmRemote.mk "m1" "remote" in
  let repo := Repository.mk "r1" "repo" in
  let repository := RpmRepository.mk repo (Some remote) 0 false None VNone VNone VNone in
  let version := RepositoryVersion.mk "v1" repo 1 in
  let ts := sync_task repository ∅ remote in
  let tp :=
    Task.mk publish [MRepository repo] [] []
      (<["repository_version_pk" := VUuid "v1"]>
       (<["metadata_signing_service" := VNone]>
        (<["checksum_type" := VNone]>
         (<["repo_config" := VNone]>
          (<["compression_type" := VNone]> ∅))))) in
  may_run_together ts tp = false.
Proof.
  intros remote repo repository version ts tp.
  set (w := mkWorld [version] (<["r1" := repository]> ∅) [] []).
  assert (Hs : RpmRepositoryViewSet.sync repository ∅ w
               = (Ok (OperationPostponedResponse ts),
                  mkWorld [version] (<["r1" := repository]> ∅) [] [ts]))
    by (vm_compute; reflexivity).
  refine (proj1 (proj1 (readers_exclude_writers repository ∅ w _ ts Hs)
                   (<["repository_version" := VVersion version]> ∅) w
                   (mkWorld [version] (<["r1" := repository]> ∅) [] [tp]) tp version
                   _ _ _)).
  - vm_compute; reflexivity.
  - vm_compute; reflexivity.
  - reflexivity.
Defined.

(** ** The listing *)

(** X27: the listing has no duplicates. In a checkpoint-enabled
    distribution whose checkpoints are ordered by creation time and have
    valid creation times, the base path lists one timestamp for each
    checkpoint, all different: the set of timestamps a client finds in the
    listing has as many members as there are checkpoints, which is what
    test_base_path_lists_checkpoints counts. *)
Theorem listing_has_no_duplicates
    (pubs : list Publication.t) (d : Distribution.t) (now : datetime.t) :
  Distribution.checkpoint d = true ->
  strictly_increasing (CheckpointResolver.checkpoint_sequence pubs d) ->
  (forall p, p ∈ CheckpointResolver.checkpoint_sequence pubs d ->
             datetime.valid (Publication.created_at p) = true) ->
  exists timestamps,
    CheckpointResolver.get pubs d (Distribution.base_url d) now
      = CheckpointResolver.Listing timestamps
    /\ NoDup timestamps
    /\ length timestamps = length (CheckpointResolver.checkpoint_sequence pubs d).
Proof.
  intros Hc Hinc Hvalid.
  eexists. split; [apply (get_base_url pubs d now Hc)|].
  split; [|apply length_fmap].
  apply NoDup_fmap_2_strong.
  - intros p q Hp Hq E.
    apply (strictly_increasing_inj _ p q Hinc Hp Hq).
    apply strftime_inj; [now apply Hvalid | now apply Hvalid | exact E].
  - apply NoDup_alt. intros i j p Hi Hj.
    destruct (Nat.lt_trichotomy i j) as [Hlt | [-> | Hgt]]; [|reflexivity|].
    + pose proof (Hinc i j p p Hlt Hi Hj) as H.
      now rewrite datetime_ltb_irrefl in H.
    + pose proof (Hinc j i p p Hgt Hj Hi) as H.
      now rewrite datetime_ltb_irrefl in H.
Qed.

(** The witness of [listing_has_no_duplicates]: the setup of
    test_checkpoint.py lists two timestamps. *)
Lemma listing_has_no_duplicates_witness :
  exists timestamps,
    CheckpointResolver.get CheckpointFixtures.pubs CheckpointFixtures.distribution
      (Distribution.base_url CheckpointFixtures.distribution) CheckpointFixtures.now
      = CheckpointResolver.Listing timestamps
    /\ NoDup timestamps
    /\ length timestamps = 2%nat.
Proof.
  apply (listing_has_no_duplicates CheckpointFixtures.pubs CheckpointFixtures.distribution
           CheckpointFixtures.now).
  - reflexivity.
  - replace (CheckpointResolver.checkpoint_sequence CheckpointFixtures.pubs
               CheckpointFixtures.distribution)
      with [CheckpointFixtures.p1; CheckpointFixtures.p3] by (vm_compute; reflexivity).
    apply strictly_increasing_pair. vm_compute; reflexivity.
  - intros q Hq.
    replace (CheckpointResolver.checkpoint_sequence CheckpointFixtures.pubs
               CheckpointFixtures.distribution)
      with [CheckpointFixtures.p1; CheckpointFixtures.p3] in Hq by (vm_compute; reflexivity).
    apply list_elem_of_In in Hq. simpl in Hq.
    destruct Hq as [<- | [<- | []]]; vm_compute; reflexivity.
Defined.
